(* ===== verification/_CoqProject ===== *)
-Q . S2P
Prelude.v
Python.v
ErrorStr.v
Framing.v
PyStr.v
Primality.v
Rsa.v
Encrypt.v
FileSystem.v
Makedirs.v
Http.v
Client.v
Requests.v
ServiceErrors.v
Upload.v
GuessType.v
Download.v
Concurrency.v
Login.v
AuthState.v
Packaging.v
