(* ===== verification/Prelude.v ===== *)
(** * A verification development of pyncloud

    pyncloud ([src/pyncloud/pyncloud.py], Python 2) is a client for the
    Naver cloud drive.  It has two parts that talk to each other through
    one object, [Ndrive]:
    - the login: [get_ndrive(nid, npw)] fetches key material, encrypts
      the credentials with [_encrypt] (which frames them with
      [_naver_style_join] and calls python-rsa), posts the login form
      through a [requests.Session], follows the redirect found in the
      answer, and returns [Ndrive(nid, session)];
    - the client: the methods of [Ndrive] resolve the user index once
      ([check_status], cached in [self._useridx]), then send one request
      each and check the JSON answer with [_check_error]; [download]
      also writes to the local file system.
    [src/setup.py] packages the module with distutils.

    ** Files, in dependency order

    - [Prelude]: the scope [py_scope], the hint databases [pync]
      (resolve and rewrite), string lemmas ([+:+] is stdpp's
      [String.append], which [simpl] does not unfold), the tactics
      [str_simpl], [invc], [case_match_eq].
    - [Python]: the Python 2 runtime: values [pyval] ([str] and the
      [unicode] objects [json.loads] returns told apart), truthiness
      ([truthy]), [!=] on integers ([py_ne_int]), subscription
      ([getitem], last binding wins), the exceptions [exc] ([NdriveError]
      among them), the error monad [result] and the state monad
      [PyM S A = S -> result A * S], which keeps the state reached when
      an exception unwinds, with [catch] for [try/except].
    - [ErrorStr]: [NdriveError.__str__] and the [str()] that calls it,
      with Python 2's promotion of [%] formatting to [unicode] and the
      ASCII codec.
    - [Framing]: [_naver_style_join] ([naver_style_join]) and a reference
      decoder [naver_style_split].
    - [PyStr]: [str.split], the four-way unpacking, [int(s, 16)] with
      CPython 2.7's grammar, [encode('hex')] and its inverse.
    - [Primality]: certificates (63-bit trial division, Pocklington)
      proving the test keys prime; no code of the repository.
    - [Rsa]: python-rsa, which the code calls but the repository does not
      contain: [byte_size], [bytes2int], [int2bytes], the padding loop
      over [os.urandom] ([pad_loop], [pad_for_encryption]),
      [encrypt_int], [rsa.encrypt] ([rsa_encrypt], [encrypt] on a
      [PublicKey] record whose constructor takes the modulus first) and
      the decryption of the server side ([rsa_decrypt]).
    - [Encrypt]: [_encrypt], composed of the above.
    - [FileSystem]: the file system [fs] (a stdpp [gmap] from normalised
      paths to [Dir] and [File]) and CPython 2.7's [posixpath.split],
      [os.path.dirname], [isdir], [exists], [os.mkdir], [os.makedirs]
      and [open(p, 'wb+')].
    - [Makedirs]: paths [join_path absolute cs] built from components,
      and the lemmas that [posixpath.split] takes them apart one
      component at a time; no code of its own.
    - [Http]: requests and responses, the server as the class
      [Transport] (an answer for each request given the ones before it,
      or a network failure), the world (the request log and the file
      system) and [send].
    - [Client]: [Ndrive]: the state [cstate] (the fields [_userid] and
      [_useridx] of [self], and the world), the requests each method
      builds, and every method as a [PyM cstate] computation: the
      resolution [resolve_useridx] followed by the method's statements
      after it ([_list_body], [make_dir_body], ..., [move_body]); the
      MIME guesser is the class [MimeTypes].
    - [Requests]: the shape of every request of the client
      ([ndrive_request]: through the session, to the Ndrive host, with
      [userid] and [useridx]).
    - [ServiceErrors]: the methods whose answer goes through
      [_check_error] first, on an error answer.
    - [Upload]: [upload] on an accepting server.
    - [GuessType]: Python 2.7's [mimetypes.guess_type], which [upload]
      calls: [urllib.splittype], [posixpath.splitext], the data-URL
      branch, the [suffix_map] loop and the [encodings_map] and
      [types_map] lookups ([mimetypes_guess_type]); the types table is a
      parameter, and [python_mimetypes] is the [MimeTypes] instance
      [upload] uses, [guess_type(target_path)[0]].
    - [Download]: [download] into a destination whose parents are
      missing, composed from the Makedirs lemmas.
    - [Concurrency]: threads running methods on one shared [Ndrive];
      each call is cut into the test [not self._useridx] ([PCheck]),
      [check_status] ([PResolve]) and the method's body ([PBody]), and
      [step] lets any thread that has not ended run its next part.
    - [Login]: [get_ndrive], the scanner [re_search_redirect] for the
      redirect pattern, and the runs of the handshake as the inductive
      relation [handshake].
    - [AuthState]: the spec's session state machine ([spec_step]) and the
      abstraction of the client to it ([auth_of]: resolved when
      [self._useridx] is truthy); the states a caller observes in a
      login followed by calls ([session_trace]).
    - [Packaging]: src/setup.py (the import of [setup] on line 1,
      [setup_import], and the keyword arguments of the call,
      [setup_kwargs]), the import lines of pyncloud.py, and the library
      functions [distutils.core.setup] (Python 2.7's option loop of
      [Distribution.__init__]) and [setuptools.setup], modelled from the
      libraries.
    The theorems about a component are proved against the interfaces it
    uses ([Transport], [MimeTypes]) and so hold for every server and
    guesser; the witnesses instantiate them with small test instances.

    ** What the theorems show

    - The credential encoder is correct (Encrypt): for key material
      holding an RSA modulus and exponent, [_encrypt] returns the key
      name and a hex ciphertext that the server decrypts to the framed
      credentials, from which it reads [session_key], [uid], [upw] back.
      It rests on the round trip of the framing (Framing), on
      [rsa.encrypt] producing a PKCS#1 v1.5 block with nonzero padding
      (Rsa), and on textbook RSA being inverted by [d] (Rsa, from
      Fermat's little theorem in Stdlib's [ZmodInv]).  The code passes
      [(e, n)] to [rsa.PublicKey(n, e)]: the third field of the key
      material is the modulus, contrary to the spec, so whenever it is
      at most 13 bytes long (an exponent such as the spec's [3] or
      [10001]) [_encrypt] raises [OverflowError], whatever the fourth.
    - The handshake (Login): every run of [get_ndrive] is a run of the
      relation [handshake], in which the three requests are sent in order
      and each only after the step before succeeded; the scanner returns
      exactly the group of the leftmost match of the redirect pattern.
      A page without the redirect raises [AttributeError].  End to end,
      a login against RSA key material and a page holding the redirect
      returns [Ndrive(nid)] after exactly the three requests, and the
      [encpw] it posts decrypts to the framed [session_key], [nid] and
      [npw].  (AuthState) A login followed by any calls moves only
      along the spec's state machine, stuttering allowed: a failed
      handshake ends in [LoginFailed], a successful one in
      [Authenticated(unresolved)], and a resolved client never becomes
      unresolved.
    - The client (Client): every operation sends the status request
      first exactly when [_useridx] is falsy, and no other status
      request; a user index [0] is therefore never cached.
      [_check_error], [_list], [check_status] and [download] have their
      functional behaviour on every branch.  [check_upload] can never
      succeed: line 5 binds [datetime] to the class, and the lookup
      [datetime.datetime] in its dict literal raises [AttributeError]
      (attribute access is [getattr] on the modelled [datetime] module
      and class, Python.v and Client.v).  [download] to a bare file name
      fails.  (Requests) Every
      request any operation sends is a session request to the Ndrive
      host carrying [self._userid] and, but for the status request, the
      resolved [self._useridx]; no operation changes [self._userid].
      (ServiceErrors) On an answer with a non-zero [resultcode], every
      method that checks it raises [NdriveError(resultcode, message)]
      after one request, leaving [self] and the file system unchanged;
      [exists], whose [try] encloses the resolution, returns [False] when
      the status request is refused with code [11], without asking about
      the path.
      (Upload) On an accepting server [upload] returns [True] after one
      PUT of the file's bytes with the headers the spec lists, the MIME
      type defaulting to [application/octet-binary] when the guess is
      missing or empty; [move] sends the source as [orgresource], the
      destination as [dstresource], and always [overwrite=T].  (GuessType) With Python's [mimetypes] as the
      guesser, [guess_type] always returns; for [/name.e.gz] it gives the
      type of [.e] with encoding [gzip] (for [.tgz], the type of [.tar]),
      and [upload], keeping only the type, sends the compressed bytes
      labelled with the type of what they compress and no
      [Content-Encoding] header.
    - The file system (FileSystem, Makedirs, Download): on a missing
      path with no file on its way and whose existing prefixes come
      before its missing ones (a tree), [os.makedirs] returns normally,
      leaves every prefix a directory and changes only the prefixes that
      were missing;
      [download] into a directory that does not exist yet creates its
      parents and writes the body there.
    - Key material (Encrypt): [_encrypt] raises [ValueError] when the
      key material does not split into four fields, and succeeds exactly
      when the framed credentials plus 11 bytes of padding fit in the
      modulus.
    - Concurrency: in every interleaving, a client whose [_useridx] is
      resolved at the start sends no status request at all, and an
      unresolved one at most one per thread (invariants proved by
      induction on the steps, [quiet] and the count of pending threads);
      two first calls can both send one (the race the spec describes),
      which is benign when the server resolves every user to the same
      index: every request of a body then carries that index (an
      invariant on the configurations, [benign]).  A lemma
      ([single_thread_refines]) checks that one thread alone runs
      exactly [run_call].

    - Packaging: the modules pyncloud.py imports from outside the
      standard library, [rsa] and [requests], are declared only under
      [install_requires]; line 1 imports [setup] from [distutils.core],
      which does not know that keyword (setuptools' [setup] does):
      running [setup.py] warns and drops it, keeping every other keyword.

    - Error display (ErrorStr): [str(e)] of an [NdriveError] with an
      integer code and a [str] message determines code and message; with
      the [unicode] message [resp.json()] gives, a non-ASCII character
      makes [str(e)] raise [UnicodeEncodeError].

    ** Bounds and fuel

    - [pad_loop] draws from [os.urandom] at most [rounds ent] times: the
      entropy source is a record of the draws and a bound, and
      [entropy_ok] (every draw of at least one byte holds a nonzero byte,
      and there are more rounds than bytes to fill) is the hypothesis
      under which the loop is proved to return; each round then adds at
      least one byte.
    - [makedirs] runs on fuel; [download] gives it the length of the
      path plus one, which [makedirs_terminates] proves is enough: each
      recursive call is on a strictly shorter head.
    - The [suffix_map] loop of [guess_type] runs on fuel 2: a
      substitution yields [.tar.gz], [.tar.bz2] or [.tar.xz], whose
      extension [suffix_map] does not hold ([suffix_loop_total]).
    - [naver_style_split] runs on fuel [length m + 1]; each field consumes
      at least one byte.
    - Python integers are unbounded: [Z] without wrap-around.  Lengths
      are [nat].

    ** Not modelled

    - [requests]' cookies as such: a [Transport] answers each request
      given the ordered log of the requests before it, so every server
      whose answers depend on the cookies those requests set is one of
      its instances, and the theorems, proved for every [Transport],
      cover them.  Streaming and the encoding of dict fields and headers
      (Python 2 dicts iterate in hash order; the model keeps the order
      of the source) are not modelled.
    - The contents of the system's [mime.types] files, which
      [mimetypes.init()] reads into [types_map]: the table is a
      parameter of [mimetypes_guess_type].
    - [Ndrive.TypeNames] (unused by the code); [str()] of lists, dicts
      and datetimes (the backend's error code and message are scalars).
    - Closing of the file object in [download]; permissions and links of
      the file system.
    - The build and install commands [distutils.core.setup] runs after
      reading its keywords; the theorem about [setup.py] stops at the
      distribution it builds.
    - Interleavings finer than the three parts of a call: the bodies
      read [self] once, at their start, and never write it, so cutting
      them further only reorders the requests of different threads in
      the log, which no theorem observes: they count status requests or
      constrain each request on its own. *)

From stdpp Require Export base list options strings sets.
From Stdlib Require Export ZArith Lia Ascii.
From Stdlib Require String.

Declare Scope py_scope.
Delimit Scope py_scope with py.

Create HintDb pync discriminated.
Create Rewrite HintDb pync.
#[export] Hint Constants Transparent : pync.
#[export] Hint Variables Opaque : pync.

(** ** Strings as Python 2 byte strings

    A Python 2 [str] is a sequence of bytes; an [ascii] of the Standard
    Library is an 8-bit character, so [string] represents it exactly. *)

(** [s1 +:+ s2] is stdpp's notation for [String.append]. *)
Open Scope py_scope.

(** [ord] of a character, as the Python builtin. *)
Definition ord (c : ascii) : nat := nat_of_ascii c.
Arguments ord : simpl never.

(** stdpp declares [String.append] [simpl never]; these are its two
    defining equations, used by rewriting instead. *)
Lemma append_nil_l (s : string) : "" +:+ s = s.
Proof. reflexivity. Qed.

Lemma append_cons (c : ascii) (s1 s2 : string) :
  String c s1 +:+ s2 = String c (s1 +:+ s2).
Proof. reflexivity. Qed.

#[export] Hint Rewrite append_nil_l append_cons : pync.

(** Simplify string expressions with the equations above. *)
Ltac str_simpl := simpl; autorewrite with pync; simpl.

Lemma string_length_append (s1 s2 : string) :
  String.length (s1 +:+ s2) = String.length s1 + String.length s2.
Proof. induction s1; str_simpl; auto. Qed.

Lemma string_append_nil_r (s : string) : s +:+ "" = s.
Proof. induction s; str_simpl; congruence. Qed.

Lemma string_append_assoc (s1 s2 s3 : string) :
  s1 +:+ (s2 +:+ s3) = (s1 +:+ s2) +:+ s3.
Proof. induction s1; str_simpl; congruence. Qed.

#[export] Hint Rewrite string_length_append string_append_nil_r : pync.

Lemma length_list_ascii_of_string (s : string) :
  length (String.list_ascii_of_string s) = String.length s.
Proof. induction s; simpl; auto. Qed.

#[export] Hint Rewrite length_list_ascii_of_string : pync.

Lemma list_ascii_of_string_app (s1 s2 : string) :
  String.list_ascii_of_string (s1 +:+ s2) =
    String.list_ascii_of_string s1 ++ String.list_ascii_of_string s2.
Proof. induction s1; str_simpl; congruence. Qed.

#[export] Hint Rewrite list_ascii_of_string_app : pync.

(** [s[:n]] *)
Lemma substring_0_0 (s : string) : String.substring 0 0 s = "".
Proof. by destruct s. Qed.

#[export] Hint Rewrite substring_0_0 : pync.

Lemma substring_0_length (n : nat) (s : string) :
  String.length (String.substring 0 n s) = min n (String.length s).
Proof. revert s; induction n; intros [|c s]; simpl; auto. Qed.

Lemma substring_0_incl (n : nat) (s : string) (c : ascii) :
  c ∈ String.list_ascii_of_string (String.substring 0 n s) ->
  c ∈ String.list_ascii_of_string s.
Proof.
  revert s; induction n; intros [|x s]; simpl; try set_solver.
Qed.

(** [''.join(l)]: joining with the empty separator is concatenation. *)
Lemma concat_empty_cons (x : string) (l : list string) :
  String.concat "" (x :: l) = x +:+ String.concat "" l.
Proof. destruct l; simpl; [by rewrite string_append_nil_r | done]. Qed.

#[export] Hint Rewrite concat_empty_cons : pync.

(** [substring] on an appended string: the first [length s1] characters
    are [s1] and the rest is [s2]. *)
Lemma substring_append_l (s1 s2 : string) :
  String.substring 0 (String.length s1) (s1 +:+ s2) = s1.
Proof.
  induction s1; str_simpl; [by destruct s2|]. by rewrite IHs1.
Qed.

Lemma substring_append_r (s1 s2 : string) :
  String.substring (String.length s1) (String.length s2) (s1 +:+ s2) = s2.
Proof.
  induction s1; str_simpl; [|done].
  induction s2; simpl; [done|]. by rewrite IHs2.
Qed.

(** The number of characters a suffix drop removes. *)
Fixpoint drop_str (n : nat) (s : string) : string :=
  match n, s with
  | 0, _ => s
  | S n', String _ s' => drop_str n' s'
  | S _, EmptyString => EmptyString
  end.

Lemma drop_str_append (s1 s2 : string) :
  drop_str (String.length s1) (s1 +:+ s2) = s2.
Proof. induction s1; str_simpl; auto. Qed.

Lemma drop_str_length (n : nat) (s : string) :
  String.length (drop_str n s) = String.length s - n.
Proof.
  revert s; induction n; intros [|c s]; simpl; auto; lia.
Qed.

#[export] Hint Rewrite substring_append_l substring_append_r drop_str_append
  drop_str_length : pync.

(** [s.startswith(p)] *)
Lemma string_prefix_spec (p s : string) :
  String.prefix p s = true <-> exists t, s = p +:+ t.
Proof.
  revert s; induction p as [|c p IH]; intros [|d s]; simpl.
  - split; [by exists ""|done].
  - split; [by exists (String d s)|done].
  - split; [done|]. by intros [t ?].
  - destruct (ascii_dec c d) as [->|Hne]; rewrite ?IH; split.
    + intros [t ->]. by exists t.
    + intros [t Ht]. exists t. by injection Ht.
    + done.
    + intros [t Ht]. injection Ht as ->. done.
Qed.

(** Two splittings of a string at the same position agree. *)
Lemma string_append_inj (p1 p2 t1 t2 : string) :
  String.length p1 = String.length p2 -> p1 +:+ t1 = p2 +:+ t2 -> p1 = p2 /\ t1 = t2.
Proof.
  revert p2; induction p1 as [|c p1 IH]; intros [|d p2] Hl He; simplify_eq/=; [done|].
  destruct (IH p2) as [-> ->]; [lia|done|done].
Qed.

(** ** Association lists with string keys *)

(** The value of the first binding of [k]. *)
Fixpoint assoc {V} (l : list (string * V)) (k : string) : option V :=
  match l with
  | [] => None
  | (k', v) :: l' => if String.eqb k k' then Some v else assoc l' k
  end.

Lemma assoc_elem {V} (l : list (string * V)) (k : string) (v : V) :
  assoc l k = Some v -> (k, v) ∈ l.
Proof.
  induction l as [|[k' v'] l IH]; [done|]. cbn [assoc].
  destruct (String.eqb_spec k k') as [->|_]; [intros [= ->]; by left|].
  intros ?%IH. by right.
Qed.

Lemma assoc_in {V} (l : list (string * V)) (k : string) (v : V) :
  assoc l k = Some v -> In k (map fst l).
Proof.
  induction l as [|[k' v'] l IH]; [done|]. cbn [assoc map fst].
  destruct (String.eqb_spec k k') as [->|_]; [by left|]. intros Hk. right. by apply IH.
Qed.


(** ** Arithmetic helpers on bytes *)

Lemma ord_lt_256 (c : ascii) : ord c < 256.
Proof. unfold ord. apply nat_ascii_bounded. Qed.

Lemma ord_ascii_of_nat (n : nat) : n < 256 -> ord (ascii_of_nat n) = n.
Proof. intros H. unfold ord. by apply nat_ascii_embedding. Qed.

#[export] Hint Resolve ord_lt_256 : pync.

(** ** Tactics shared by the development *)

(** Invert a hypothesis and clean up. *)
Ltac invc H := inversion H; clear H; subst.

(** Split every [match]/[if] the goal computes on, keeping equations. *)
Ltac case_match_eq :=
  match goal with
  | |- context [match ?x with _ => _ end] =>
      let E := fresh "E" in destruct x eqn:E
  end.
