(* ===== verification/Python.v ===== *)
(** * The Python 2 runtime seen by pyncloud

    [pyncloud.py] manipulates three kinds of runtime objects whose
    semantics its correctness depends on:
    - values decoded from the backend's JSON answers ([resp.json()]) and
      the values it puts in requests ([pyval]);
    - exceptions, raised by the builtins ([chr], [int], tuple unpacking,
      dictionary subscription) and by the code itself ([NdriveError])
      ([exc]);
    - mutation of [self] and of the outside world, which persists when an
      exception unwinds: the state monad [PyM] returns the state reached
      together with the outcome.
    Floats of JSON are not modelled: the backend's numbers are integers. *)

From S2P Require Import Prelude.
Set Warnings "-register-all".

(** ** Values *)

Inductive pyval : Type :=
| VNone
| VBool (b : bool)
| VInt (z : Z)
| VStr (s : string)
(** a [unicode] object, as [json.loads] returns every JSON string in
    Python 2, by its code points *)
| VUnicode (u : list Z)
| VList (l : list pyval)
| VDict (kvs : list (string * pyval))
(** [datetime.fromtimestamp(t)]: only ever put in a request *)
| VDate (t : Z).

(** Python truthiness ([if not x:]). *)
Definition truthy (v : pyval) : bool :=
  match v with
  | VNone => false
  | VBool b => b
  | VInt z => negb (Z.eqb z 0)
  | VStr s => negb (String.eqb s "")
  | VUnicode u => negb (bool_decide (u = []))
  | VList l => negb (bool_decide (l = []))
  | VDict kvs => negb (bool_decide (kvs = []))
  | VDate _ => true
  end.

(** [v != n] for an integer literal [n]: [True == 1] and [False == 0] in
    Python; a value of any other type differs from every integer. *)
Definition py_ne_int (v : pyval) (n : Z) : bool :=
  match v with
  | VInt z => negb (Z.eqb z n)
  | VBool b => negb (Z.eqb (if b then 1 else 0) n)
  | _ => true
  end.

Lemma py_ne_int_0_false (v : pyval) :
  py_ne_int v 0 = false <-> v = VInt 0 \/ v = VBool false.
Proof.
  destruct v as [| [] | z | | | | |]; simpl; try (split; [discriminate | intros [|]; congruence]).
  - split; [by right | done].
  - destruct (Z.eqb_spec z 0) as [->|Hz]; simpl.
    + split; [by left | done].
    + split; [discriminate | intros [|]; congruence].
Qed.

(** A dict decoded by [json.loads] keeps the last binding of a key. *)
Fixpoint dict_lookup (k : string) (kvs : list (string * pyval)) : option pyval :=
  match kvs with
  | [] => None
  | (k', v) :: rest =>
      match dict_lookup k rest with
      | Some w => Some w
      | None => if String.eqb k k' then Some v else None
      end
  end.

(** Keys in iteration order: the order of first insertion. *)
Fixpoint dict_keys_acc (seen : list string) (kvs : list (string * pyval)) : list string :=
  match kvs with
  | [] => []
  | (k, _) :: rest =>
      if bool_decide (k ∈ seen) then dict_keys_acc seen rest
      else k :: dict_keys_acc (k :: seen) rest
  end.
Definition dict_keys (kvs : list (string * pyval)) : list string :=
  dict_keys_acc [] kvs.

(** ** Exceptions *)

Inductive errno : Type := ENOENT | EEXIST | ENOTDIR | EISDIR.

#[export] Instance errno_eq_dec : EqDecision errno.
Proof. solve_decision. Defined.

Inductive exc : Type :=
| ValueError (msg : string)
| KeyError (key : string)
| TypeError (msg : string)
| AttributeError (msg : string)
| OverflowError (msg : string)
(** the ASCII codec failing on a character or byte of 128 or more *)
| UnicodeEncodeError (msg : string)
| UnicodeDecodeError (msg : string)
| AssertionError
(** [rsa.pkcs1.DecryptionError] *)
| DecryptionError
| OSError (e : errno) (path : string)
| IOError (e : errno) (path : string)
(** [requests.exceptions.ConnectionError]: transport failure *)
| ConnectionError (url : string)
(** [NdriveError(code, message)] of pyncloud.py *)
| NdriveError (code : pyval) (message : pyval)
(** Not a Python exception: a loop that the code runs until it succeeds
    did not finish within the number of rounds the model explores.  The
    theorems show when that bound is enough. *)
| OutOfFuel.

(** ** Fallible computations *)

Inductive result (A : Type) : Type :=
| Ok (a : A)
| Err (e : exc).
Arguments Ok {A} a.
Arguments Err {A} e.

#[export] Instance result_ret : MRet result := λ A a, Ok a.
#[export] Instance result_bind : MBind result :=
  λ A B f r, match r with Ok a => f a | Err e => Err e end.
#[export] Instance result_fmap : FMap result :=
  λ A B f r, match r with Ok a => Ok (f a) | Err e => Err e end.

Notation "'raise' e" := (Err e) (at level 10) : py_scope.

Lemma bind_Ok {A B} (a : A) (f : A -> result B) : (Ok a ≫= f) = f a.
Proof. reflexivity. Qed.
Lemma bind_Err {A B} (e : exc) (f : A -> result B) : (Err e ≫= f) = Err e.
Proof. reflexivity. Qed.
#[export] Hint Rewrite @bind_Ok @bind_Err : pync.

Lemma bind_eq_Ok {A B} (r : result A) (f : A -> result B) (b : B) :
  (r ≫= f) = Ok b <-> exists a, r = Ok a /\ f a = Ok b.
Proof.
  destruct r; simpl; split; intros H.
  - eauto.
  - by destruct H as (? & [= ->] & ?).
  - discriminate.
  - by destruct H as (? & ? & ?).
Qed.

(** Python [l[i]] on a value: only dicts are subscripted by strings. *)
Definition getitem (v : pyval) (k : string) : result pyval :=
  match v with
  | VDict kvs =>
      match dict_lookup k kvs with
      | Some w => Ok w
      | None => raise (KeyError k)
      end
  | VList _ => raise (TypeError "list indices must be integers, not str")
  | VStr _ => raise (TypeError "string indices must be integers, not str")
  | VNone => raise (TypeError "'NoneType' object has no attribute '__getitem__'")
  | _ => raise (TypeError "object has no attribute '__getitem__'")
  end.

(** Modules, classes and their functions, as far as attribute access
    goes: a module maps names to objects, a class lists the names of its
    attributes. *)
Inductive pyobj : Type :=
| PyModule (name : string) (attrs : list (string * pyobj))
| PyClass (qualname : string) (attrs : list string)
| PyFunction (qualname : string).

(** [getattr(o, a)], with Python 2's messages. *)
Definition getattr (o : pyobj) (a : string) : result pyobj :=
  match o with
  | PyModule _ attrs =>
      match assoc attrs a with
      | Some v => Ok v
      | None => raise (AttributeError ("'module' object has no attribute '" +:+ a +:+ "'"))
      end
  | PyClass q names =>
      if existsb (String.eqb a) names then Ok (PyFunction (q +:+ "." +:+ a))
      else raise (AttributeError ("type object '" +:+ q +:+ "' has no attribute '" +:+ a +:+ "'"))
  | PyFunction _ =>
      raise (AttributeError ("'builtin_function_or_method' object has no attribute '" +:+ a +:+ "'"))
  end.

(** Python [for x in v]. *)
Definition py_iter (v : pyval) : result (list pyval) :=
  match v with
  | VList l => Ok l
  | VDict kvs => Ok (map VStr (dict_keys kvs))
  | VStr s => Ok (map (λ c, VStr (String c EmptyString)) (String.list_ascii_of_string s))
  | _ => raise (TypeError "object is not iterable")
  end.

(** [mapM] in the result monad: a list comprehension whose body may
    raise stops at the first exception. *)
Fixpoint map_result {A B} (f : A -> result B) (l : list A) : result (list B) :=
  match l with
  | [] => Ok []
  | x :: rest => y ← f x; ys ← map_result f rest; Ok (y :: ys)
  end.

Lemma map_result_Ok {A B} (f : A -> result B) (l : list A) :
  (forall x, x ∈ l -> exists y, f x = Ok y) ->
  exists ys, map_result f l = Ok ys /\ length ys = length l.
Proof.
  induction l as [|x l IH]; intros Hf; simpl; [by exists []|].
  destruct (Hf x) as [y ->]; [set_solver|].
  destruct IH as (ys & -> & Hlen); [intros; apply Hf; set_solver|].
  exists (y :: ys). simpl. auto.
Qed.

(** ** Stateful computations

    [PyM S A] runs from a state [S] (the fields of [self] and the outside
    world) to the outcome and the state reached; the state reached is kept
    when the outcome is an exception, as in Python. *)

Definition PyM (S A : Type) : Type := S -> result A * S.

#[export] Instance pym_ret {S} : MRet (PyM S) := λ A a s, (Ok a, s).
#[export] Instance pym_bind {S} : MBind (PyM S) :=
  λ A B f m s, match m s with
               | (Ok a, s') => f a s'
               | (Err e, s') => (Err e, s')
               end.

Definition throw {S A} (e : exc) : PyM S A := λ s, (Err e, s).
Definition lift {S A} (r : result A) : PyM S A := λ s, (r, s).
Definition gets {S A} (f : S -> A) : PyM S A := λ s, (Ok (f s), s).
Definition modify {S} (f : S -> S) : PyM S unit := λ s, (Ok tt, f s).

(** [try: m; except e: h e]: the handler runs from the state reached. *)
Definition catch {S A} (m : PyM S A) (h : exc -> PyM S A) : PyM S A :=
  λ s, match m s with
       | (Ok a, s') => (Ok a, s')
       | (Err e, s') => h e s'
       end.

Lemma pym_bind_run {S A B} (m : PyM S A) (f : A -> PyM S B) (s : S) :
  (m ≫= f) s = match m s with
               | (Ok a, s') => f a s'
               | (Err e, s') => (Err e, s')
               end.
Proof. reflexivity. Qed.

Lemma pym_bind_ok {S A B} (m : PyM S A) (f : A -> PyM S B) (s s' : S) (a : A) :
  m s = (Ok a, s') -> (m ≫= f) s = f a s'.
Proof. intros H. rewrite pym_bind_run, H. reflexivity. Qed.

Lemma pym_bind_err {S A B} (m : PyM S A) (f : A -> PyM S B) (s s' : S) (e : exc) :
  m s = (Err e, s') -> (m ≫= f) s = (Err e, s').
Proof. intros H. rewrite pym_bind_run, H. reflexivity. Qed.

(** Expose the runs of the monad's combinators. *)
Ltac unfold_pym :=
  unfold mbind, pym_bind, mret, pym_ret, gets, lift, modify, throw, catch; simpl.

(** The outcome and the final state of a run. *)
Definition outcome {S A} (m : PyM S A) (s : S) : result A := fst (m s).
Definition final {S A} (m : PyM S A) (s : S) : S := snd (m s).
