(* ===== verification/ErrorStr.v ===== *)
(** * [NdriveError.__str__] and [str()] of an [NdriveError]

    [NdriveError.__str__] (pyncloud.py, lines 54-55) is
    [NdriveError code=Q%sQ message=Q%sQ % (self.code, self.message)],
    Q standing for a double quote.  In Python 2, [%] on a [str] format
    gives a [str] unless an argument is a [unicode] object, in which case
    the whole result is [unicode] (the literal pieces and the [str]
    arguments decoded with the ASCII codec); [str(e)] then encodes a
    [unicode] result with the ASCII codec.  The backend's message comes
    from [resp.json()], which returns [unicode] strings.

    [str_arg] is [%s] of one argument for the scalar values an answer
    holds ([repr] of lists, dicts and datetimes is outside the model),
    [percent_s] the formatting, [ndrive_error_str] the method and
    [str_ndrive_error] the builtin [str] applied to the exception. *)

From S2P Require Import Prelude Python.
From stdpp Require Import pretty.

Local Open Scope Z_scope.

(** The result of [%] formatting: a byte string or a [unicode] object. *)
Inductive text : Type :=
| TBytes (s : string)
| TUni (u : list Z).

(** The bytes of a [str] as numbers. *)
Definition byte_values (s : string) : list Z :=
  map (λ c, Z.of_nat (nat_of_ascii c)) (String.list_ascii_of_string s).

(** [s.decode('ascii')] *)
Definition ascii_decode (s : string) : result (list Z) :=
  if forallb (λ b, b <? 128) (byte_values s) then Ok (byte_values s)
  else raise (UnicodeDecodeError "'ascii' codec can't decode byte: ordinal not in range(128)").

(** [u.encode('ascii')] *)
Definition ascii_encode (u : list Z) : result string :=
  if forallb (λ x, (0 <=? x) && (x <? 128)) u
  then Ok (String.string_of_list_ascii (map (λ x, ascii_of_nat (Z.to_nat x)) u))
  else raise (UnicodeEncodeError "'ascii' codec can't encode character: ordinal not in range(128)").

(** [%s] of one argument: [str(v)], or the object itself if it is
    [unicode]. *)
Definition str_arg (v : pyval) : option text :=
  match v with
  | VNone => Some (TBytes "None")
  | VBool b => Some (TBytes (if b then "True" else "False"))
  | VInt z => Some (TBytes (pretty z))
  | VStr s => Some (TBytes s)
  | VUnicode u => Some (TUni u)
  | VList _ | VDict _ | VDate _ => None
  end.

Definition is_uni (t : text) : bool := match t with TUni _ => true | TBytes _ => false end.

Definition to_uni (t : text) : result (list Z) :=
  match t with TUni u => Ok u | TBytes s => ascii_decode s end.

Definition to_bytes (t : text) : string := match t with TBytes s => s | TUni _ => "" end.

(** [fmt % args] for the format [p0 %s p1 %s p2 ...], given as [p0] and
    the pairs of an argument and the piece after it. *)
Definition percent_s (p0 : string) (rest : list (text * string)) : result text :=
  if existsb (λ '(t, _), is_uni t) rest then
    u0 ← ascii_decode p0;
    us ← map_result (λ '(t, p), a ← to_uni t; b ← ascii_decode p; Ok (a ++ b)) rest;
    Ok (TUni (u0 ++ concat us))
  else Ok (TBytes (p0 +:+ String.concat "" (map (λ '(t, p), to_bytes t +:+ p) rest))).

Definition dquote : ascii := ascii_of_nat 34.

(** The pieces of the format: [NdriveError code=Q], [Q message=Q], [Q]. *)
Definition piece0 : string := "NdriveError code=" +:+ String dquote "".
Definition piece1 : string := String dquote (" message=" +:+ String dquote "").
Definition piece2 : string := String dquote "".

(** [NdriveError.__str__] *)
Definition ndrive_error_str (code message : pyval) : option (result text) :=
  c ← str_arg code; m ← str_arg message; Some (percent_s piece0 [(c, piece1); (m, piece2)]).

(** [str(e)] for [e = NdriveError(code, message)] *)
Definition str_of_text (t : text) : result string :=
  match t with TBytes s => Ok s | TUni u => ascii_encode u end.

Definition str_ndrive_error (code message : pyval) : option (result string) :=
  r ← ndrive_error_str code message; Some (t ← r; str_of_text t).

(** ** Lemmas *)

(** The characters of [str(n)] for an integer: the sign and digits. *)
Definition numeral_char (c : ascii) : Prop := c = "-"%char \/ exists d, c = pretty_N_char d.

Lemma pretty_N_go_chars (x : N) (s : string) :
  Forall numeral_char (String.list_ascii_of_string s) ->
  Forall numeral_char (String.list_ascii_of_string (pretty_N_go x s)).
Proof.
  revert s. induction (N.lt_wf_0 x) as [x _ IH]; intros s Hs.
  destruct (decide (x = 0)%N) as [->|Hx]; [by rewrite pretty_N_go_0|].
  rewrite pretty_N_go_step by lia. apply IH; [apply N.div_lt; lia|].
  constructor; [right; by eexists|done].
Qed.

Lemma pretty_N_chars (x : N) : Forall numeral_char (String.list_ascii_of_string (pretty x)).
Proof.
  unfold pretty, pretty_N. case_decide; [|by apply pretty_N_go_chars].
  constructor; [right; by exists 0%N|constructor].
Qed.

Lemma pretty_Z_chars (z : Z) : Forall numeral_char (String.list_ascii_of_string (pretty z)).
Proof.
  destruct z as [|p|p]; unfold pretty at 1, pretty_Z.
  - constructor; [right; by exists 0%N|constructor].
  - apply pretty_N_chars.
  - rewrite list_ascii_of_string_app. apply Forall_app. split; [constructor; [by left|constructor]|].
    apply pretty_N_chars.
Qed.

Lemma numeral_char_not_quote (c : ascii) : numeral_char c -> c <> dquote.
Proof.
  intros [->|[d ->]] H; vm_compute in H; [discriminate|].
  revert H. unfold pretty_N_char. repeat case_match; discriminate.
Qed.

Lemma numeral_char_ascii (c : ascii) : numeral_char c -> Z.of_nat (nat_of_ascii c) < 128.
Proof.
  intros [->|[d ->]]; [vm_compute; reflexivity|].
  unfold pretty_N_char. repeat case_match; vm_compute; reflexivity.
Qed.

(** A string cut at its first double quote. *)
Lemma split_at_quote (a1 a2 b1 b2 : string) :
  Forall (λ c, c <> dquote) (String.list_ascii_of_string a1) ->
  Forall (λ c, c <> dquote) (String.list_ascii_of_string a2) ->
  a1 +:+ String dquote b1 = a2 +:+ String dquote b2 -> a1 = a2 /\ b1 = b2.
Proof.
  revert a2; induction a1 as [|c a1 IH]; intros [|d a2] H1 H2 He;
    rewrite ?append_cons, ?append_nil_l in He; simplify_eq/=.
  - done.
  - by inversion H2.
  - by inversion H1.
  - inversion H1; inversion H2. destruct (IH a2) as [-> ->]; auto.
Qed.

Lemma ascii_decode_pretty (z : Z) : ascii_decode (pretty z) = Ok (byte_values (pretty z)).
Proof.
  unfold ascii_decode. replace (forallb _ _) with true; [done|]. symmetry.
  apply forallb_forall. intros b Hb. unfold byte_values in Hb.
  apply in_map_iff in Hb as (c & <- & Hc). apply Z.ltb_lt, numeral_char_ascii.
  eapply Forall_forall; [apply pretty_Z_chars|]. by apply list_elem_of_In.
Qed.

Lemma ascii_encode_fails (u : list Z) :
  Exists (λ x, 128 <= x) u -> exists msg, ascii_encode u = Err (UnicodeEncodeError msg).
Proof.
  intros Hx. unfold ascii_encode. destruct (forallb _ u) eqn:E; [|by eexists].
  apply Exists_exists in Hx as (x & Hin & Hx). apply list_elem_of_In in Hin.
  eapply forallb_forall in E; [|exact Hin]. apply andb_true_iff in E as [_ E%Z.ltb_lt]. lia.
Qed.

(** [str(NdriveError(code, message))] with an integer code and a [str]
    message. *)
Lemma str_bytes_message (c : Z) (s : string) :
  str_ndrive_error (VInt c) (VStr s) =
    Some (Ok (piece0 +:+ (pretty c +:+ String dquote (" message=" +:+ String dquote (s +:+ piece2))))).
Proof.
  unfold str_ndrive_error, ndrive_error_str, percent_s. cbn. do 3 f_equal.
  rewrite append_nil_l, <- string_append_assoc. unfold piece1.
  by rewrite append_cons, <- string_append_assoc.
Qed.

(** ** Properties *)

(** C31: what [str(e)] shows of an [NdriveError].  With an integer code
    and a [str] message, [str(e)] is
    [NdriveError code=Q<code>Q message=Q<message>Q], from which code and
    message are determined: two errors printing alike have the same code
    and message.  With a [unicode] message, as [resp.json()] returns,
    holding a character outside ASCII (a Korean message, say), [__str__]
    returns [unicode] and [str(e)] raises [UnicodeEncodeError] instead
    of showing the error. *)
Theorem ndrive_error_str_diagnosis :
  (forall (c1 c2 : Z) (s1 s2 t : string),
     str_ndrive_error (VInt c1) (VStr s1) = Some (Ok t) ->
     str_ndrive_error (VInt c2) (VStr s2) = Some (Ok t) -> c1 = c2 /\ s1 = s2) /\
  (forall (c : Z) (u : list Z), Exists (λ x, 128 <= x) u ->
     exists msg, str_ndrive_error (VInt c) (VUnicode u) = Some (Err (UnicodeEncodeError msg))).
Proof.
  split.
  - intros c1 c2 s1 s2 t H1 H2. rewrite str_bytes_message in H1, H2.
    rewrite <- H2 in H1. injection H1 as He. rewrite !append_nil_l in He.
    apply split_at_quote in He as [Hc He];
      [|eapply Forall_impl; [apply pretty_Z_chars|apply numeral_char_not_quote]..].
    split; [by apply (inj pretty)|].
    apply (inj (String.app " message=")) in He. injection He as He.
    pose proof (f_equal String.length He) as Hl. rewrite !string_length_append in Hl.
    apply string_append_inj in He as [-> _]; [done|lia].
  - intros c u Hu. unfold str_ndrive_error, ndrive_error_str, percent_s. cbn.
    rewrite ascii_decode_pretty. cbn.
    destruct (ascii_encode_fails (byte_values piece0 ++ concat
      [byte_values (pretty c) ++ byte_values piece1; u ++ byte_values piece2])) as [msg Hm].
    { apply Exists_app. right. simpl. apply Exists_app. right. rewrite app_nil_r.
      apply Exists_app. by left. }
    exists msg. rewrite <- Hm. reflexivity.
Qed.

(** ** Witnesses *)

Lemma ndrive_error_str_diagnosis_witness :
  (11 = 11 /\ "no such path" = "no such path") /\
  exists msg, str_ndrive_error (VInt 11) (VUnicode [50504; 51116]) =
                Some (Err (UnicodeEncodeError msg)).
Proof.
  split.
  - eapply (proj1 ndrive_error_str_diagnosis 11 11 "no such path" "no such path");
      reflexivity.
  - apply (proj2 ndrive_error_str_diagnosis). constructor. lia.
Defined.
