(* ===== verification/Framing.v ===== *)
(** * Length-prefixed framing of the credential message

    [_naver_style_join(l)] (pyncloud.py, lines 10-11) builds
    [''.join([chr(len(s)) + s for s in l])]: every field is preceded by
    one byte holding its length.  Python 2's [chr] raises [ValueError]
    for an argument outside [0, 256), so a field of 256 bytes or more
    makes the whole join raise before anything is produced.

    [naver_style_split] is the reference decoder of the format (the one
    the login server applies); it is not code of the repository and is
    used to state the round trip. *)

From S2P Require Import Prelude Python.

(** Python 2 builtin [chr]. *)
Definition py_chr (n : nat) : result ascii :=
  if decide (n < 256) then Ok (ascii_of_nat n)
  else raise (ValueError "chr() arg not in range(256)").

(** [chr(len(s)) + s]: the framed field. *)
Definition frame_field (s : string) : result string :=
  c ← py_chr (String.length s); Ok (String c s).

(** [_naver_style_join]: the comprehension is evaluated first, then
    joined with the empty separator. *)
Definition naver_style_join (l : list string) : result string :=
  parts ← map_result frame_field l; Ok (String.concat "" parts).

(** Reference decoder: read one length byte, then that many bytes. *)
Fixpoint naver_style_split_fuel (fuel : nat) (m : string) : option (list string) :=
  match fuel with
  | 0 => None
  | S fuel' =>
      match m with
      | EmptyString => Some []
      | String c rest =>
          let n := ord c in
          if decide (n <= String.length rest) then
            fields ← naver_style_split_fuel fuel' (drop_str n rest);
            Some (String.substring 0 n rest :: fields)
          else None
      end
  end.

Definition naver_style_split (m : string) : option (list string) :=
  naver_style_split_fuel (S (String.length m)) m.

(** Length of the message the join produces. *)
Definition framed_length (l : list string) : nat :=
  foldr (λ s acc, S (String.length s + acc)) 0 l.

(** ** Lemmas *)

Lemma py_chr_ok (n : nat) : n < 256 -> py_chr n = Ok (ascii_of_nat n).
Proof. intros H. unfold py_chr. by rewrite decide_True. Qed.

Lemma py_chr_err (n : nat) :
  256 <= n -> py_chr n = raise (ValueError "chr() arg not in range(256)").
Proof. intros H. unfold py_chr. rewrite decide_False; [done | lia]. Qed.

Lemma frame_field_ok (s : string) :
  String.length s < 256 ->
  frame_field s = Ok (String (ascii_of_nat (String.length s)) s).
Proof. intros H. unfold frame_field. by rewrite py_chr_ok. Qed.

#[export] Hint Rewrite frame_field_ok using lia : pync.

Lemma naver_style_join_cons (s : string) (l : list string) :
  String.length s < 256 ->
  naver_style_join (s :: l) =
    (rest ← naver_style_join l;
     Ok (String (ascii_of_nat (String.length s)) (s +:+ rest))).
Proof.
  intros H. unfold naver_style_join. cbn [map_result].
  rewrite frame_field_ok by done.
  destruct (map_result frame_field l); cbn -[String.concat]; [|done].
  by rewrite concat_empty_cons, append_cons.
Qed.

Lemma naver_style_join_cons_big (s : string) (l : list string) :
  256 <= String.length s ->
  naver_style_join (s :: l) = raise (ValueError "chr() arg not in range(256)").
Proof.
  intros H. unfold naver_style_join, frame_field. simpl. by rewrite py_chr_err.
Qed.

Lemma naver_style_split_fuel_cons (f : nat) (s rest : string) :
  String.length s < 256 ->
  naver_style_split_fuel (S f) (String (ascii_of_nat (String.length s)) (s +:+ rest)) =
    fields ← naver_style_split_fuel f rest; Some (s :: fields).
Proof.
  intros H. cbn [naver_style_split_fuel]. rewrite ord_ascii_of_nat by done.
  rewrite decide_True by (rewrite string_length_append; lia).
  by rewrite drop_str_append, substring_append_l.
Qed.

(** Enough fuel: the decoder reads back every field of a successful join. *)
Lemma naver_style_split_fuel_join (l : list string) (m : string) (f : nat) :
  naver_style_join l = Ok m -> String.length m < f ->
  naver_style_split_fuel f m = Some l.
Proof.
  revert m f. induction l as [|s l IH]; intros m f Hj Hf.
  - invc Hj. destruct f; [lia|]. reflexivity.
  - destruct (decide (String.length s < 256)) as [Hs|Hs].
    + rewrite naver_style_join_cons in Hj by done.
      destruct (naver_style_join l) as [rest|] eqn:Hl; simpl in Hj; [|done].
      invc Hj. simpl in Hf. rewrite string_length_append in Hf.
      destruct f; [lia|]. rewrite naver_style_split_fuel_cons by done.
      rewrite (IH rest f); auto. lia.
    + by rewrite naver_style_join_cons_big in Hj by lia.
Qed.

Lemma naver_style_join_ok (l : list string) :
  Forall (λ s, String.length s < 256) l ->
  exists m, naver_style_join l = Ok m /\ String.length m = framed_length l.
Proof.
  induction 1 as [|s l Hs _ (m & Hm & Hlen)]; [by exists ""|].
  rewrite naver_style_join_cons, Hm by done. simpl.
  eexists; split; [reflexivity|]. simpl. rewrite string_length_append. lia.
Qed.

(** ** Properties *)

(** C5: round trip of the framing.  When every field is shorter than 256
    bytes, [_naver_style_join] succeeds, its output is
    [sum (1 + len s)] bytes long, and the reference decoder reads the
    fields back from it. *)
Theorem naver_style_join_roundtrip (l : list string) :
  Forall (λ s, String.length s < 256) l ->
  exists m, naver_style_join l = Ok m /\ String.length m = framed_length l /\
            naver_style_split m = Some l.
Proof.
  intros Hl. destruct (naver_style_join_ok l Hl) as (m & Hm & Hlen).
  exists m. repeat split; [done|done|].
  unfold naver_style_split. apply naver_style_split_fuel_join; [done | lia].
Qed.

Lemma naver_style_join_roundtrip_witness :
  Forall (λ s, String.length s < 256) ["abc123"; "u"; "p"] /\
  exists m, naver_style_join ["abc123"; "u"; "p"] = Ok m /\
            String.length m = framed_length ["abc123"; "u"; "p"] /\
            naver_style_split m = Some ["abc123"; "u"; "p"].
Proof.
  assert (H : Forall (λ s, String.length s < 256) ["abc123"; "u"; "p"])
    by (repeat constructor; simpl; lia).
  split; [exact H | apply (naver_style_join_roundtrip _ H)].
Defined.

(** C19: a field of 256 bytes or more makes [_naver_style_join] raise
    Python 2's [ValueError] from [chr]; no truncated length byte is ever
    produced. *)
Theorem naver_style_join_too_long (l : list string) :
  (exists s, s ∈ l /\ 256 <= String.length s) ->
  naver_style_join l = raise (ValueError "chr() arg not in range(256)").
Proof.
  induction l as [|x l IH]; intros (s & Hin & Hs); [set_solver|].
  destruct (decide (String.length x < 256)) as [Hx|Hx].
  - rewrite naver_style_join_cons by done.
    rewrite IH; [done|]. exists s. split; [|done].
    apply elem_of_cons in Hin as [->|]; [lia|done].
  - by apply naver_style_join_cons_big; lia.
Qed.

Lemma naver_style_join_too_long_witness :
  naver_style_join ["abc123"; String.string_of_list_ascii (repeat "x"%char 256); "p"]
    = raise (ValueError "chr() arg not in range(256)").
Proof.
  apply naver_style_join_too_long. exists (String.string_of_list_ascii (repeat "x"%char 256)).
  split; [right; left | simpl; lia].
Defined.

