(* ===== verification/PyStr.v ===== *)
(** * The Python 2 string builtins used by [_encrypt]

    [_encrypt] (pyncloud.py, lines 14-23) calls three builtins on byte
    strings:
    - [key_str.split(',')] followed by a four-way tuple unpacking
      ([py_split], [unpack4]);
    - [int(x, 16)] ([py_int16]); CPython 2.7's [PyInt_FromString],
      [PyOS_strtol] and, for values beyond a C long, [PyLong_FromString]
      all accept the same language: blanks, an optional sign, blanks, an
      optional [0x]/[0X], at least one hexadecimal digit, blanks;
    - [encrypted.encode('hex')] ([hex_encode]), lower-case, two digits per
      byte; [hex_decode] is its inverse ([binascii.unhexlify]). *)

From S2P Require Import Prelude Python.

(** ** [str.split(sep)] with an explicit one-character separator *)

Fixpoint py_split (sep : ascii) (s : string) : list string :=
  match s with
  | EmptyString => [""]
  | String c rest =>
      let fields := py_split sep rest in
      if decide (c = sep) then "" :: fields
      else match fields with
           | f :: fs => String c f :: fs
           | [] => [String c ""]
           end
  end.

(** [a, b, c, d = l] *)
Definition unpack4 (l : list string) : result (string * string * string * string) :=
  match l with
  | [a; b; c; d] => Ok (a, b, c, d)
  | _ :: _ :: _ :: _ :: _ :: _ => raise (ValueError "too many values to unpack")
  | _ => raise (ValueError "need more than n values to unpack")
  end.

(** ** [int(s, 16)] *)

Definition is_space (c : ascii) : bool := Ascii.is_space c.

Definition hex_digit_val (c : ascii) : option nat :=
  let n := nat_of_ascii c in
  if decide (48 <= n <= 57) then Some (n - 48)
  else if decide (97 <= n <= 102) then Some (n - 87)
  else if decide (65 <= n <= 70) then Some (n - 55)
  else None.

(** The longest prefix of hexadecimal digits, and what follows it. *)
Fixpoint span_hex (l : list ascii) : list nat * list ascii :=
  match l with
  | [] => ([], [])
  | c :: r =>
      match hex_digit_val c with
      | Some d => let '(ds, rest) := span_hex r in (d :: ds, rest)
      | None => ([], l)
      end
  end.

(** Value of a big-endian digit sequence in base [b]. *)
Definition digits_value (b : Z) (ds : list nat) : Z :=
  foldl (λ acc d, acc * b + Z.of_nat d)%Z 0%Z ds.

Fixpoint drop_while {A} (p : A -> bool) (l : list A) : list A :=
  match l with
  | [] => []
  | x :: r => if p x then drop_while p r else l
  end.

(** The optional [0x] or [0X] prefix. *)
Definition strip_0x (l : list ascii) : list ascii :=
  match l with
  | "0"%char :: x :: r => if decide (x = "x"%char \/ x = "X"%char) then r else l
  | _ => l
  end.

(** After the sign: optional [0x], digits, trailing blanks. *)
Definition parse_hex_body (l : list ascii) : option Z :=
  let '(ds, rest) := span_hex (strip_0x l) in
  match ds with
  | [] => None
  | _ => if forallb is_space rest then Some (digits_value 16 ds) else None
  end.

(** The optional sign. *)
Definition strip_sign (l : list ascii) : Z * list ascii :=
  match l with
  | "+"%char :: r => (1%Z, r)
  | "-"%char :: r => ((-1)%Z, r)
  | _ => (1%Z, l)
  end.

Definition py_int16 (s : string) : result Z :=
  let '(sign, l') := strip_sign (drop_while is_space (String.list_ascii_of_string s)) in
  match parse_hex_body (drop_while is_space l') with
  | Some v => Ok (sign * v)%Z
  | None => raise (ValueError "invalid literal for int() with base 16")
  end.

(** ** The ['hex'] codec *)

Definition hex_char (n : nat) : ascii :=
  if decide (n < 10) then ascii_of_nat (48 + n) else ascii_of_nat (87 + n).

Fixpoint hex_encode (s : string) : string :=
  match s with
  | EmptyString => EmptyString
  | String c r =>
      String (hex_char (ord c / 16)) (String (hex_char (ord c mod 16)) (hex_encode r))
  end.

Fixpoint hex_decode (s : string) : option string :=
  match s with
  | EmptyString => Some EmptyString
  | String h (String l r) =>
      dh ← hex_digit_val h; dl ← hex_digit_val l; rest ← hex_decode r;
      Some (String (ascii_of_nat (dh * 16 + dl)) rest)
  | String _ EmptyString => None
  end.

(** ** Lemmas *)

Section Split.
Context (sep : ascii).

Lemma py_split_no_sep (f : string) :
  sep ∉ String.list_ascii_of_string f -> py_split sep f = [f].
Proof.
  induction f as [|c f IH]; intros Hf; [done|]. simpl in *.
  rewrite decide_False by set_solver. rewrite IH by set_solver. done.
Qed.

Lemma py_split_field (f rest : string) :
  sep ∉ String.list_ascii_of_string f ->
  py_split sep (f +:+ String sep rest) = f :: py_split sep rest.
Proof.
  induction f as [|c f IH]; intros Hf; str_simpl.
  - by rewrite decide_True.
  - rewrite decide_False by set_solver. rewrite IH by set_solver. done.
Qed.

(** [sep.join(l).split(sep) == l] when no field holds the separator. *)
Lemma py_split_concat (l : list string) :
  l <> [] -> Forall (λ f, sep ∉ String.list_ascii_of_string f) l ->
  py_split sep (String.concat (String sep "") l) = l.
Proof.
  induction l as [|x [|y r] IH]; intros Hne Hl; [done| |].
  - invc Hl. by apply py_split_no_sep.
  - invc Hl. change (String.concat (String sep "") (x :: y :: r))
      with (x +:+ String sep "" +:+ String.concat (String sep "") (y :: r)).
    rewrite append_cons, append_nil_l, py_split_field by done.
    by rewrite IH.
Qed.
End Split.

Lemma unpack4_err (l : list string) :
  length l <> 4 -> exists msg, unpack4 l = raise (ValueError msg).
Proof.
  intros H. destruct l as [|? [|? [|? [|? [|? ?]]]]]; simpl in *; try lia; eauto.
Qed.

Lemma hex_digit_val_hex_char (n : nat) :
  n < 16 -> hex_digit_val (hex_char n) = Some n.
Proof. intros H. do 16 (destruct n as [|n]; [reflexivity|]). lia. Qed.

Lemma ord_div_mod_16 (c : ascii) :
  ascii_of_nat (ord c / 16 * 16 + ord c mod 16) = c.
Proof.
  rewrite (Nat.mul_comm _ 16), <- Nat.div_mod_eq. apply ascii_nat_embedding.
Qed.

Lemma ord_div_16_lt (c : ascii) : ord c / 16 < 16.
Proof. pose proof (ord_lt_256 c). apply Nat.Div0.div_lt_upper_bound. lia. Qed.

Lemma ord_mod_16_lt (c : ascii) : ord c mod 16 < 16.
Proof. apply Nat.mod_upper_bound. lia. Qed.

#[export] Hint Resolve ord_div_16_lt ord_mod_16_lt : pync.

(** The ['hex'] codec is inverted by [unhexlify]. *)
Lemma hex_decode_encode (s : string) : hex_decode (hex_encode s) = Some s.
Proof.
  induction s as [|c s IH]; [done|]. cbn [hex_encode hex_decode].
  rewrite !hex_digit_val_hex_char by auto with pync. rewrite IH. cbn -[Nat.div Nat.modulo].
  by rewrite ord_div_mod_16.
Qed.

(** ** [int(s.encode('hex'), 16)] *)

