(* ===== verification/Primality.v ===== *)
(** * Primality certificates for the test keys

    The witnesses of the RSA theorems instantiate them at concrete keys,
    whose factors must be proved prime.  Two checkers are proved sound:
    - trial division on 63-bit machine integers, for primes of up to
      about 44 bits;
    - Pocklington's criterion with one prime factor [q] of [p - 1] such
      that [q * q > p], which lifts a trial-division certificate of [q]
      to [p] (primes of about 85 bits here).
    Nothing here models code of the repository. *)

From S2P Require Import Prelude.
From Stdlib Require Import Zpow_facts Znumtheory ZmodInv Uint63.

Local Open Scope Z_scope.

(** Fermat's little theorem, in the form RSA uses. *)
Lemma fermat_exp (p m j : Z) :
  Z.prime p -> 0 <= j -> m ^ (1 + j * (p - 1)) mod p = m mod p.
Proof.
  intros Hp Hj. pose proof (Z.prime_ge_2 p Hp).
  rewrite Z.pow_add_r, Z.pow_1_r, (Z.mul_comm j), Z.pow_mul_r by nia.
  destruct (Z.eq_dec (m mod p) 0) as [H0|Hnz].
  - rewrite Z.mul_mod, H0 by lia. done.
  - rewrite Z.mul_mod, <- (Z.mod_pow_l (m ^ (p - 1))), Z.fermat_nz, Z.pow_1_l by first [lia | done].
    rewrite Z.mod_1_l, Z.mul_1_r by lia. apply Z.mod_mod. lia.
Qed.

(** ** Checking primality of test keys by trial division

    The test keys of the witnesses need primes of about 44 bits; trial
    division runs on 63-bit machine integers so that [vm_compute] checks
    them in a second. *)

Fixpoint trial_division (p d : Uint63.int) (fuel : nat) : bool :=
  match fuel with
  | O => false
  | S fuel' =>
      if Uint63.ltb p (Uint63.mul d d) then true
      else if Uint63.eqb (Uint63.mod p d) 0%uint63 then false
      else trial_division p (Uint63.add d 1%uint63) fuel'
  end.

Definition prime_check (p : Z) : bool :=
  Z.leb 2 p && Z.ltb p (2 ^ 62) &&
  trial_division (Uint63.of_Z p) 2%uint63 (S (Z.to_nat (Z.sqrt p))).

Lemma wB_eq : wB = 2 ^ 63.
Proof. reflexivity. Qed.

Lemma trial_division_sound (p d : Uint63.int) (fuel : nat) :
  Uint63.to_Z p < 2 ^ 62 -> 0 < Uint63.to_Z d <= 2 ^ 31 ->
  trial_division p d fuel = true ->
  forall a, Uint63.to_Z d <= a -> a * a <= Uint63.to_Z p -> ~ (a | Uint63.to_Z p).
Proof.
  revert d. induction fuel as [|fuel IH]; intros d Hp Hd H a Ha Haa Hdiv; [done|].
  simpl in H. pose proof (Uint63.to_Z_bounded p) as Hpb.
  assert (Hdd : Uint63.to_Z (Uint63.mul d d) = Uint63.to_Z d * Uint63.to_Z d).
  { rewrite Uint63.mul_spec, wB_eq. apply Z.mod_small. nia. }
  destruct (Uint63.ltb p (Uint63.mul d d)) eqn:Hlt.
  { apply Uint63.ltb_spec in Hlt. nia. }
  assert (Hle : Uint63.to_Z d * Uint63.to_Z d <= Uint63.to_Z p).
  { rewrite <- Hdd. apply Z.nlt_ge. intros Hc. apply Uint63.ltb_spec in Hc. congruence. }
  destruct (Uint63.eqb (Uint63.mod p d) 0%uint63) eqn:Heq; [done|].
  destruct (Z.eq_dec a (Uint63.to_Z d)) as [->|Hne].
  - assert (Hm : Uint63.to_Z (Uint63.mod p d) = 0).
    { rewrite Uint63.mod_spec. apply Z.mod_divide; [lia|done]. }
    assert (Uint63.mod p d = 0%uint63) by (apply Uint63.to_Z_inj; by rewrite Hm).
    apply Uint63.eqb_spec in H0. congruence.
  - assert (Hd1 : Uint63.to_Z (Uint63.add d 1%uint63) = Uint63.to_Z d + 1).
    { rewrite Uint63.add_spec, wB_eq. apply Z.mod_small. simpl. nia. }
    assert (Uint63.to_Z d < 2 ^ 31).
    { apply Z.nle_gt. intros Hge.
      assert (2 ^ 31 * 2 ^ 31 <= Uint63.to_Z d * Uint63.to_Z d) by (apply Z.mul_le_mono_nonneg; lia).
      lia. }
    exact (IH (Uint63.add d 1%uint63) Hp ltac:(rewrite Hd1; lia) H a ltac:(rewrite Hd1; lia) Haa Hdiv).
Qed.

Lemma prime_check_sound (p : Z) : prime_check p = true -> Z.prime p.
Proof.
  unfold prime_check. intros [[Hp Hp']%andb_prop Ht]%andb_prop.
  apply Z.leb_le in Hp. apply Z.ltb_lt in Hp'.
  assert (Hphi : Uint63.to_Z (Uint63.of_Z p) = p).
  { rewrite Uint63.of_Z_spec, wB_eq. apply Z.mod_small. lia. }
  pose proof (trial_division_sound (Uint63.of_Z p) 2%uint63 _ ltac:(rewrite Hphi; lia) ltac:(change (Uint63.to_Z 2%uint63) with 2; lia) Ht) as Hno.
  rewrite Hphi in Hno. change (Uint63.to_Z 2%uint63) with 2 in Hno.
  split; [lia|]. intros n Hn [m Hm].
  assert (1 < m) by nia.
  destruct (Z.le_gt_cases (n * n) p).
  - apply (Hno n); [lia|done|]. by exists m.
  - apply (Hno m); [lia|nia|]. exists n. lia.
Qed.

(** ** Pocklington's criterion *)

Lemma mod_one_divide (x n : Z) : 1 < n -> x mod n = 1 -> (n | x - 1).
Proof.
  intros Hn H. exists (x / n). pose proof (Z.div_mod x n ltac:(lia)). lia.
Qed.

Lemma prime_divisor_exists (n : Z) :
  1 < n -> exists r, Z.prime r /\ (r | n) /\ r <= n.
Proof.
  intros Hn. assert (H0 : 0 <= n) by lia. revert Hn. pattern n.
  apply Z_lt_induction; [|done]. clear n H0. intros n IH Hn.
  destruct (prime_dec n) as [Hp|Hnp].
  - exists n. split_and!; [by apply prime_alt | apply Z.divide_refl | lia].
  - destruct (not_prime_divide n Hn Hnp) as (m & Hm & Hmn).
    destruct (IH m ltac:(lia) ltac:(lia)) as (r & Hr & Hrm & Hle).
    exists r. split_and!; [done | by apply (Z.divide_trans _ m) | lia].
Qed.

(** A number whose square is at most [n] and divides it, when [n] is
    not prime. *)
Lemma composite_small_divisor (n : Z) :
  1 < n -> ~ Z.prime n -> exists m, 1 < m /\ m * m <= n /\ (m | n).
Proof.
  intros Hn Hnp. assert (Hnp' : ~ prime n) by (by rewrite <- prime_alt).
  destruct (not_prime_divide n Hn Hnp') as (k & Hk & [j Hj]).
  destruct (Z.le_gt_cases (k * k) n).
  - exists k. split_and!; [lia | done | by exists j].
  - exists j. split_and!; [nia | nia | exists k; lia].
Qed.

(** Every prime factor [r] of [p] is larger than [q] when [q] is a prime
    factor of [p - 1] and [a] witnesses it. *)
Lemma pocklington_factor (p q R a r : Z) :
  p - 1 = q * R -> Z.prime q -> 0 < R -> 1 < p ->
  a ^ (p - 1) mod p = 1 -> Z.gcd (a ^ R - 1) p = 1 ->
  Z.prime r -> (r | p) -> q < r.
Proof.
  intros Hpq Hq HR Hp Hfermat Hgcd Hr Hrp.
  pose proof (Z.prime_ge_2 q Hq). pose proof (Z.prime_ge_2 r Hr).
  set (x := a ^ R).
  assert (Hxq : x ^ q mod r = 1).
  { unfold x. rewrite <- Z.pow_mul_r, (Z.mul_comm R), <- Hpq by lia.
    destruct (mod_one_divide _ p ltac:(lia) Hfermat) as [k Hk].
    destruct Hrp as [j ->].
    replace (a ^ (j * r - 1)) with (1 + (k * j) * r) by lia.
    rewrite Z.mod_add by lia. apply Z.mod_1_l. lia. }
  assert (Hx1 : ~ (r | x - 1)).
  { intros Hd. assert (Hr1 : (r | 1)).
    { rewrite <- Hgcd. by apply Z.gcd_greatest. }
    apply Z.divide_pos_le in Hr1; lia. }
  assert (Hx0 : x mod r <> 0).
  { intros Hx. rewrite <- Z.mod_pow_l, Hx, Z.pow_0_l in Hxq by lia.
    rewrite Z.mod_0_l in Hxq; lia. }
  destruct (Z.lt_ge_cases q r) as [|Hle]; [done|]. exfalso.
  assert (Hcop : Z.coprime q (r - 1)).
  { apply Z.coprime_prime_l; [done|]. intros Hd. apply Z.divide_pos_le in Hd; lia. }
  destruct (Z.gcd_bezout _ _ _ Hcop) as (u & v & Huv).
  set (u' := u mod (r - 1)).
  assert (Hu' : 0 <= u' < r - 1) by (apply Z.mod_pos_bound; lia).
  assert (Huq : (u' * q) mod (r - 1) = 1 mod (r - 1)).
  { unfold u'. rewrite Z.mul_mod_idemp_l by lia.
    replace (u * q) with (1 + (- v) * (r - 1)) by lia.
    rewrite Z.mod_add by lia. done. }
  destruct (Z.eq_dec r 2) as [->|Hr2].
  - apply Hx1. apply (mod_one_divide _ 2 ltac:(lia)).
    pose proof (Z.mod_pos_bound x 2). lia.
  - rewrite Z.mod_1_l in Huq by lia.
    pose proof (Z.div_mod (u' * q) (r - 1) ltac:(lia)) as Hdm. rewrite Huq in Hdm.
    set (w := (u' * q) / (r - 1)) in Hdm.
    assert (Hw : 0 <= w) by (apply Z.div_pos; nia).
    assert (H1 : x ^ (u' * q) mod r = 1).
    { rewrite (Z.mul_comm u'), Z.pow_mul_r, <- Z.mod_pow_l, Hxq, Z.pow_1_l by lia.
      apply Z.mod_1_l. lia. }
    assert (H2 : x ^ (u' * q) mod r = x mod r).
    { replace (u' * q) with (1 + w * (r - 1)) by lia. by apply fermat_exp. }
    apply Hx1. apply (mod_one_divide _ r ltac:(lia)). congruence.
Qed.

Theorem pocklington (p q R a : Z) :
  p - 1 = q * R -> Z.prime q -> 0 < R -> 1 < p -> p < q * q ->
  a ^ (p - 1) mod p = 1 -> Z.gcd (a ^ R - 1) p = 1 ->
  Z.prime p.
Proof.
  intros Hpq Hq HR Hp Hsq Hf Hg.
  destruct (prime_dec p) as [Hpp|Hnp]; [by apply prime_alt|]. exfalso.
  rewrite <- prime_alt in Hnp.
  destruct (composite_small_divisor p Hp Hnp) as (m & Hm & Hmm & Hmp).
  destruct (prime_divisor_exists m Hm) as (r & Hr & Hrm & Hrle).
  pose proof (pocklington_factor p q R a r Hpq Hq HR Hp Hf Hg Hr
                (Z.divide_trans _ _ _ Hrm Hmp)).
  assert (q * q < m * m) by (apply Z.mul_lt_mono_nonneg; lia). lia.
Qed.

Definition pocklington_check (p q R a : Z) : bool :=
  Z.eqb (p - 1) (q * R) && Z.ltb 0 R && Z.ltb 1 p && Z.ltb p (q * q) &&
  Z.eqb (Zpow_mod a (p - 1) p) 1 && Z.eqb (Z.gcd (Zpow_mod a R p - 1) p) 1 &&
  prime_check q.

Lemma pocklington_check_sound (p q R a : Z) :
  pocklington_check p q R a = true -> Z.prime p.
Proof.
  unfold pocklington_check. rewrite !andb_true_iff, !Z.eqb_eq, !Z.ltb_lt.
  intros ((((((Hpq & HR) & Hp) & Hsq) & Hf) & Hg) & Hq).
  rewrite Zpow_mod_correct in Hf, Hg by lia.
  apply (pocklington p q R a); auto using prime_check_sound; try lia.
  replace (a ^ R - 1) with ((a ^ R mod p - 1) + (a ^ R / p) * p)
    by (pose proof (Z.div_mod (a ^ R) p ltac:(lia)); lia).
  rewrite Z.gcd_comm, Z.gcd_add_mult_diag_r, Z.gcd_comm. exact Hg.
Qed.
