(* ===== verification/Rsa.v ===== *)
(** * PKCS#1 v1.5 encryption as python-rsa implements it

    [_encrypt] (pyncloud.py, lines 20-21) calls [rsa.PublicKey(e, n)] and
    [rsa.encrypt(message, pubkey)] of the python-rsa library.  That code
    is not part of the repository; it is modelled here from the spec
    (section 4.1, "PKCS#1-v1.5-style padding") following the library's
    structure:
    - [rsa.common.byte_size], [rsa.transform.bytes2int] and
      [rsa.transform.int2bytes(n, fill_size)] ([byte_size], [bytes2int],
      [int2bytes]);
    - [rsa.pkcs1._pad_for_encryption]: [00 02], nonzero random bytes,
      [00], the message, with its loop over [os.urandom] ([pad_loop]);
    - [rsa.core.encrypt_int] and Python's three-argument [pow];
    - [rsa.pkcs1.encrypt], and [rsa.pkcs1.decrypt] for a test-only
      private exponent (spec section 8).
    Byte strings are [string]s; big-endian conversions follow the
    little-endian ones of coqutil's LittleEndianList in spirit. *)

From S2P Require Import Prelude Python PyStr Primality.
From Stdlib Require Import Zpow_facts Znumtheory ZmodInv Uint63.

Local Open Scope Z_scope.

(** ** Integers and byte strings *)

(** [int.bit_length] *)
Definition bit_length (n : Z) : Z :=
  if Z.eqb n 0 then 0 else Z.log2 (Z.abs n) + 1.

(** [rsa.common.ceil_div] *)
Definition ceil_div (num div : Z) : Z :=
  let '(q, m) := Z.div_eucl num div in if Z.eqb m 0 then q else q + 1.

(** [rsa.common.byte_size] *)
Definition byte_size (n : Z) : nat :=
  if Z.eqb n 0 then 1%nat else Z.to_nat (ceil_div (bit_length n) 8).

(** [rsa.transform.bytes2int]: big-endian value of a byte string. *)
Definition bytes2int (s : string) : Z :=
  digits_value 256 (map ord (String.list_ascii_of_string s)).

(** The [k] low bytes of [z], big-endian. *)
Fixpoint be_bytes (k : nat) (z : Z) : string :=
  match k with
  | O => EmptyString
  | S k' => String (ascii_of_nat (Z.to_nat ((z / 256 ^ Z.of_nat k') mod 256)))
                   (be_bytes k' z)
  end.

(** [rsa.transform.int2bytes(number, fill_size)]: the minimal big-endian
    encoding ([byte_size number] bytes), left-padded with zero bytes to
    [fill_size] when [fill_size > 0]. *)
Definition int2bytes (number : Z) (fill_size : nat) : result string :=
  if decide (number < 0) then
    raise (ValueError "Number must be an unsigned integer")
  else
    let length := byte_size number in
    if decide (0 < fill_size)%nat then
      if decide (fill_size < length)%nat then
        raise (OverflowError "Need more bytes for number than fill size")
      else Ok (be_bytes fill_size number)
    else Ok (be_bytes length number).

(** ** Lemmas on the conversions *)

Lemma digits_value_acc (b : Z) (acc : Z) (ds : list nat) :
  foldl (λ acc d, acc * b + Z.of_nat d) acc ds =
    acc * b ^ Z.of_nat (length ds) + digits_value b ds.
Proof.
  unfold digits_value. revert acc. induction ds as [|d ds IH]; intros acc; simpl.
  - lia.
  - rewrite IH, (IH (0 * b + Z.of_nat d)). rewrite Nat2Z.inj_succ, Z.pow_succ_r by lia.
    lia.
Qed.

Lemma bytes2int_cons (c : ascii) (s : string) :
  bytes2int (String c s) =
    Z.of_nat (ord c) * 256 ^ Z.of_nat (String.length s) + bytes2int s.
Proof.
  unfold bytes2int. cbn [String.list_ascii_of_string map]. unfold digits_value at 1.
  cbn [foldl]. rewrite digits_value_acc, length_map.
  rewrite length_list_ascii_of_string. lia.
Qed.

Lemma bytes2int_bound (s : string) :
  0 <= bytes2int s < 256 ^ Z.of_nat (String.length s).
Proof.
  induction s as [|c s IH]; [done|]. rewrite bytes2int_cons.
  pose proof (ord_lt_256 c). cbn [String.length]. rewrite Nat2Z.inj_succ, Z.pow_succ_r by lia.
  nia.
Qed.

Lemma bytes2int_inj (s1 s2 : string) :
  String.length s1 = String.length s2 -> bytes2int s1 = bytes2int s2 -> s1 = s2.
Proof.
  revert s2. induction s1 as [|c1 s1 IH]; intros [|c2 s2] Hl Hv; simplify_eq/=; [done|].
  rewrite !bytes2int_cons in Hv. rewrite Hl in Hv.
  pose proof (bytes2int_bound s1). pose proof (bytes2int_bound s2). rewrite Hl in *.
  assert (Hc : Z.of_nat (ord c1) = Z.of_nat (ord c2)) by nia.
  f_equal.
  - unfold ord in Hc. apply Nat2Z.inj in Hc.
    by rewrite <- (ascii_nat_embedding c1), <- (ascii_nat_embedding c2), Hc.
  - apply IH; [done|]. nia.
Qed.

Lemma be_bytes_length (k : nat) (z : Z) : String.length (be_bytes k z) = k.
Proof. induction k; simpl; auto. Qed.

Lemma ord_byte_of (x : Z) :
  0 <= x < 256 -> Z.of_nat (ord (ascii_of_nat (Z.to_nat x))) = x.
Proof. intros H. rewrite ord_ascii_of_nat by lia. lia. Qed.

Lemma bytes2int_be_bytes (k : nat) (z : Z) :
  bytes2int (be_bytes k z) = z mod 256 ^ Z.of_nat k.
Proof.
  induction k as [|k IH]; [simpl; by rewrite Z.mod_1_r|].
  cbn [be_bytes]. rewrite bytes2int_cons, be_bytes_length, IH.
  rewrite ord_byte_of by (apply Z.mod_pos_bound; lia).
  rewrite Nat2Z.inj_succ, Z.pow_succ_r, (Z.mul_comm 256) by lia.
  rewrite Z.rem_mul_r by (try apply Z.pow_nonzero; lia). lia.
Qed.

Lemma be_bytes_bytes2int (s : string) : be_bytes (String.length s) (bytes2int s) = s.
Proof.
  apply bytes2int_inj; [apply be_bytes_length|].
  rewrite bytes2int_be_bytes. apply Z.mod_small, bytes2int_bound.
Qed.

#[export] Hint Rewrite bytes2int_be_bytes be_bytes_bytes2int be_bytes_length : pync.

(** [2^(8k)] and [256^k] *)
Lemma pow_256 (k : Z) : 0 <= k -> 256 ^ k = 2 ^ (8 * k).
Proof. intros Hk. by rewrite Z.pow_mul_r by lia. Qed.

Lemma ceil_div_8_spec (num : Z) :
  1 <= num -> 8 * (ceil_div num 8 - 1) < num <= 8 * ceil_div num 8.
Proof.
  intros H. unfold ceil_div.
  pose proof (Z.div_mod num 8 ltac:(lia)). pose proof (Z.mod_pos_bound num 8 ltac:(lia)).
  unfold Z.modulo, Z.div in *. destruct (Z.div_eucl num 8) as [q m].
  destruct (Z.eqb_spec m 0); lia.
Qed.

(** [byte_size n] bytes hold [n], and [n] needs the last of them. *)
Lemma byte_size_bound (n : Z) :
  0 < n ->
  (1 <= byte_size n)%nat /\
  256 ^ (Z.of_nat (byte_size n) - 1) <= n < 256 ^ Z.of_nat (byte_size n).
Proof.
  intros Hn. unfold byte_size, bit_length.
  destruct (Z.eqb_spec n 0) as [|_]; [lia|]. rewrite Z.abs_eq by lia.
  pose proof (Z.log2_spec n Hn) as [Hlo Hhi]. pose proof (Z.log2_nonneg n).
  pose proof (ceil_div_8_spec (Z.log2 n + 1) ltac:(lia)) as [Hc1 Hc2].
  rewrite Z2Nat.id by lia. split; [lia|].
  rewrite !pow_256 by lia. split.
  - eapply Z.le_trans; [|apply Hlo]. apply Z.pow_le_mono_r; lia.
  - eapply Z.lt_le_trans; [apply Hhi|]. rewrite <- Z.add_1_r. apply Z.pow_le_mono_r; lia.
Qed.

Lemma int2bytes_ok (z : Z) (k : nat) :
  (0 < k)%nat -> 0 <= z < 256 ^ Z.of_nat k -> int2bytes z k = Ok (be_bytes k z).
Proof.
  intros Hk Hz. unfold int2bytes. rewrite decide_False by lia. rewrite decide_True by done.
  destruct (decide (z = 0)) as [->|Hz0].
  - rewrite decide_False; [done|]. unfold byte_size. simpl. lia.
  - rewrite decide_False; [done|]. intros Hlt.
    destruct (byte_size_bound z ltac:(lia)) as [_ [Hlo _]].
    assert (Z.of_nat k <= Z.of_nat (byte_size z) - 1) by lia.
    assert (256 ^ Z.of_nat k <= 256 ^ (Z.of_nat (byte_size z) - 1))
      by (apply Z.pow_le_mono_r; lia). lia.
Qed.

(** ** Padding and encryption *)

(** [new_padding.replace(b'\x00', b'')] *)
Fixpoint remove_zeros (s : string) : string :=
  match s with
  | EmptyString => EmptyString
  | String c r => if decide (ord c = 0%nat) then remove_zeros r else String c (remove_zeros r)
  end.

(** The source of randomness: [urandom i k] is what the [i]-th call
    [os.urandom(k)] returns; [rounds] bounds the number of rounds of the
    padding loop the model runs. *)
Record entropy := {
  urandom : nat -> nat -> string;
  rounds : nat
}.

Definition zero_byte : ascii := ascii_of_nat 0.

(** The [while len(padding) < padding_length] loop of
    [_pad_for_encryption]. *)
Fixpoint pad_loop (fuel : nat) (rnd : nat -> nat -> string) (i : nat)
    (padding_length : nat) (padding : string) : result string :=
  match fuel with
  | O => raise OutOfFuel
  | S fuel' =>
      if decide (String.length padding < padding_length)%nat then
        let needed_bytes := (padding_length - String.length padding)%nat in
        let new_padding := remove_zeros (rnd i (needed_bytes + 5)%nat) in
        pad_loop fuel' rnd (S i) padding_length
          (padding +:+ String.substring 0 needed_bytes new_padding)
      else Ok padding
  end.

(** [rsa.pkcs1._pad_for_encryption(message, target_length)] *)
Definition pad_for_encryption (ent : entropy) (message : string) (target_length : nat)
    : result string :=
  let max_msglength := Z.of_nat target_length - 11 in
  let msglength := Z.of_nat (String.length message) in
  if decide (max_msglength < msglength) then
    raise (OverflowError "bytes needed for message, but there is only space for less")
  else
    let padding_length := (target_length - String.length message - 3)%nat in
    padding ← pad_loop (rounds ent) (urandom ent) 0 padding_length "";
    if decide (String.length padding = padding_length) then
      Ok (String zero_byte (String (ascii_of_nat 2) (padding +:+ String zero_byte message)))
    else raise AssertionError.

(** Python's [pow(base, exp, mod)] on integers. *)
Definition py_pow_mod (base exp m : Z) : result Z :=
  if decide (exp < 0) then
    raise (ValueError "pow() 2nd argument cannot be negative when 3rd argument specified")
  else if decide (m = 0) then raise (ValueError "pow() 3rd argument cannot be 0")
  else Ok (Zpow_mod base exp m).

(** [rsa.core.encrypt_int] *)
Definition encrypt_int (message ekey n : Z) : result Z :=
  if decide (message < 0) then raise (ValueError "Only non-negative numbers are supported")
  else if decide (n < message) then raise (OverflowError "The message is too long for n")
  else py_pow_mod message ekey n.

(** [rsa.encrypt(message, PublicKey(e, n))] *)
Definition rsa_encrypt (ent : entropy) (message : string) (e n : Z) : result string :=
  let keylength := byte_size n in
  padded ← pad_for_encryption ent message keylength;
  let payload := bytes2int padded in
  encrypted ← encrypt_int payload e n;
  int2bytes encrypted keylength.

(** ** Keys as python-rsa builds them *)

(** [rsa.PublicKey(n, e)]: the modulus comes first. *)
Record PublicKey := mkPublicKey { pk_n : Z; pk_e : Z }.

(** [rsa.encrypt(message, pub_key)] reads [pub_key.e] and [pub_key.n]. *)
Definition encrypt (ent : entropy) (message : string) (pub_key : PublicKey) : result string :=
  rsa_encrypt ent message (pk_e pub_key) (pk_n pub_key).

(** [str.index(sub, start)] for a one-byte [sub]: the first position at or
    after [start] holding it. *)
Fixpoint find_from (c : ascii) (start : nat) (s : string) : option nat :=
  match s with
  | EmptyString => None
  | String x r =>
      match start with
      | S start' => S <$> find_from c start' r
      | O => if decide (x = c) then Some O else S <$> find_from c O r
      end
  end.

(** [rsa.decrypt(crypto, PrivateKey(n, e, d, p, q))]; blinding is
    transparent: [blinded_decrypt(c) = pow(c, d, n)]. *)
Definition rsa_decrypt (crypto : string) (d n : Z) : result string :=
  let blocksize := byte_size n in
  let encrypted := bytes2int crypto in
  decrypted ← py_pow_mod encrypted d n;
  cleartext ← int2bytes decrypted blocksize;
  if decide (String.substring 0 2 cleartext <> String zero_byte (String (ascii_of_nat 2) ""))
  then raise DecryptionError
  else match find_from zero_byte 2 cleartext with
       | None => raise DecryptionError
       | Some sep_idx => Ok (drop_str (S sep_idx) cleartext)
       end.

(** ** The padding loop terminates and yields nonzero bytes *)

Definition nonzero_bytes (s : string) : Prop :=
  forall c, c ∈ String.list_ascii_of_string s -> c <> zero_byte.

(** A random source whose every draw holds a nonzero byte. *)
Definition draws_nonzero (rnd : nat -> nat -> string) : Prop :=
  forall i k, (0 < k)%nat -> remove_zeros (rnd i k) <> EmptyString.

(** The model explores enough rounds of the loop for a padding of
    [padding_length] bytes. *)
Definition entropy_ok (ent : entropy) (padding_length : nat) : Prop :=
  draws_nonzero (urandom ent) /\ (padding_length < rounds ent)%nat.

Lemma remove_zeros_nonzero (s : string) : nonzero_bytes (remove_zeros s).
Proof.
  unfold nonzero_bytes. induction s as [|c s IH]; simpl; [set_solver|].
  case_decide as Hc; [done|]. simpl. intros x [->|Hx]%elem_of_cons; [|auto].
  intros ->. unfold zero_byte, ord in Hc. by rewrite nat_ascii_embedding in Hc by lia.
Qed.

Lemma nonzero_bytes_app (s1 s2 : string) :
  nonzero_bytes s1 -> nonzero_bytes s2 -> nonzero_bytes (s1 +:+ s2).
Proof.
  unfold nonzero_bytes. intros H1 H2 c. rewrite list_ascii_of_string_app, elem_of_app.
  intros [?|?]; auto.
Qed.

Lemma nonzero_bytes_substring (n : nat) (s : string) :
  nonzero_bytes s -> nonzero_bytes (String.substring 0 n s).
Proof. intros H c Hc. by apply H, (substring_0_incl n). Qed.

#[export] Hint Resolve remove_zeros_nonzero nonzero_bytes_app nonzero_bytes_substring : pync.

Section PadLoop.
Context (rnd : nat -> nat -> string) (Hrnd : draws_nonzero rnd).

(** Each round adds at least one byte, so [padding_length - len padding]
    further rounds (and one to leave the loop) are enough. *)
Lemma pad_loop_ok (fuel i padding_length : nat) (padding : string) :
  (String.length padding <= padding_length)%nat ->
  (padding_length - String.length padding < fuel)%nat ->
  nonzero_bytes padding ->
  exists p, pad_loop fuel rnd i padding_length padding = Ok p /\
            String.length p = padding_length /\ nonzero_bytes p.
Proof using Hrnd.
  revert i padding. induction fuel as [|fuel IH]; intros i padding Hle Hfuel Hnz; [lia|].
  simpl. case_decide as Hlt; [|exists padding; split_and!; auto; lia].
  set (new := remove_zeros (rnd i (padding_length - String.length padding + 5)%nat)).
  assert (String.length new <> 0%nat).
  { intros Hl. apply (Hrnd i (padding_length - String.length padding + 5)%nat); [lia|].
    fold new. by destruct new. }
  apply IH.
  - rewrite string_length_append, substring_0_length. lia.
  - rewrite string_length_append, substring_0_length. lia.
  - apply nonzero_bytes_app; [done|]. apply nonzero_bytes_substring, remove_zeros_nonzero.
Qed.
End PadLoop.

Lemma pad_for_encryption_ok (ent : entropy) (message : string) (k : nat) :
  (String.length message + 11 <= k)%nat ->
  entropy_ok ent (k - String.length message - 3) ->
  exists padding,
    pad_for_encryption ent message k =
      Ok (String zero_byte (String (ascii_of_nat 2) (padding +:+ String zero_byte message))) /\
    String.length padding = (k - String.length message - 3)%nat /\ nonzero_bytes padding.
Proof.
  intros Hk [Hrnd Hrounds]. unfold pad_for_encryption.
  rewrite decide_False by lia.
  destruct (pad_loop_ok _ Hrnd (rounds ent) 0 (k - String.length message - 3)%nat "")
    as (p & Hp & Hlen & Hnz); [simpl; lia | simpl; lia | intros c Hc; simpl in Hc; set_solver |].
  rewrite Hp. simpl. rewrite decide_True by done. eauto.
Qed.

(** The PKCS#1 block [00 02 padding 00 message]. *)
Definition pkcs1_block (padding message : string) : string :=
  String zero_byte (String (ascii_of_nat 2) (padding +:+ String zero_byte message)).

Lemma pkcs1_block_length (padding message : string) :
  String.length (pkcs1_block padding message) =
    (String.length padding + String.length message + 3)%nat.
Proof. unfold pkcs1_block. simpl. rewrite string_length_append. simpl. lia. Qed.

(** A block starting with [00 02] is below [256^(k-1)]: the payload is
    never larger than a modulus of [k] bytes. *)
Lemma pkcs1_block_value (padding message : string) :
  let k := String.length (pkcs1_block padding message) in
  0 <= bytes2int (pkcs1_block padding message) < 256 ^ (Z.of_nat k - 1).
Proof.
  intros k. subst k. unfold pkcs1_block.
  rewrite !bytes2int_cons. set (rest := padding +:+ String zero_byte message).
  pose proof (bytes2int_bound rest).
  unfold zero_byte. rewrite !ord_ascii_of_nat by lia. cbn [String.length].
  replace (Z.of_nat (S (S (String.length rest))) - 1)
    with (Z.succ (Z.of_nat (String.length rest))) by lia.
  rewrite Z.pow_succ_r by lia. lia.
Qed.

Lemma py_pow_mod_ok (b e m : Z) :
  0 <= e -> m <> 0 -> py_pow_mod b e m = Ok (b ^ e mod m).
Proof.
  intros He Hm. unfold py_pow_mod. rewrite !decide_False by lia.
  by rewrite Zpow_mod_correct.
Qed.

Lemma encrypt_int_ok (m e n : Z) :
  0 <= m <= n -> 0 <= e -> n <> 0 -> encrypt_int m e n = Ok (m ^ e mod n).
Proof.
  intros Hm He Hn. unfold encrypt_int. rewrite !decide_False by lia.
  by apply py_pow_mod_ok.
Qed.

(** ** Properties of the encryption *)

Lemma rsa_encrypt_spec (ent : entropy) (message : string) (e n : Z) :
  0 < n -> 0 <= e ->
  (String.length message + 11 <= byte_size n)%nat ->
  entropy_ok ent (byte_size n - String.length message - 3) ->
  exists padding c,
    rsa_encrypt ent message e n = Ok c /\
    String.length c = byte_size n /\
    nonzero_bytes padding /\
    String.length (pkcs1_block padding message) = byte_size n /\
    bytes2int c = bytes2int (pkcs1_block padding message) ^ e mod n.
Proof.
  intros Hn He Hk Hent. unfold rsa_encrypt.
  destruct (pad_for_encryption_ok ent message (byte_size n) Hk Hent)
    as (padding & Hpad & Hplen & Hnz).
  rewrite Hpad. cbn [mbind result_bind].
  pose proof (byte_size_bound n Hn) as (Hk1 & Hlo & Hhi).
  pose proof (pkcs1_block_value padding message) as Hv. cbv zeta in Hv.
  rewrite pkcs1_block_length in Hv. fold (pkcs1_block padding message).
  rewrite encrypt_int_ok; [|split; [lia|] | lia | lia].
  2: { etrans; [|apply Hlo]. apply Z.lt_le_incl, (Z.lt_le_trans _ _ _ (proj2 Hv)).
       apply Z.pow_le_mono_r; lia. }
  cbn [mbind result_bind].
  pose proof (Z.mod_pos_bound (bytes2int (pkcs1_block padding message) ^ e) n Hn).
  rewrite int2bytes_ok by lia.
  exists padding, (be_bytes (byte_size n) (bytes2int (pkcs1_block padding message) ^ e mod n)).
  split_and!; [done | apply be_bytes_length | done | rewrite pkcs1_block_length; lia |].
  rewrite bytes2int_be_bytes. apply Z.mod_small. lia.
Qed.

(** C7: [rsa.encrypt] succeeds on every message that fits the key: for a
    positive modulus of [k = byte_size n] bytes, a nonnegative exponent, a
    message of at most [k - 11] bytes and a random source whose draws
    hold a nonzero byte, it returns [k] bytes whose value is
    [m^e mod n] for the PKCS#1 block [m = 00 02 padding 00 message] with
    [padding] of nonzero bytes; neither [encrypt_int]'s range check nor
    [int2bytes]'s overflow check can fire. *)
Theorem rsa_encrypt_ok (ent : entropy) (message : string) (e n : Z) :
  0 < n -> 0 <= e ->
  (String.length message + 11 <= byte_size n)%nat ->
  entropy_ok ent (byte_size n - String.length message - 3) ->
  exists padding c,
    encrypt ent message (mkPublicKey n e) = Ok c /\
    String.length c = byte_size n /\
    nonzero_bytes padding /\
    String.length (pkcs1_block padding message) = byte_size n /\
    bytes2int c = bytes2int (pkcs1_block padding message) ^ e mod n.
Proof. apply rsa_encrypt_spec. Qed.

(** The length check of [_pad_for_encryption] comes first. *)
Lemma rsa_encrypt_overflow (ent : entropy) (message : string) (e n : Z) :
  (byte_size n < String.length message + 11)%nat ->
  rsa_encrypt ent message e n =
    raise (OverflowError "bytes needed for message, but there is only space for less").
Proof. intros H. unfold rsa_encrypt, pad_for_encryption. rewrite decide_True by lia. done. Qed.

(** C29: a message longer than [k - 11] bytes makes [rsa.encrypt] raise
    [OverflowError] before any randomness is drawn. *)
Theorem rsa_encrypt_too_long (ent : entropy) (message : string) (e n : Z) :
  (byte_size n < String.length message + 11)%nat ->
  encrypt ent message (mkPublicKey n e) =
    raise (OverflowError "bytes needed for message, but there is only space for less").
Proof. intros H. by apply rsa_encrypt_overflow. Qed.

(** ** Textbook RSA is invertible

    For distinct primes [p], [q] and [e * d = 1 mod (p-1)(q-1)],
    [m -> m^e mod pq] is inverted by [c -> c^d mod pq] on [0, pq). *)

Lemma divide_mul_coprime (p q a : Z) :
  Z.coprime p q -> (p | a) -> (q | a) -> (p * q | a).
Proof.
  intros Hpq Hp [c ->]. apply Z.mul_divide_mono_r.
  apply (Z.gauss p q c); [by rewrite Z.mul_comm | exact Hpq].
Qed.

Lemma mod_eq_divide (x y n : Z) : n <> 0 -> x mod n = y mod n -> (n | x - y).
Proof.
  intros Hn H. exists (x / n - y / n).
  rewrite (Z.div_mod x n Hn) at 1. rewrite (Z.div_mod y n Hn) at 1. lia.
Qed.

Theorem rsa_inverse (p q e d m : Z) :
  Z.prime p -> Z.prime q -> p <> q -> 0 < e -> 0 < d ->
  (e * d) mod ((p - 1) * (q - 1)) = 1 ->
  0 <= m < p * q ->
  (m ^ e mod (p * q)) ^ d mod (p * q) = m.
Proof.
  intros Hp Hq Hpq He Hd Hed Hm.
  pose proof (Z.prime_ge_2 p Hp). pose proof (Z.prime_ge_2 q Hq).
  rewrite Z.mod_pow_l, <- Z.pow_mul_r by lia.
  set (t := (e * d) / ((p - 1) * (q - 1))).
  assert (Ht : 0 <= t) by (apply Z.div_pos; nia).
  assert (Hed' : e * d = 1 + t * (q - 1) * (p - 1)).
  { pose proof (Z.div_mod (e * d) ((p - 1) * (q - 1)) ltac:(nia)). subst t. lia. }
  assert (Hmp : (m ^ (e * d)) mod p = m mod p).
  { rewrite Hed'. apply fermat_exp; [done|nia]. }
  assert (Hmq : (m ^ (e * d)) mod q = m mod q).
  { rewrite Hed', <- Z.mul_assoc, (Z.mul_comm (q - 1)), Z.mul_assoc.
    apply fermat_exp; [done|nia]. }
  assert (Hcop : Z.coprime p q).
  { apply Z.coprime_prime_l; [done|]. intros Hdiv.
    by apply Hpq, Z.divide_prime_prime. }
  destruct (divide_mul_coprime p q _ Hcop (mod_eq_divide _ _ p ltac:(lia) Hmp)
              (mod_eq_divide _ _ q ltac:(lia) Hmq)) as [c Hc].
  replace (m ^ (e * d)) with (m + c * (p * q)) by lia.
  rewrite Z.mod_add by lia. by apply Z.mod_small.
Qed.

(** ** Decryption of an encrypted block *)

Lemma find_from_zero (s t : string) :
  nonzero_bytes s -> find_from zero_byte 0 (s +:+ String zero_byte t) = Some (String.length s).
Proof.
  induction s as [|c s IH]; intros Hs;
    rewrite ?append_nil_l, ?append_cons; cbn [find_from]; [by rewrite decide_True|].
  rewrite decide_False by (apply Hs; simpl; set_solver).
  rewrite IH; [done|]. intros x Hx. apply Hs. simpl. set_solver.
Qed.

Lemma drop_str_app_cons (s t : string) (c : ascii) :
  drop_str (S (String.length s)) (s +:+ String c t) = t.
Proof. induction s; str_simpl; auto. Qed.

Lemma rsa_decrypt_block (c padding message : string) (d n : Z) :
  0 < n -> 0 <= d ->
  String.length (pkcs1_block padding message) = byte_size n ->
  nonzero_bytes padding ->
  bytes2int c ^ d mod n = bytes2int (pkcs1_block padding message) ->
  rsa_decrypt c d n = Ok message.
Proof.
  intros Hn Hd Hk Hnz Hdec. unfold rsa_decrypt.
  rewrite py_pow_mod_ok, Hdec by lia. cbn [mbind result_bind].
  pose proof (bytes2int_bound (pkcs1_block padding message)) as Hb.
  pose proof (byte_size_bound n Hn) as (Hk1 & _ & _).
  rewrite int2bytes_ok, <- Hk, be_bytes_bytes2int by (rewrite <- ?Hk; lia).
  cbn [mbind result_bind].
  case_decide as Hne.
  { exfalso. apply Hne. unfold pkcs1_block. simpl. by rewrite substring_0_0. }
  unfold pkcs1_block at 1. cbn [find_from]. rewrite find_from_zero by done.
  cbn [fmap option_fmap option_map]. f_equal.
  exact (drop_str_app_cons padding message zero_byte).
Qed.

Lemma rsa_roundtrip_spec (ent : entropy) (message : string) (p q e d : Z) :
  Z.prime p -> Z.prime q -> p <> q -> 0 < e -> 0 < d ->
  (e * d) mod ((p - 1) * (q - 1)) = 1 ->
  (String.length message + 11 <= byte_size (p * q))%nat ->
  entropy_ok ent (byte_size (p * q) - String.length message - 3) ->
  exists c, rsa_encrypt ent message e (p * q) = Ok c /\
            rsa_decrypt c d (p * q) = Ok message.
Proof.
  intros Hp Hq Hpq He Hd Hed Hk Hent.
  pose proof (Z.prime_ge_2 p Hp). pose proof (Z.prime_ge_2 q Hq).
  destruct (rsa_encrypt_spec ent message e (p * q) ltac:(nia) ltac:(lia) Hk Hent)
    as (padding & c & Hc & Hlen & Hnz & Hblen & Hval).
  exists c. split; [done|].
  pose proof (pkcs1_block_value padding message) as Hv. cbv zeta in Hv.
  pose proof (byte_size_bound (p * q) ltac:(nia)) as (_ & Hlo & _).
  apply (rsa_decrypt_block c padding); [nia|lia|done|done|].
  rewrite Hval. apply (rsa_inverse p q); try done.
  rewrite Hblen in Hv. lia.
Qed.

(** C8: decryption inverts encryption.  Under a key made of two distinct
    primes [p], [q] and exponents with [e * d = 1 mod (p-1)(q-1)], for
    every message that fits the key and every random source whose draws
    hold a nonzero byte, [rsa.encrypt] succeeds and [rsa.decrypt] of its
    ciphertext returns the message: the ciphertext the login server
    receives carries exactly the framed credentials. *)
Theorem rsa_roundtrip (ent : entropy) (message : string) (p q e d : Z) :
  Z.prime p -> Z.prime q -> p <> q -> 0 < e -> 0 < d ->
  (e * d) mod ((p - 1) * (q - 1)) = 1 ->
  (String.length message + 11 <= byte_size (p * q))%nat ->
  entropy_ok ent (byte_size (p * q) - String.length message - 3) ->
  exists c, encrypt ent message (mkPublicKey (p * q) e) = Ok c /\
            rsa_decrypt c d (p * q) = Ok message.
Proof. apply rsa_roundtrip_spec. Qed.

(** ** Test keys and witnesses *)

(** A deterministic test source: every draw is [\x01] bytes. *)
Definition ones_source : entropy := {|
  urandom := λ _ k, String.string_of_list_ascii (repeat (ascii_of_nat 1) k);
  rounds := 300
|}.

Lemma ones_source_ok (padding_length : nat) :
  (padding_length < 300)%nat -> entropy_ok ones_source padding_length.
Proof.
  intros H. split; [|done]. intros i [|k] Hk; [lia|].
  cbn [urandom ones_source repeat String.string_of_list_ascii remove_zeros].
  case_decide as Hz; [|done]. unfold ord in Hz. rewrite nat_ascii_embedding in Hz; lia.
Qed.

(** The test key: two 85-bit primes certified by Pocklington's criterion,
    [n = p * q] of 22 bytes, [e = 65537], [d = e^-1 mod (p-1)(q-1)]. *)
Definition test_p : Z := 19342813113933022841798773.
Definition test_q : Z := 19342813114025381818532309.
Definition test_d : Z := 199463384975090427389565276596605710628690048410545.

Lemma test_p_prime : Z.prime test_p.
Proof.
  apply (pocklington_check_sound test_p 8796093022237 2199023255556 2).
  vm_compute. reflexivity.
Qed.

Lemma test_q_prime : Z.prime test_q.
Proof.
  apply (pocklington_check_sound test_q 8796093022247 2199023255564 2).
  vm_compute. reflexivity.
Qed.

Lemma rsa_encrypt_ok_witness :
  exists padding c,
    encrypt ones_source "p" (mkPublicKey (test_p * test_q) 65537) = Ok c /\
    String.length c = byte_size (test_p * test_q) /\
    nonzero_bytes padding /\
    String.length (pkcs1_block padding "p") = byte_size (test_p * test_q) /\
    bytes2int c = bytes2int (pkcs1_block padding "p") ^ 65537 mod (test_p * test_q).
Proof.
  apply rsa_encrypt_ok.
  - vm_compute. reflexivity.
  - lia.
  - vm_compute. lia.
  - apply ones_source_ok. vm_compute. lia.
Defined.

Lemma rsa_encrypt_too_long_witness :
  encrypt ones_source (String "006"%char "abc123") (mkPublicKey 269 3) =
    raise (OverflowError "bytes needed for message, but there is only space for less").
Proof. apply rsa_encrypt_too_long. vm_compute. lia. Defined.

Lemma rsa_roundtrip_witness :
  exists c, encrypt ones_source "p" (mkPublicKey (test_p * test_q) 65537) = Ok c /\
            rsa_decrypt c test_d (test_p * test_q) = Ok "p".
Proof.
  apply rsa_roundtrip.
  - exact test_p_prime.
  - exact test_q_prime.
  - vm_compute. congruence.
  - lia.
  - vm_compute. reflexivity.
  - vm_compute. reflexivity.
  - vm_compute. lia.
  - apply ones_source_ok. vm_compute. lia.
Defined.
