(* ===== verification/Encrypt.v ===== *)
(** * The credential encoder [_encrypt]

    [_encrypt(key_str, uid, upw)] (pyncloud.py, lines 14-23):
    {v
    session_key, key_name, e_str, n_str = key_str.split(',')
    e, n = int(e_str, 16), int(n_str, 16)
    message = _naver_style_join([session_key, uid, upw])
    pubkey = rsa.PublicKey(e, n)
    encrypted = rsa.encrypt(message, pubkey)
    return key_name, encrypted.encode('hex')
    v}
    python-rsa's constructor is [PublicKey(n, e)]: the value the code
    names [e] becomes the modulus and the one it names [n] the exponent.
    The theorems below are stated in terms of the fields of the key
    string: the third field is the modulus, the fourth the exponent. *)

From S2P Require Import Prelude Python PyStr Framing Rsa.

Local Open Scope Z_scope.

Definition _encrypt (ent : entropy) (key_str uid upw : string) : result (string * string) :=
  '(session_key, key_name, e_str, n_str) ← unpack4 (py_split ","%char key_str);
  e ← py_int16 e_str;
  n ← py_int16 n_str;
  message ← naver_style_join [session_key; uid; upw];
  let pubkey := mkPublicKey e n in
  encrypted ← Rsa.encrypt ent message pubkey;
  Ok (key_name, hex_encode encrypted).

(** The key material the login server issues: four comma-separated
    fields, none holding a comma. *)
Definition key_material (session_key key_name f3 f4 : string) : string :=
  String.concat ","%string [session_key; key_name; f3; f4].

Definition no_comma (s : string) : Prop := ","%char ∉ String.list_ascii_of_string s.

(** ** Lemmas *)

Lemma split_key_material (sk kn f3 f4 : string) :
  no_comma sk -> no_comma kn -> no_comma f3 -> no_comma f4 ->
  py_split ","%char (key_material sk kn f3 f4) = [sk; kn; f3; f4].
Proof.
  intros. unfold key_material. apply py_split_concat; [done|]. by repeat constructor.
Qed.

(** [_encrypt] on well-formed key material: the third field is parsed as
    the modulus, the fourth as the exponent. *)
Lemma encrypt_key_material (ent : entropy) (sk kn f3 f4 uid upw : string) (v3 v4 : Z) :
  no_comma sk -> no_comma kn -> no_comma f3 -> no_comma f4 ->
  py_int16 f3 = Ok v3 -> py_int16 f4 = Ok v4 ->
  _encrypt ent (key_material sk kn f3 f4) uid upw =
    (message ← naver_style_join [sk; uid; upw];
     encrypted ← rsa_encrypt ent message v4 v3;
     Ok (kn, hex_encode encrypted)).
Proof.
  intros ???? H3 H4. unfold _encrypt. rewrite split_key_material by done.
  cbn [unpack4 mbind result_bind]. rewrite H3, H4. reflexivity.
Qed.

Lemma encrypt_field_count_err (ent : entropy) (key_str uid upw : string) :
  length (py_split ","%char key_str) <> 4%nat ->
  exists msg, _encrypt ent key_str uid upw = raise (ValueError msg).
Proof.
  intros H. unfold _encrypt. destruct (unpack4_err _ H) as [msg Hm].
  rewrite Hm. by exists msg.
Qed.

(** The ciphertext [_encrypt] returns for an RSA key decrypts to the
    framed credentials. *)
Lemma encrypt_decrypts (ent : entropy) (sk kn f3 f4 uid upw : string) (p q e d : Z) :
  no_comma sk -> no_comma kn -> no_comma f3 -> no_comma f4 ->
  py_int16 f3 = Ok (p * q) -> py_int16 f4 = Ok e ->
  Z.prime p -> Z.prime q -> p <> q -> 0 < e -> 0 < d ->
  (e * d) mod ((p - 1) * (q - 1)) = 1 ->
  Forall (λ s, String.length s < 256)%nat [sk; uid; upw] ->
  (framed_length [sk; uid; upw] + 11 <= byte_size (p * q))%nat ->
  entropy_ok ent (byte_size (p * q) - framed_length [sk; uid; upw] - 3) ->
  exists h c m,
    _encrypt ent (key_material sk kn f3 f4) uid upw = Ok (kn, h) /\
    hex_decode h = Some c /\
    rsa_decrypt c d (p * q) = Ok m /\
    naver_style_split m = Some [sk; uid; upw].
Proof.
  intros ???? H3 H4 Hp Hq Hpq He Hd Hed Hf Hk Hent.
  rewrite (encrypt_key_material ent sk kn f3 f4 uid upw (p * q) e) by done.
  destruct (naver_style_join_ok _ Hf) as (m & Hm & Hmlen). rewrite Hm.
  rewrite <- Hmlen in Hk, Hent.
  destruct (rsa_roundtrip_spec ent m p q e d Hp Hq Hpq He Hd Hed Hk Hent) as (c & Hc & Hdec).
  cbn [mbind result_bind]. rewrite Hc. cbn [mbind result_bind]. exists (hex_encode c), c, m. split_and!; [done | apply hex_decode_encode | done |].
  unfold naver_style_split. apply naver_style_split_fuel_join; [done | lia].
Qed.

(** ** Properties *)

(** C4: the code reads the modulus from the third field of the key
    material: it passes [(e, n)] to [rsa.PublicKey(n, e)].  Key material
    in the order the spec gives (exponent third, modulus fourth) can
    therefore never be used: whenever the third field holds a number of
    at most 13 bytes (below 2^104, as the usual exponent [0x10001] or the
    [3] of the spec's scenario), [_encrypt] raises python-rsa's
    [OverflowError] for every credentials that fit the framing, whatever
    the fourth field and the entropy, since the framed message and the
    eleven bytes of padding do not fit in the modulus. *)
Theorem encrypt_small_third_field (ent : entropy) (sk kn f3 f4 uid upw : string)
    (v3 v4 : Z) :
  no_comma sk -> no_comma kn -> no_comma f3 -> no_comma f4 ->
  py_int16 f3 = Ok v3 -> py_int16 f4 = Ok v4 ->
  Forall (λ s, String.length s < 256)%nat [sk; uid; upw] ->
  (byte_size v3 <= 13)%nat ->
  _encrypt ent (key_material sk kn f3 f4) uid upw =
    raise (OverflowError "bytes needed for message, but there is only space for less").
Proof.
  intros ???? H3 H4 Hf Hb. rewrite (encrypt_key_material ent sk kn f3 f4 uid upw v3 v4) by done.
  destruct (naver_style_join_ok _ Hf) as (m & Hm & Hlen). rewrite Hm.
  cbn [mbind result_bind]. rewrite rsa_encrypt_overflow; [done|].
  rewrite Hlen. simpl. lia.
Qed.

(** C1: end-to-end correctness of the credential encoder.  For key
    material whose third field is the modulus [p * q] of an RSA key with
    exponent [e] in the fourth field, and credentials that fit the
    framing and the key, [_encrypt] returns the key name and a hex string
    which, decoded and decrypted with [d], gives the framed message, from
    which the reference decoder reads back [session_key], [uid] and
    [upw]. *)
Theorem encrypt_correct (ent : entropy) (sk kn f3 f4 uid upw : string) (p q e d : Z) :
  no_comma sk -> no_comma kn -> no_comma f3 -> no_comma f4 ->
  py_int16 f3 = Ok (p * q) -> py_int16 f4 = Ok e ->
  Z.prime p -> Z.prime q -> p <> q -> 0 < e -> 0 < d ->
  (e * d) mod ((p - 1) * (q - 1)) = 1 ->
  Forall (λ s, String.length s < 256)%nat [sk; uid; upw] ->
  (framed_length [sk; uid; upw] + 11 <= byte_size (p * q))%nat ->
  entropy_ok ent (byte_size (p * q) - framed_length [sk; uid; upw] - 3) ->
  exists h c m,
    _encrypt ent (key_material sk kn f3 f4) uid upw = Ok (kn, h) /\
    hex_decode h = Some c /\
    rsa_decrypt c d (p * q) = Ok m /\
    naver_style_split m = Some [sk; uid; upw].
Proof. apply encrypt_decrypts. Qed.

(** C30: key material that does not split into exactly four
    comma-separated fields makes [_encrypt] raise [ValueError] from the
    tuple unpacking. *)
Theorem encrypt_field_count (ent : entropy) (key_str uid upw : string) :
  length (py_split ","%char key_str) <> 4%nat ->
  exists msg, _encrypt ent key_str uid upw = raise (ValueError msg).
Proof. apply encrypt_field_count_err. Qed.


(** C18: the credentials fit the key exactly when the framed message
    leaves the eleven bytes of PKCS#1 padding: for well-formed key
    material with a positive modulus [n], fields of under 256 bytes and
    enough entropy, [_encrypt] succeeds if and only if
    [len(session_key) + len(uid) + len(upw) + 3 + 11 <= byte_size(n)];
    otherwise it raises python-rsa's [OverflowError]. *)
Theorem encrypt_fits_key (ent : entropy) (sk kn f3 f4 uid upw : string) (n e : Z) :
  no_comma sk -> no_comma kn -> no_comma f3 -> no_comma f4 ->
  py_int16 f3 = Ok n -> py_int16 f4 = Ok e -> 0 < n -> 0 <= e ->
  Forall (λ s, String.length s < 256)%nat [sk; uid; upw] ->
  entropy_ok ent (byte_size n - framed_length [sk; uid; upw] - 3) ->
  (exists r, _encrypt ent (key_material sk kn f3 f4) uid upw = Ok r) <->
  (framed_length [sk; uid; upw] + 11 <= byte_size n)%nat.
Proof.
  intros ???? H3 H4 Hn He Hf Hent.
  rewrite (encrypt_key_material ent sk kn f3 f4 uid upw n e) by done.
  destruct (naver_style_join_ok _ Hf) as (m & Hm & Hlen). rewrite Hm, <- Hlen in *.
  cbn [mbind result_bind]. split.
  - intros [r Hr]. destruct (decide (String.length m + 11 <= byte_size n)%nat); [done|].
    rewrite rsa_encrypt_overflow in Hr by lia. discriminate.
  - intros Hk. destruct (rsa_encrypt_spec ent m e n Hn He Hk Hent) as (pad & c & Hc & _).
    rewrite Hc. eauto.
Qed.

(** ** Witnesses *)

(** Key material of the test key: the modulus [test_p * test_q] in hex in
    the third field, the exponent [0x10001] in the fourth. *)
Definition test_modulus_hex : string := "100000000108000000061cc000000f468000000d659".

Ltac no_comma_tac := apply (bool_decide_unpack _); vm_compute; reflexivity.

Lemma encrypt_small_third_field_witness :
  _encrypt ones_source (key_material "abc123" "keyA" "10001" test_modulus_hex) "u" "p" =
    raise (OverflowError "bytes needed for message, but there is only space for less").
Proof.
  apply (encrypt_small_third_field _ _ _ _ _ _ _ 65537 (test_p * test_q)).
  1-4: no_comma_tac.
  1-2: vm_compute; reflexivity.
  - repeat constructor; simpl; lia.
  - vm_compute. lia.
Defined.

Lemma encrypt_correct_witness :
  exists h c m,
    _encrypt ones_source (key_material "abc123" "keyA" test_modulus_hex "10001") "u" "p"
      = Ok ("keyA", h) /\
    hex_decode h = Some c /\
    rsa_decrypt c test_d (test_p * test_q) = Ok m /\
    naver_style_split m = Some ["abc123"; "u"; "p"].
Proof.
  apply (encrypt_correct _ _ _ _ _ _ _ test_p test_q 65537 test_d).
  1-4: no_comma_tac.
  1-2: vm_compute; reflexivity.
  1: exact test_p_prime.
  1: exact test_q_prime.
  1-6: apply (bool_decide_unpack _); vm_compute; reflexivity.
  apply ones_source_ok. vm_compute. lia.
Defined.

Lemma encrypt_field_count_witness :
  exists msg, _encrypt ones_source "abc123,keyA,3" "u" "p" = raise (ValueError msg).
Proof. apply encrypt_field_count. vm_compute. lia. Defined.

Lemma encrypt_fits_key_witness :
  (exists r, _encrypt ones_source (key_material "abc123" "keyA" test_modulus_hex "10001") "u" "p"
     = Ok r) <->
  (framed_length ["abc123"; "u"; "p"] + 11 <= byte_size (test_p * test_q))%nat.
Proof.
  apply (encrypt_fits_key _ _ _ _ _ _ _ (test_p * test_q) 65537).
  1-4: no_comma_tac.
  1-3: vm_compute; reflexivity.
  - lia.
  - repeat constructor; simpl; lia.
  - apply ones_source_ok. vm_compute. lia.
Defined.

