(* ===== verification/FileSystem.v ===== *)
(** * The local file system seen by [Ndrive.download]

    [download] (pyncloud.py, lines 221-237) calls [os.path.dirname],
    [os.path.isdir], [os.path.exists], [os.makedirs] and writes the
    response body through [open(local_path, 'wb+')].  The file system is
    a map from normalised paths (no trailing slash) to nodes, the root
    and the working directory being directories.  The library functions
    follow CPython 2.7:
    - [path_split p] is [posixpath.split]: [head, tail] around the last
      ['/'], trailing slashes of a head that is not all slashes removed;
      [dirname] is its head;
    - [makedirs] is [os.makedirs]: recursion on the head, [EEXIST] of the
      recursive call ignored, then [mkdir] of the name; the model's fuel
      is the length of the path, which always suffices;
    - [mkdir] and [open_write] are the system calls: [EEXIST], [ENOENT]
      for a missing parent or the empty path, [ENOTDIR] for a parent that
      is a file, [EISDIR] for writing to a directory. *)

From S2P Require Import Prelude Python PyStr.
From stdpp Require Import gmap.

Inductive node : Type :=
| Dir
| File (content : string).

Abbreviation fs := (gmap string node).

Definition slash : ascii := "/"%char.
Definition is_slash (c : ascii) : bool := bool_decide (c = slash).

(** [p.rfind('/') + 1]: the length of the head. *)
Fixpoint head_length (s : string) : nat :=
  match s with
  | EmptyString => 0
  | String c r =>
      match head_length r with
      | O => if is_slash c then 1 else 0
      | S n => S (S n)
      end
  end.

Definition all_slashes (s : string) : bool := forallb is_slash (String.list_ascii_of_string s).

(** [s.rstrip('/')] *)
Definition rstrip_slash (s : string) : string :=
  String.string_of_list_ascii (rev (drop_while is_slash (rev (String.list_ascii_of_string s)))).

(** [posixpath.split] *)
Definition path_split (p : string) : string * string :=
  let i := head_length p in
  let head := String.substring 0 i p in
  let tail := drop_str i p in
  let head := if negb (String.eqb head "") && negb (all_slashes head)
              then rstrip_slash head else head in
  (head, tail).

(** [os.path.dirname] *)
Definition dirname (p : string) : string := fst (path_split p).

(** The key of a path in the map: trailing slashes removed, [/] kept. *)
Definition norm (p : string) : string :=
  if negb (String.eqb p "") && all_slashes p then "/" else rstrip_slash p.

(** [os.stat] on a path: the root is a directory, the empty path does not
    exist. *)
Definition node_at (m : fs) (p : string) : option node :=
  if String.eqb p "" then None
  else if String.eqb (norm p) "/" then Some Dir
  else m !! norm p.

(** [os.path.isdir], [os.path.exists] *)
Definition isdir (m : fs) (p : string) : bool :=
  match node_at m p with Some Dir => true | _ => false end.
Definition path_exists (m : fs) (p : string) : bool :=
  match node_at m p with Some _ => true | None => false end.

(** The directory that would hold [p]: [None] when it is the working
    directory. *)
Definition parent_status (m : fs) (p : string) : option errno :=
  let d := dirname (norm p) in
  if String.eqb d "" then None
  else match node_at m d with
       | Some Dir => None
       | Some (File _) => Some ENOTDIR
       | None => Some ENOENT
       end.

(** [os.mkdir] *)
Definition mkdir (p : string) : PyM fs unit := λ m,
  if String.eqb p "" then (Err (OSError ENOENT p), m)
  else if path_exists m p then (Err (OSError EEXIST p), m)
  else match parent_status m p with
       | Some e => (Err (OSError e p), m)
       | None => (Ok tt, <[norm p := Dir]> m)
       end.

(** [os.makedirs] *)
Fixpoint makedirs (fuel : nat) (name : string) : PyM fs unit := λ m,
  match fuel with
  | O => (Err OutOfFuel, m)
  | S fuel' =>
      let '(head, tail) := path_split name in
      let '(head, tail) := if String.eqb tail "" then path_split head else (head, tail) in
      if negb (String.eqb head "") && negb (String.eqb tail "") && negb (path_exists m head)
      then
        let '(r, m') := makedirs fuel' head m in
        match r with
        | Err (OSError e _) =>
            if bool_decide (e = EEXIST) then
              if String.eqb tail "." then (Ok tt, m') else mkdir name m'
            else (r, m')
        | Err e => (Err e, m')
        | Ok _ => if String.eqb tail "." then (Ok tt, m') else mkdir name m'
        end
      else mkdir name m
  end.

(** [shutil.copyfileobj(src, open(p, 'wb+'))]: the file is created or
    truncated, then receives the whole content. *)
Definition open_write (p content : string) : PyM fs unit := λ m,
  if String.eqb p "" then (Err (IOError ENOENT p), m)
  else match node_at m p with
       | Some Dir => (Err (IOError EISDIR p), m)
       | _ => match parent_status m p with
              | Some e => (Err (IOError e p), m)
              | None => (Ok tt, <[norm p := File content]> m)
              end
       end.

(** ** Lemmas *)

Lemma node_at_insert_self (m : fs) (p : string) (n : node) :
  p <> "" -> norm p <> "/" -> node_at (<[norm p := n]> m) p = Some n.
Proof.
  intros Hp Hn. unfold node_at.
  destruct (String.eqb_spec p "") as [|_]; [done|].
  destruct (String.eqb_spec (norm p) "/") as [|_]; [done|].
  apply lookup_insert_eq.
Qed.

Lemma node_at_root (m : fs) (p : string) :
  p <> "" -> norm p = "/" -> node_at m p = Some Dir.
Proof.
  intros Hp Hn. unfold node_at. destruct (String.eqb_spec p "") as [|_]; [done|].
  by rewrite Hn.
Qed.

Lemma open_write_ok (m : fs) (p c : string) :
  p <> "" -> node_at m p <> Some Dir -> parent_status m p = None ->
  open_write p c m = (Ok tt, <[norm p := File c]> m).
Proof.
  intros Hp Hd Hpar. unfold open_write.
  destruct (String.eqb_spec p "") as [|_]; [done|].
  destruct (node_at m p) as [[]|] eqn:E; try done; by rewrite Hpar.
Qed.

Lemma parent_status_isdir (m : fs) (p : string) :
  norm p = p -> isdir m (dirname p) = true -> parent_status m p = None.
Proof.
  intros Hn Hd. unfold parent_status. rewrite Hn.
  destruct (String.eqb (dirname p) ""); [done|].
  unfold isdir in Hd. by destruct (node_at m (dirname p)) as [[]|].
Qed.

Lemma isdir_exists (m : fs) (p : string) : isdir m p = true -> path_exists m p = true.
Proof. unfold isdir, path_exists. by destruct (node_at m p) as [[]|]. Qed.

Lemma makedirs_empty (m : fs) (fuel : nat) :
  makedirs (S fuel) "" m = (Err (OSError ENOENT ""), m).
Proof. reflexivity. Qed.

Lemma isdir_empty (m : fs) : isdir m "" = false.
Proof. reflexivity. Qed.

(** ** [os.makedirs] terminates *)

Lemma head_length_le (p : string) : (head_length p <= String.length p)%nat.
Proof. induction p as [|c p IH]; simpl; [lia|]. destruct (head_length p); [case_match|]; lia. Qed.

Lemma length_string_of_list_ascii (l : list ascii) :
  String.length (String.string_of_list_ascii l) = length l.
Proof. induction l; simpl; auto. Qed.

Lemma drop_while_length {A} (f : A -> bool) (l : list A) :
  (length (drop_while f l) <= length l)%nat.
Proof. induction l; simpl; [lia|]. case_match; simpl; lia. Qed.

Lemma rstrip_slash_length (s : string) :
  (String.length (rstrip_slash s) <= String.length s)%nat.
Proof.
  unfold rstrip_slash. rewrite length_string_of_list_ascii, length_rev.
  etrans; [apply drop_while_length|]. by rewrite length_rev, length_list_ascii_of_string.
Qed.

Lemma path_split_lengths (p h t : string) :
  path_split p = (h, t) ->
  (String.length h <= head_length p)%nat /\
  String.length t = (String.length p - head_length p)%nat.
Proof.
  unfold path_split. intros Hs. injection Hs as <- <-. rewrite drop_str_length. split; [|done].
  pose proof (substring_0_length (head_length p) p). pose proof (head_length_le p).
  case_match; [|lia]. etrans; [apply rstrip_slash_length|]. lia.
Qed.

Lemma path_split_head_lt (p h t : string) :
  path_split p = (h, t) -> t <> "" -> (String.length h < String.length p)%nat.
Proof.
  intros Hs Ht. destruct (path_split_lengths p h t Hs) as [Hh Htl].
  destruct t; [done|]. simpl in Htl. lia.
Qed.

Lemma path_split_head_le (p h t : string) :
  path_split p = (h, t) -> (String.length h <= String.length p)%nat.
Proof.
  intros Hs. destruct (path_split_lengths p h t Hs). pose proof (head_length_le p). lia.
Qed.

Lemma mkdir_not_fuel (p : string) (m : fs) : fst (mkdir p m) <> Err OutOfFuel.
Proof. unfold mkdir. repeat case_match; done. Qed.

(** [os.makedirs] terminates: each recursive call is on a strictly
    shorter head, so a fuel larger than the length of the path is enough
    and the model never reports running out of it. *)
Theorem makedirs_terminates (fuel : nat) (name : string) (m : fs) :
  (String.length name < fuel)%nat -> fst (makedirs fuel name m) <> Err OutOfFuel.
Proof.
  revert name m. induction fuel as [|fuel IH]; intros name m Hf; [lia|].
  cbn [makedirs]. destruct (path_split name) as [h1 t1] eqn:E1.
  destruct (String.eqb_spec t1 "") as [->|Ht1].
  - destruct (path_split h1) as [h2 t2] eqn:E2.
    pose proof (path_split_head_le _ _ _ E1).
    destruct (negb (String.eqb h2 "") && negb (String.eqb t2 "") && negb (path_exists m h2))
      eqn:Hc; [|apply mkdir_not_fuel].
    apply andb_true_iff in Hc as [[_ Ht2]%andb_true_iff _].
    apply negb_true_iff, String.eqb_neq in Ht2.
    pose proof (path_split_head_lt _ _ _ E2 Ht2).
    specialize (IH h2 m ltac:(lia)).
    destruct (makedirs fuel h2 m) as [r m'] eqn:Em; simpl in *.
    destruct r as [u|e]; repeat case_match; simplify_eq/=; try apply mkdir_not_fuel; done.
  - destruct (negb (String.eqb h1 "") && negb (String.eqb t1 "") && negb (path_exists m h1))
      eqn:Hc; [|apply mkdir_not_fuel].
    pose proof (path_split_head_lt _ _ _ E1 Ht1).
    specialize (IH h1 m ltac:(lia)).
    destruct (makedirs fuel h1 m) as [r m'] eqn:Em; simpl in *.
    destruct r as [u|e]; repeat case_match; simplify_eq/=; try apply mkdir_not_fuel; done.
Qed.
