(* ===== verification/Makedirs.v ===== *)
(** * [os.makedirs] creates the missing directories

    [download] relies on [os.makedirs(dirname)] to create every missing
    parent of the destination (the spec: "must create any missing local
    parent directories").  The paths considered are those built from
    components, [c1/c2/.../cn] or [/c1/c2/.../cn], each component
    non-empty, without a slash and other than ["."] ([join_path]).  On
    them [posixpath.split] takes off the last component ([path_split_join]),
    and [makedirs] creates the missing ancestors from the top down.
    [makedirs_spec] follows that recursion: it returns normally, changes
    only prefixes of the path that were missing ([creates_only]), and
    leaves a directory at every prefix whose existence the longer ones
    imply; on a tree-shaped file system (a prefix exists whenever a
    longer one does) that is every prefix. *)

From S2P Require Import Prelude Python PyStr FileSystem.
From stdpp Require Import gmap.

Definition component (c : string) : Prop :=
  c <> "" /\ (slash ∉ String.list_ascii_of_string c) /\ c <> ".".

(** [os.path.join] of the components, from the root or the working
    directory. *)
Definition join_path (absolute : bool) (cs : list string) : string :=
  (if absolute then "/" else "") +:+ String.concat "/" cs.

(** The last character of [s] is not a slash. *)
Definition ends_nonslash (s : string) : Prop :=
  exists y a, String.list_ascii_of_string s = y ++ [a] /\ a <> slash.

(** ** [posixpath.split] on a path of components *)

Lemma head_length_app (s1 s2 : string) :
  head_length (s1 +:+ s2) =
    match head_length s2 with 0 => head_length s1 | S k => String.length s1 + S k end.
Proof.
  induction s1 as [|c s1 IH]; str_simpl; [by destruct (head_length s2)|].
  rewrite IH. destruct (head_length s2); [done|]. rewrite Nat.add_succ_r. lia.
Qed.

Lemma head_length_noslash (c : string) :
  slash ∉ String.list_ascii_of_string c -> head_length c = 0.
Proof.
  induction c as [|a c IH]; intros Hc; [done|]. simpl in *. rewrite IH by set_solver.
  unfold is_slash. rewrite bool_decide_false by set_solver. done.
Qed.

Lemma rstrip_slash_ends (s : string) : ends_nonslash s -> rstrip_slash s = s.
Proof.
  intros (y & a & Hs & Ha). unfold rstrip_slash. rewrite Hs, rev_app_distr. simpl.
  unfold is_slash. rewrite bool_decide_false by done. simpl.
  rewrite rev_involutive, <- Hs. apply String.string_of_list_ascii_of_string.
Qed.

Lemma rstrip_slash_snoc (s : string) : ends_nonslash s -> rstrip_slash (s +:+ "/") = s.
Proof.
  intros Hs. rewrite <- (rstrip_slash_ends s Hs) at 2. unfold rstrip_slash.
  rewrite list_ascii_of_string_app, rev_app_distr. done.
Qed.

Lemma all_slashes_ends (s : string) : ends_nonslash s -> all_slashes s = false.
Proof.
  intros (y & a & Hs & Ha). unfold all_slashes. rewrite Hs, forallb_app. simpl.
  unfold is_slash. rewrite bool_decide_false by done. by rewrite andb_false_r.
Qed.

Lemma ends_nonslash_nonempty (s : string) : ends_nonslash s -> s <> "".
Proof. intros (y & a & Hs & _) ->. by destruct y. Qed.

Lemma norm_ends (s : string) : ends_nonslash s -> norm s = s.
Proof.
  intros Hs. unfold norm. rewrite all_slashes_ends, andb_false_r by done.
  by apply rstrip_slash_ends.
Qed.

Lemma ends_nonslash_app (s1 s2 : string) : ends_nonslash s2 -> ends_nonslash (s1 +:+ s2).
Proof.
  intros (y & a & Hs & Ha). exists (String.list_ascii_of_string s1 ++ y), a.
  by rewrite list_ascii_of_string_app, Hs, app_assoc.
Qed.

Lemma ends_nonslash_component (c : string) : component c -> ends_nonslash c.
Proof.
  intros (Hne & Hs & _). destruct (exists_last (l := String.list_ascii_of_string c))
    as (y & a & Hy); [by destruct c|].
  exists y, a. split; [done|]. intros ->. apply Hs. rewrite Hy. set_solver.
Qed.

Lemma all_slashes_app (s1 s2 : string) :
  all_slashes (s1 +:+ s2) = all_slashes s1 && all_slashes s2.
Proof. unfold all_slashes. by rewrite list_ascii_of_string_app, forallb_app. Qed.

(** [posixpath.split] of [pre/c]: the head [pre], when it does not end
    with a slash, and the tail [c]. *)
Lemma path_split_under (pre c : string) :
  ends_nonslash pre -> slash ∉ String.list_ascii_of_string c ->
  path_split (pre +:+ String slash c) = (pre, c).
Proof.
  intros Hp Hc. unfold path_split.
  rewrite head_length_app. cbn [head_length]. rewrite head_length_noslash by done.
  replace (is_slash slash) with true by reflexivity.
  replace (pre +:+ String slash c) with ((pre +:+ "/") +:+ c)
    by (rewrite <- string_append_assoc; done).
  replace (String.length pre + 1)%nat with (String.length (pre +:+ "/"))
    by (rewrite string_length_append; done).
  rewrite substring_append_l, drop_str_append, all_slashes_app, all_slashes_ends by done.
  destruct (String.eqb_spec (pre +:+ "/") "") as [Habs|_].
  - apply (f_equal String.length) in Habs. rewrite string_length_append in Habs. simpl in Habs. lia.
  - simpl. by rewrite rstrip_slash_snoc.
Qed.

Lemma path_split_root (c : string) :
  slash ∉ String.list_ascii_of_string c -> path_split (String slash c) = ("/", c).
Proof.
  intros Hc. unfold path_split. cbn [head_length]. rewrite head_length_noslash by done.
  replace (is_slash slash) with true by reflexivity.
  change (String.substring 0 1 (String slash c)) with (String slash (String.substring 0 0 c)).
  rewrite substring_0_0. reflexivity.
Qed.

Lemma path_split_top (c : string) :
  slash ∉ String.list_ascii_of_string c -> path_split c = ("", c).
Proof.
  intros Hc. unfold path_split. rewrite head_length_noslash by done.
  by rewrite substring_0_0.
Qed.

(** ** Paths of components *)

(** The directory that holds [join_path absolute cs]. *)
Definition parent_path (absolute : bool) (cs : list string) : string :=
  match cs with
  | [] => if absolute then "/" else ""
  | _ => join_path absolute cs
  end.

Lemma concat_snoc (cs : list string) (c : string) :
  cs <> [] -> String.concat "/" (cs ++ [c]) = String.concat "/" cs +:+ String slash c.
Proof.
  induction cs as [|x [|y r] IH]; intros Hne; [done|done|].
  cbn [app] in *.
  change (String.concat "/" (x :: y :: r ++ [c]))
    with (x +:+ "/" +:+ String.concat "/" (y :: r ++ [c])).
  rewrite IH by done. change (String.concat "/" (x :: y :: r))
    with (x +:+ "/" +:+ String.concat "/" (y :: r)).
  by rewrite !string_append_assoc.
Qed.

Lemma join_path_snoc (absolute : bool) (cs : list string) (c : string) :
  join_path absolute (cs ++ [c]) =
    match cs with
    | [] => (if absolute then "/" else "") +:+ c
    | _ => join_path absolute cs +:+ String slash c
    end.
Proof.
  unfold join_path. destruct cs as [|x cs]; [done|].
  rewrite concat_snoc by done. by rewrite string_append_assoc.
Qed.

Lemma join_path_ends (absolute : bool) (cs : list string) :
  cs <> [] -> Forall component cs -> ends_nonslash (join_path absolute cs).
Proof.
  induction cs as [|c cs _] using rev_ind; intros Hne Hcs; [done|].
  rewrite Forall_app, Forall_singleton in Hcs. destruct Hcs as [_ Hc].
  apply ends_nonslash_component in Hc.
  rewrite join_path_snoc. destruct cs; apply ends_nonslash_app; [done|].
  change (String slash c) with ("/" +:+ c). by apply ends_nonslash_app.
Qed.

(** [posixpath.split] takes off the last component. *)
Lemma path_split_join (absolute : bool) (cs : list string) (c : string) :
  Forall component cs -> component c ->
  path_split (join_path absolute (cs ++ [c])) = (parent_path absolute cs, c).
Proof.
  intros Hcs Hc. pose proof Hc as (_ & Hsl & _). rewrite join_path_snoc.
  destruct cs as [|x cs].
  - destruct absolute; rewrite ?append_cons, append_nil_l;
      [by apply path_split_root | by apply path_split_top].
  - apply path_split_under; [apply join_path_ends|]; done.
Qed.

Lemma ends_nonslash_not_root (s : string) : ends_nonslash s -> s <> "/".
Proof.
  intros (y & a & Hs & Ha) ->. destruct y as [|b [|]]; simplify_eq/=; done.
Qed.

Lemma join_path_length_lt (absolute : bool) (cs : list string) (c : string) :
  cs <> [] ->
  (String.length (join_path absolute cs) < String.length (join_path absolute (cs ++ [c])))%nat.
Proof.
  intros Hne. rewrite join_path_snoc. destruct cs; [done|].
  rewrite string_length_append. simpl. lia.
Qed.

(** ** The system calls on such paths *)

(** A path that does not end with a slash is its own key. *)
Lemma node_at_ends (m : fs) (p : string) : ends_nonslash p -> node_at m p = m !! p.
Proof.
  intros He. unfold node_at. rewrite norm_ends by done.
  destruct (String.eqb_spec p "") as [E|_]; [by apply ends_nonslash_nonempty in He|].
  destruct (String.eqb_spec p "/") as [E|_]; [by apply ends_nonslash_not_root in He|]. done.
Qed.

Section Calls.
Context (absolute : bool) (cs : list string) (c : string).
Hypothesis (Hcs : Forall component cs) (Hc : component c).

Lemma join_path_snoc_ends : ends_nonslash (join_path absolute (cs ++ [c])).
Proof using Hcs Hc. apply join_path_ends; [by destruct cs|]. apply Forall_app; auto. Qed.

Lemma node_at_join (m : fs) :
  node_at m (join_path absolute (cs ++ [c])) = m !! join_path absolute (cs ++ [c]).
Proof using Hcs Hc. apply node_at_ends, join_path_snoc_ends. Qed.

(** [os.mkdir] of [cs/c] succeeds when [cs/c] does not exist and [cs]
    is a directory (or the root, or the working directory). *)
Lemma mkdir_join (m : fs) :
  m !! join_path absolute (cs ++ [c]) = None ->
  (match cs with [] => True | _ => isdir m (join_path absolute cs) = true end) ->
  mkdir (join_path absolute (cs ++ [c])) m =
    (Ok tt, <[join_path absolute (cs ++ [c]) := Dir]> m).
Proof using Hcs Hc.
  intros Hn Hd. pose proof join_path_snoc_ends as He.
  unfold mkdir, path_exists, parent_status. rewrite node_at_join, Hn, norm_ends by done.
  destruct (String.eqb_spec (join_path absolute (cs ++ [c])) "") as [E|_];
    [by apply ends_nonslash_nonempty in He|].
  unfold dirname. rewrite path_split_join by done. unfold parent_path.
  destruct cs as [|x cs']; [destruct absolute; done|].
  unfold isdir in Hd. cbn [fst]. destruct (String.eqb _ ""); [done|].
  by destruct (node_at m (join_path absolute (x :: cs'))) as [[]|].
Qed.

Lemma isdir_insert_join (m : fs) :
  isdir (<[join_path absolute (cs ++ [c]) := Dir]> m) (join_path absolute (cs ++ [c])) = true.
Proof using Hcs Hc. unfold isdir. by rewrite node_at_join, lookup_insert_eq. Qed.

(** What [mkdir] leaves: the new directory, everything else unchanged. *)
Lemma insert_join_frame (m : fs) (k : string) :
  <[join_path absolute (cs ++ [c]) := Dir]> m !! k = m !! k \/
  ((String.length k <= String.length (join_path absolute (cs ++ [c])))%nat /\
   <[join_path absolute (cs ++ [c]) := Dir]> m !! k = Some Dir).
Proof.
  destruct (decide (k = join_path absolute (cs ++ [c]))) as [->|Hk].
  - right. by rewrite lookup_insert_eq.
  - left. by rewrite lookup_insert_ne.
Qed.
End Calls.

(** ** [os.makedirs] *)

Lemma prefix_snoc_inv {A} (pre l : list A) (x : A) :
  pre `prefix_of` l ++ [x] -> pre = l ++ [x] \/ pre `prefix_of` l.
Proof.
  intros [rest Hr]. destruct rest as [|y rest _] using rev_ind; [left; by rewrite app_nil_r in Hr|].
  right. rewrite app_assoc in Hr. apply app_inj_tail in Hr as [-> _]. by eexists.
Qed.

Lemma join_path_prefix_le (absolute : bool) (pre cs : list string) :
  pre `prefix_of` cs -> pre <> [] ->
  (String.length (join_path absolute pre) <= String.length (join_path absolute cs))%nat.
Proof.
  induction cs as [|c cs IH] using rev_ind; intros Hp Hne.
  - by apply prefix_nil_inv in Hp.
  - destruct (prefix_snoc_inv _ _ _ Hp) as [->|Hp']; [lia|].
    assert (cs <> []) by (intros ->; by apply prefix_nil_inv in Hp').
    pose proof (join_path_length_lt absolute cs c ltac:(done)). specialize (IH Hp' Hne). lia.
Qed.

Lemma isdir_insert_dir (m : fs) (k p : string) :
  isdir m p = true -> isdir (<[k := Dir]> m) p = true.
Proof.
  unfold isdir, node_at. destruct (String.eqb p ""), (String.eqb (norm p) "/"); try done.
  destruct (decide (k = norm p)) as [->|Hk]; [by rewrite lookup_insert_eq|by rewrite lookup_insert_ne].
Qed.

Lemma isdir_of_exists (m : fs) (p : string) :
  path_exists m p = true -> (forall s, node_at m p <> Some (File s)) -> isdir m p = true.
Proof. unfold path_exists, isdir. destruct (node_at m p) as [[|s]|]; naive_solver. Qed.

(** [m'] differs from [m] only at keys satisfying [P], which were missing
    and are directories. *)
Definition creates_only (P : string -> Prop) (m m' : fs) : Prop :=
  forall k, m' !! k = m !! k \/ (P k /\ m !! k = None /\ m' !! k = Some Dir).

Lemma creates_only_insert (P : string -> Prop) (m m1 : fs) (k0 : string) :
  P k0 -> m !! k0 = None -> creates_only P m m1 -> creates_only P m (<[k0 := Dir]> m1).
Proof.
  intros Hp Hn Hfr k. destruct (decide (k = k0)) as [->|Hk].
  - right. by rewrite lookup_insert_eq.
  - rewrite lookup_insert_ne by done. apply Hfr.
Qed.

Lemma creates_only_mono (P Q : string -> Prop) (m m' : fs) :
  (forall k, P k -> Q k) -> creates_only P m m' -> creates_only Q m m'.
Proof. intros HPQ Hfr k. destruct (Hfr k) as [|(? & ? & ?)]; [by left|right; auto]. Qed.

(** The keys of the non-empty prefixes of [cs]. *)
Definition prefix_key (absolute : bool) (cs : list string) (k : string) : Prop :=
  exists pre, pre `prefix_of` cs /\ pre <> [] /\ k = join_path absolute pre.

(** The run of [makedirs]: it returns normally, changes only prefixes
    that were missing, each into a directory, and leaves a directory at
    every prefix [pre] such that [pre] exists whenever a longer prefix
    does (the prefixes the recursion does not stop above). *)
Lemma makedirs_spec (fuel : nat) (absolute : bool) (cs : list string) (m : fs) :
  cs <> [] -> Forall component cs ->
  (String.length (join_path absolute cs) < fuel)%nat ->
  (forall pre s, pre `prefix_of` cs -> pre <> [] ->
     node_at m (join_path absolute pre) <> Some (File s)) ->
  path_exists m (join_path absolute cs) = false ->
  exists m', makedirs fuel (join_path absolute cs) m = (Ok tt, m') /\
    (forall pre, pre `prefix_of` cs -> pre <> [] ->
       (forall pre', pre `prefix_of` pre' -> pre' `prefix_of` cs ->
          path_exists m (join_path absolute pre') = true ->
          path_exists m (join_path absolute pre) = true) ->
       isdir m' (join_path absolute pre) = true) /\
    creates_only (prefix_key absolute cs) m m'.
Proof.
  revert fuel m. induction cs as [|c cs IH] using rev_ind;
    intros fuel m Hne Hall Hf Hchain Hex; [done|].
  rewrite Forall_app, Forall_singleton in Hall. destruct Hall as [Hcs Hc].
  pose proof Hc as (Hc1 & _ & Hc3).
  unfold path_exists in Hex. rewrite node_at_join in Hex by done.
  destruct (m !! join_path absolute (cs ++ [c])) eqn:Hn; [done|]. clear Hex.
  destruct fuel as [|fuel]; [lia|]. cbn [makedirs]. rewrite path_split_join by done.
  assert (Hce : String.eqb c "" = false) by (by apply String.eqb_neq).
  rewrite Hce. cbv beta iota zeta. rewrite Hce.
  assert (Hkey : prefix_key absolute (cs ++ [c]) (join_path absolute (cs ++ [c])))
    by (exists (cs ++ [c]); split_and!; [done|by destruct cs|done]).
  assert (Hmono : forall k, prefix_key absolute cs k -> prefix_key absolute (cs ++ [c]) k)
    by (intros k (pre & ? & ? & ->); exists pre; split_and!; [by apply prefix_app_r|done|done]).
  destruct (negb (String.eqb (parent_path absolute cs) "") && negb false &&
            negb (path_exists m (parent_path absolute cs))) eqn:Hcond.
  - (* the parent is missing: create it first *)
    destruct cs as [|x cs']; [destruct absolute; vm_compute in Hcond; discriminate|].
    cbn [parent_path] in *.
    apply andb_true_iff in Hcond as [_ Hp%negb_true_iff].
    pose proof (join_path_length_lt absolute (x :: cs') c ltac:(done)).
    destruct (IH fuel m ltac:(done) Hcs ltac:(lia)) as (m1 & Hmk & Hdir & Hfr); [|done|].
    { intros pre s' Hpre. apply Hchain. by apply prefix_app_r. }
    rewrite Hmk. destruct (String.eqb_spec c ".") as [|_]; [done|].
    assert (Hd1 : isdir m1 (join_path absolute (x :: cs')) = true).
    { apply Hdir; [done|done|]. intros pre' H1 H2. by rewrite (prefix_length_eq _ _ H2 (prefix_length _ _ H1)), Hp. }
    assert (Hn1 : m1 !! join_path absolute ((x :: cs') ++ [c]) = None).
    { destruct (Hfr (join_path absolute ((x :: cs') ++ [c]))) as [->|((pre & Hpre & Hne' & He) & _)];
        [done|]. pose proof (join_path_prefix_le absolute pre _ Hpre Hne'). rewrite <- He in *. lia. }
    rewrite mkdir_join by done.
    eexists. split_and!; [reflexivity| |].
    + intros pre [->|Hpre]%prefix_snoc_inv Hne' Hcl; [by apply isdir_insert_join|].
      apply isdir_insert_dir, Hdir; [done|done|].
      intros pre' H1 H2. apply Hcl; [done|by apply prefix_app_r].
    + apply creates_only_insert; [done|done|]. by apply (creates_only_mono _ _ _ _ Hmono).
  - (* the parent exists (or is the root or the working directory) *)
    assert (Hpar : match cs with [] => True | _ => isdir m (join_path absolute cs) = true end).
    { destruct cs as [|x cs']; [done|]. cbn [parent_path] in Hcond.
      pose proof (join_path_ends absolute (x :: cs') ltac:(done) Hcs) as Hj.
      destruct (path_exists m (join_path absolute (x :: cs'))) eqn:E;
        [|rewrite (proj2 (String.eqb_neq _ _) (ends_nonslash_nonempty _ Hj)) in Hcond;
          simpl in Hcond; discriminate].
      apply isdir_of_exists; [done|]. intros s'. apply Hchain; [apply prefix_app_r|]; done. }
    rewrite mkdir_join by done.
    eexists. split_and!; [reflexivity| |].
    + intros pre [->|Hpre]%prefix_snoc_inv Hne' Hcl; [by apply isdir_insert_join|].
      destruct cs as [|x cs']; [by apply prefix_nil_inv in Hpre|].
      apply isdir_insert_dir, isdir_of_exists.
      * apply (Hcl (x :: cs')); [done|by apply prefix_app_r|].
        unfold isdir, path_exists in *. by destruct (node_at m _) as [[]|].
      * intros s'. apply Hchain; [by apply prefix_app_r|done].
    + apply creates_only_insert; [done|done|]. intros k. by left.
Qed.

(** The form [download] uses: the path is a directory afterwards, and
    the keys that change are no longer than the path and hold
    directories. *)
Lemma makedirs_creates_spec (fuel : nat) (absolute : bool) (cs : list string) (m : fs) :
  cs <> [] -> Forall component cs ->
  (String.length (join_path absolute cs) < fuel)%nat ->
  (forall pre s, pre `prefix_of` cs -> pre <> [] ->
     node_at m (join_path absolute pre) <> Some (File s)) ->
  path_exists m (join_path absolute cs) = false ->
  exists m', makedirs fuel (join_path absolute cs) m = (Ok tt, m') /\
    isdir m' (join_path absolute cs) = true /\
    forall k, m' !! k = m !! k \/
      ((String.length k <= String.length (join_path absolute cs))%nat /\ m' !! k = Some Dir).
Proof.
  intros Hne Hcs Hf Hchain Hex.
  destruct (makedirs_spec fuel absolute cs m Hne Hcs Hf Hchain Hex) as (m' & Hmk & Hdir & Hfr).
  exists m'. split_and!; [done| |].
  - apply Hdir; [done|done|]. intros pre' H1 H2. by rewrite (prefix_length_eq _ _ H2 (prefix_length _ _ H1)), Hex.
  - intros k. destruct (Hfr k) as [|((pre & Hpre & Hne' & ->) & _ & ?)]; [by left|right].
    split; [by apply join_path_prefix_le|done].
Qed.

(** ** Properties *)


(** ** Witnesses *)


