(* ===== verification/Http.v ===== *)
(** * HTTP requests through [requests]

    Every network call of pyncloud.py goes through the [requests] library:
    [requests.get] for the key material, and the methods [get], [post] and
    [put] of a [requests.Session] for everything else.  A call is a
    [request] value: method, URL, query parameters ([params=]), form
    fields ([data=] with a dict), streamed body ([data=fp]) and headers,
    each dict kept in the order the source writes it.

    The server is an interface, the class [Transport]: it answers a
    request given the requests sent before it (so it may keep state, set
    cookies, or fail).  The outside world is the log of requests sent, in
    order, and the local file system.  [send] appends the request to the
    log whether or not the transport fails, then returns the response or
    raises [ConnectionError]. *)

From S2P Require Import Prelude Python FileSystem.
From stdpp Require Import gmap.

Inductive method : Type := GET | POST | PUT.

#[export] Instance method_eq_dec : EqDecision method.
Proof. solve_decision. Defined.

Record request := mkRequest {
  rq_method : method;
  rq_url : string;
  rq_params : list (string * pyval);
  rq_data : list (string * pyval);
  rq_body : string;
  rq_headers : list (string * pyval);
  (** sent through the [requests.Session] of the client *)
  rq_session : bool
}.

(** A response: its body ([resp.content], [resp.raw]) and the JSON value
    [resp.json()] decodes from it, if the body is JSON. *)
Record response := mkResponse {
  rs_content : string;
  rs_json : option pyval
}.

Inductive reply : Type :=
| NetFail
| Reply (r : response).

Class Transport := {
  respond : list request -> request -> reply
}.

Record world := mkWorld {
  w_log : list request;
  w_fs : fs
}.

Definition session_get (url : string) (params : list (string * pyval)) : request :=
  mkRequest GET url params [] "" [] true.
Definition session_post (url : string) (data : list (string * pyval)) : request :=
  mkRequest POST url [] data "" [] true.

(** [resp.json()] *)
Definition resp_json (r : response) : result pyval :=
  match rs_json r with
  | Some v => Ok v
  | None => raise (ValueError "No JSON object could be decoded")
  end.

Section Send.
Context `{Transport}.

Definition send (rq : request) : PyM world response := λ w,
  let w' := mkWorld (w_log w ++ [rq]) (w_fs w) in
  match respond (w_log w) rq with
  | NetFail => (Err (ConnectionError (rq_url rq)), w')
  | Reply r => (Ok r, w')
  end.

(** Running a file system operation in the world. *)
Definition on_fs {A} (m : PyM fs A) : PyM world A := λ w,
  let '(r, f) := m (w_fs w) in (r, mkWorld (w_log w) f).

Lemma send_log (rq : request) (w : world) :
  w_log (snd (send rq w)) = w_log w ++ [rq].
Proof. unfold send. by destruct (respond _ _). Qed.

Lemma send_fs (rq : request) (w : world) : w_fs (snd (send rq w)) = w_fs w.
Proof. unfold send. by destruct (respond _ _). Qed.

Lemma on_fs_log {A} (m : PyM fs A) (w : world) : w_log (snd (on_fs m w)) = w_log w.
Proof. unfold on_fs. by destruct (m (w_fs w)). Qed.
End Send.
