(* ===== verification/Client.v ===== *)
(** * The [Ndrive] client

    [class Ndrive] (pyncloud.py, lines 60-257) keeps [_userid], the
    lazily resolved [_useridx] (initially [None]) and the session [_s].
    Every operation starts with [if not self._useridx: self.check_status()]
    ([resolve_useridx]), sends one request, decodes the JSON answer and
    raises [NdriveError(code, message)] when its [resultcode] is not [0]
    ([check_error], the static method [_check_error]).

    The state of a run is the object's fields together with the world
    ([cstate]); mutations of [self] survive an exception, as in Python.
    The server is the [Transport] interface of Http.v; the MIME-type
    guesser used by [upload] is the [MimeTypes] interface. *)

From S2P Require Import Prelude Python FileSystem Http.
From stdpp Require Import gmap.

(** ** Data *)

(** [Ndrive.__init__(user_id, session)]: the session is the world. *)
Record Ndrive := mkNdrive {
  _userid : string;
  _useridx : pyval
}.

Definition Ndrive_init (user_id : string) : Ndrive := mkNdrive user_id VNone.

(** [Ndrive.Types] and [NdriveError.Codes] *)
Definition Types_DIR : Z := 1.
Definition Types_FILE : Z := 2.
Definition Types_BOTH : Z := 3.
Definition Codes_NotExistPath : Z := 11.

(** A file object opened by the caller: what [os.fstat] reports and the
    bytes [requests] streams from it. *)
Record fileobj := mkFileobj {
  fo_content : string;
  fo_mtime : Z
}.

(** Python 2.7's [datetime] module: its classes (the integer constants
    [MINYEAR] and [MAXYEAR] left out) and the attributes of the class
    [datetime.datetime]. *)
Definition datetime_class : pyobj :=
  PyClass "datetime.datetime"
    ["astimezone"; "combine"; "ctime"; "date"; "day"; "dst"; "fromordinal"; "fromtimestamp";
     "hour"; "isocalendar"; "isoformat"; "isoweekday"; "max"; "microsecond"; "min"; "minute";
     "month"; "now"; "replace"; "resolution"; "second"; "strftime"; "strptime"; "time";
     "timetuple"; "timetz"; "today"; "toordinal"; "tzinfo"; "tzname"; "utcfromtimestamp";
     "utcnow"; "utcoffset"; "utctimetuple"; "weekday"; "year"].

Definition datetime_module : pyobj :=
  PyModule "datetime"
    [("date", PyClass "datetime.date" ["fromordinal"; "fromtimestamp"; "today"]);
     ("datetime", datetime_class);
     ("time", PyClass "datetime.time" []);
     ("timedelta", PyClass "datetime.timedelta" []);
     ("tzinfo", PyClass "datetime.tzinfo" [])].

(** The module-level name [datetime] of pyncloud.py: line 5,
    [from datetime import datetime], binds it to the class. *)
Definition datetime_name : result pyobj := getattr datetime_module "datetime".

Record cstate := mkCState {
  self : Ndrive;
  world_of : world
}.

Abbreviation CM := (PyM cstate).

(** [mimetypes.guess_type(path)[0]] *)
Class MimeTypes := {
  guess_type : string -> option string
}.

Definition set_useridx (v : pyval) (s : cstate) : cstate :=
  mkCState (mkNdrive (_userid (self s)) v) (world_of s).

(** Running a world operation from the client. *)
Definition net {A} (m : PyM world A) : CM A := λ s,
  let '(r, w) := m (world_of s) in (r, mkCState (self s) w).

(** ** Requests *)

Definition host : string := "http://ndrive2.naver.com".
Definition status_url : string := "http://ndrive2.naver.com/GetRegisterUserInfo.ndrive".

Definition status_request (userid : string) : request :=
  session_get status_url
    [("userid", VStr userid); ("svctype", VStr "Android NDrive App ver"); ("auto", VInt 0)].

Definition list_request (userid : string) (useridx : pyval) (target_path : string) (kind : Z)
    : request :=
  session_post "http://ndrive2.naver.com/GetList.ndrive"
    [("orgresource", VStr target_path); ("type", VInt kind); ("dept", VInt 0);
     ("sort", VStr "name"); ("order", VStr "asc"); ("startnum", VInt 0);
     ("pagingrow", VInt 1000); ("dummy", VInt 56184); ("userid", VStr userid);
     ("useridx", useridx)].

Definition make_dir_request (userid : string) (useridx : pyval) (target_path : string) : request :=
  session_post "http://ndrive2.naver.com/MakeDirectory.ndrive"
    [("dstresource", VStr target_path); ("userid", VStr userid); ("useridx", useridx);
     ("dummy", VInt 40841)].

Definition disk_space_request (userid : string) (useridx : pyval) : request :=
  session_post "http://ndrive2.naver.com/GetDiskSpace.ndrive"
    [("userid", VStr userid); ("useridx", useridx)].

Definition fileinfo_request (userid : string) (useridx : pyval) (target_path : string) : request :=
  session_post "http://ndrive2.naver.com/GetProperty.ndrive"
    [("orgresource", VStr target_path); ("userid", VStr userid); ("useridx", useridx);
     ("dummy", VInt 56184)].

Definition flag (b : bool) : string := if b then "T" else "F".

Definition check_upload_request (userid : string) (useridx : pyval) (target_path : string)
    (overwrite : bool) (size : Z) (mtime : pyval) : request :=
  session_post "http://ndrive2.naver.com/CheckUpload.ndrive"
    [("userid", VStr userid); ("useridx", useridx); ("overwrite", VStr (flag overwrite));
     ("uploadsize", VInt size); ("getlastmodified", mtime); ("dstresource", VStr target_path)].

(** [mime or 'application/octet-binary'] *)
Definition content_type (mime : option string) : string :=
  match mime with
  | Some m => if String.eqb m "" then "application/octet-binary" else m
  | None => "application/octet-binary"
  end.

Definition upload_request (userid : string) (useridx : pyval) (target_path : string)
    (fp : fileobj) (mime : option string) (overwrite : bool) : request :=
  mkRequest PUT (host +:+ target_path) [] [] (fo_content fp)
    [("userid", VStr userid); ("useridx", useridx); ("MODIFYDATE", VDate (fo_mtime fp));
     ("Content-Type", VStr (content_type mime)); ("charset", VStr "UTF-8");
     ("Origin", VStr "http://ndrive2.naver.com"); ("OVERWRITE", VStr (flag overwrite));
     ("X-Requested-With", VStr "XMLHttpRequest"); ("NDriveSvcType", VStr "NHN/DRAGDROP Ver")]
    true.

Definition download_request (userid : string) (useridx : pyval) (remote_path : string) : request :=
  mkRequest GET (host +:+ remote_path)
    [("attachment", VInt 2); ("userid", VStr userid); ("useridx", useridx);
     ("NDriveSvcType", VStr "NHN/ND-WEB Ver")] [] "" [] true.

Definition move_request (userid : string) (useridx : pyval) (from_path to_path : string) : request :=
  session_post "http://ndrive2.naver.com/DoMove.ndrive"
    [("userid", VStr userid); ("useridx", useridx); ("orgresource", VStr from_path);
     ("dstresource", VStr to_path); ("overwrite", VStr "T"); ("bShareFireCopy", VStr "false");
     ("dummy", VInt 56147)].

(** ** Operations *)

(** [Ndrive._check_error(data)] *)
Definition check_error (data : pyval) : result unit :=
  rc ← getitem data "resultcode";
  if py_ne_int rc 0 then
    rc' ← getitem data "resultcode"; msg ← getitem data "message";
    raise (NdriveError rc' msg)
  else Ok tt.

Section Client.
Context `{Transport} `{MimeTypes}.

(** Send a request and decode the JSON answer, checking its result code:
    the three lines that close every operation. *)
Definition call_json (rq : request) : CM pyval :=
  resp ← net (send rq);
  data ← lift (resp_json resp);
  lift (check_error data);;
  mret data.

(** [Ndrive.check_status()] *)
Definition check_status : CM pyval :=
  me ← gets self;
  data ← call_json (status_request (_userid me));
  rv ← lift (getitem data "resultvalue");
  idx ← lift (getitem rv "useridx");
  modify (set_useridx idx);;
  lift (getitem data "resultvalue").

(** [if not self._useridx: self.check_status()] *)
Definition resolve_useridx : CM unit :=
  me ← gets self;
  if truthy (_useridx me) then mret tt else (check_status;; mret tt).

(** The statements of [_list] after the resolution of [_useridx]. *)
Definition _list_body (target_path : string) (kind : Z) : CM (list (pyval * pyval)) :=
  me ← gets self;
  data ← call_json (list_request (_userid me) (_useridx me) target_path kind);
  rv ← lift (getitem data "resultvalue");
  if negb (truthy rv) then mret []
  else lift (rv' ← getitem data "resultvalue";
             xs ← py_iter rv';
             map_result (λ x, h ← getitem x "href"; Ok (h, x)) xs).

(** [Ndrive._list(target_path, kind)] *)
Definition _list (target_path : string) (kind : Z) : CM (list (pyval * pyval)) :=
  resolve_useridx;; _list_body target_path kind.

Definition list_dirs (target_path : string) : CM (list (pyval * pyval)) :=
  _list target_path Types_DIR.
Definition list_files (target_path : string) : CM (list (pyval * pyval)) :=
  _list target_path Types_FILE.

(** The statements of [make_dir] after the resolution of [_useridx]. *)
Definition make_dir_body (target_path : string) : CM bool :=
  me ← gets self;
  call_json (make_dir_request (_userid me) (_useridx me) target_path);;
  mret true.

Definition make_dir (target_path : string) : CM bool :=
  resolve_useridx;; make_dir_body target_path.

(** The statements of [get_disk_space] after the resolution of [_useridx]. *)
Definition get_disk_space_body : CM pyval :=
  me ← gets self;
  data ← call_json (disk_space_request (_userid me) (_useridx me));
  rv ← lift (getitem data "resultvalue");
  lift (getitem rv "unusedspace").

Definition get_disk_space : CM pyval :=
  resolve_useridx;; get_disk_space_body.

(** The statements of [check_upload] after the resolution of [_useridx]. *)
(** [os.fstat(fp.fileno())] gives [st_size] and [st_mtime]; the dict
    literal is evaluated in order, its fifth value
    [datetime.datetime.fromtimestamp(st_mtime)] looking up [datetime] on
    the module-level name [datetime] and then [fromtimestamp]. *)
Definition check_upload_body (target_path : string) (fp : fileobj) (overwrite : bool) : CM bool :=
  me ← gets self;
  let st_size := Z.of_nat (String.length (fo_content fp)) in
  dt ← lift (datetime_name ≫= λ o, getattr o "datetime");
  _ ← lift (getattr dt "fromtimestamp");
  call_json (check_upload_request (_userid me) (_useridx me) target_path overwrite st_size
               (VDate (fo_mtime fp)));;
  mret true.

(** [check_upload] *)
Definition check_upload (target_path : string) (fp : fileobj) (overwrite : bool) : CM bool :=
  resolve_useridx;; check_upload_body target_path fp overwrite.

(** The statements of [get_fileinfo] after the resolution of [_useridx]. *)
Definition get_fileinfo_body (target_path : string) : CM pyval :=
  me ← gets self;
  data ← call_json (fileinfo_request (_userid me) (_useridx me) target_path);
  lift (getitem data "resultvalue").

Definition get_fileinfo (target_path : string) : CM pyval :=
  resolve_useridx;; get_fileinfo_body target_path.

(** [Ndrive.exists(target_path)] *)
Definition exists_ (target_path : string) : CM bool :=
  catch (get_fileinfo target_path;; mret true)
    (λ e, match e with
          | NdriveError code _ =>
              if py_ne_int code Codes_NotExistPath then throw e else mret false
          | _ => throw e
          end).

(** The statements of [upload] after the resolution of [_useridx]. *)
Definition upload_body (target_path : string) (fp : fileobj) (overwrite : bool) : CM bool :=
  me ← gets self;
  let mime := guess_type target_path in
  call_json (upload_request (_userid me) (_useridx me) target_path fp mime overwrite);;
  mret true.

Definition upload (target_path : string) (fp : fileobj) (overwrite : bool) : CM bool :=
  resolve_useridx;; upload_body target_path fp overwrite.

(** The statements of [download] after the resolution of [_useridx]. *)
Definition download_body (remote_path local_path : string) : CM unit :=
  me ← gets self;
  resp ← net (send (download_request (_userid me) (_useridx me) remote_path));
  let d := dirname local_path in
  st ← gets (λ s, w_fs (world_of s));
  (if negb (isdir st d) || negb (path_exists st d)
   then net (on_fs (makedirs (S (String.length d)) d)) else mret tt);;
  net (on_fs (open_write local_path (rs_content resp))).

Definition download (remote_path local_path : string) : CM unit :=
  resolve_useridx;; download_body remote_path local_path.

(** The statements of [move] after the resolution of [_useridx]. *)
Definition move_body (from_path to_path : string) : CM bool :=
  me ← gets self;
  call_json (move_request (_userid me) (_useridx me) from_path to_path);;
  mret true.

Definition move (from_path to_path : string) : CM bool :=
  resolve_useridx;; move_body from_path to_path.
End Client.

(** ** Which requests a computation sends *)

Definition is_status (rq : request) : Prop := exists u, rq = status_request u.

(** [m] only appends requests satisfying [P] to the log. *)
Definition appends {A} (P : request -> Prop) (m : CM A) : Prop :=
  forall s, exists l, w_log (world_of (snd (m s))) = w_log (world_of s) ++ l /\ Forall P l.

(** [m] leaves the fields of [self] unchanged. *)
Definition keeps_self {A} (m : CM A) : Prop :=
  forall s, self (snd (m s)) = self s.

Section Appends.
Context `{Transport} (P : request -> Prop).

Lemma appends_ret {A} (a : A) : appends P (mret a).
Proof. intros s. exists []. by rewrite app_nil_r. Qed.

Lemma appends_bind {A B} (m : CM A) (f : A -> CM B) :
  appends P m -> (forall a, appends P (f a)) -> appends P (m ≫= f).
Proof.
  intros Hm Hf s. rewrite pym_bind_run. destruct (Hm s) as (l1 & Hl1 & HP1).
  destruct (m s) as [[a|e] s'] eqn:E; simpl in *.
  - destruct (Hf a s') as (l2 & Hl2 & HP2). exists (l1 ++ l2).
    rewrite Hl2, Hl1, app_assoc. split; [done|]. by apply Forall_app.
  - by exists l1.
Qed.

Lemma appends_send (rq : request) : P rq -> appends P (net (send rq)).
Proof.
  intros HP s. exists [rq]. unfold net. rewrite <- (send_log rq (world_of s)).
  destruct (send rq (world_of s)). split; [done|]. by constructor.
Qed.

Lemma appends_lift {A} (r : result A) : appends P (lift r).
Proof. intros s. exists []. by rewrite app_nil_r. Qed.

Lemma appends_gets {A} (f : cstate -> A) : appends P (gets f).
Proof. intros s. exists []. by rewrite app_nil_r. Qed.

Lemma appends_throw {A} (e : exc) : appends P (throw (A:=A) e).
Proof. intros s. exists []. by rewrite app_nil_r. Qed.

Lemma appends_set_useridx (v : pyval) : appends P (modify (set_useridx v)).
Proof. intros s. exists []. by rewrite app_nil_r. Qed.

Lemma appends_on_fs {A} (m : PyM fs A) : appends P (net (on_fs m)).
Proof.
  intros s. exists []. rewrite app_nil_r. unfold net.
  rewrite <- (on_fs_log m (world_of s)). by destruct (on_fs m (world_of s)).
Qed.

Lemma appends_if {A} (b : bool) (m1 m2 : CM A) :
  appends P m1 -> appends P m2 -> appends P (if b then m1 else m2).
Proof. by destruct b. Qed.

Lemma appends_call_json (rq : request) : P rq -> appends P (call_json rq).
Proof.
  intros HP. unfold call_json.
  apply appends_bind; [by apply appends_send|]. intros.
  apply appends_bind; [apply appends_lift|]. intros.
  apply appends_bind; [apply appends_lift|]. intros. apply appends_ret.
Qed.
End Appends.

Create HintDb appends discriminated.
#[export] Hint Resolve appends_ret appends_bind appends_send appends_lift appends_gets
  appends_throw appends_set_useridx appends_on_fs appends_if appends_call_json : appends.

Section KeepsSelf.
Context `{Transport}.

Lemma keeps_self_ret {A} (a : A) : keeps_self (mret a).
Proof. done. Qed.

Lemma keeps_self_bind {A B} (m : CM A) (f : A -> CM B) :
  keeps_self m -> (forall a, keeps_self (f a)) -> keeps_self (m ≫= f).
Proof.
  intros Hm Hf s. rewrite pym_bind_run. specialize (Hm s).
  destruct (m s) as [[a|e] s'] eqn:E; simpl in *; [by rewrite Hf|done].
Qed.

Lemma keeps_self_net {A} (m : PyM world A) : keeps_self (net m).
Proof. intros s. unfold net. by destruct (m (world_of s)). Qed.

Lemma keeps_self_lift {A} (r : result A) : keeps_self (lift r).
Proof. done. Qed.

Lemma keeps_self_gets {A} (f : cstate -> A) : keeps_self (gets f).
Proof. done. Qed.

Lemma keeps_self_throw {A} (e : exc) : keeps_self (throw (A:=A) e).
Proof. done. Qed.

Lemma keeps_self_if {A} (b : bool) (m1 m2 : CM A) :
  keeps_self m1 -> keeps_self m2 -> keeps_self (if b then m1 else m2).
Proof. by destruct b. Qed.

Lemma keeps_self_call_json (rq : request) : keeps_self (call_json rq).
Proof.
  unfold call_json. apply keeps_self_bind; [apply keeps_self_net|]. intros.
  apply keeps_self_bind; [apply keeps_self_lift|]. intros.
  apply keeps_self_bind; [apply keeps_self_lift|]. intros. apply keeps_self_ret.
Qed.
End KeepsSelf.

Create HintDb keeps discriminated.
#[export] Hint Resolve keeps_self_ret keeps_self_bind keeps_self_net keeps_self_lift
  keeps_self_gets keeps_self_throw keeps_self_if keeps_self_call_json : keeps.

(** ** The lazy resolution of [_useridx] *)

Ltac not_status_tac :=
  let u := fresh "u" in let Heq := fresh "Heq" in
  intros [u Heq]; unfold status_request, session_get, session_post in Heq;
  inversion Heq; try congruence.

Lemma list_request_not_status u i p k : ~ is_status (list_request u i p k).
Proof. not_status_tac. Qed.
Lemma make_dir_request_not_status u i p : ~ is_status (make_dir_request u i p).
Proof. not_status_tac. Qed.
Lemma disk_space_request_not_status u i : ~ is_status (disk_space_request u i).
Proof. not_status_tac. Qed.
Lemma fileinfo_request_not_status u i p : ~ is_status (fileinfo_request u i p).
Proof. not_status_tac. Qed.
Lemma upload_request_not_status u i p fp m o : ~ is_status (upload_request u i p fp m o).
Proof. not_status_tac. Qed.
Lemma download_request_not_status u i p : ~ is_status (download_request u i p).
Proof. not_status_tac. Qed.
Lemma move_request_not_status u i p q : ~ is_status (move_request u i p q).
Proof. not_status_tac. Qed.
Lemma check_upload_request_not_status u i p o n d : ~ is_status (check_upload_request u i p o n d).
Proof. not_status_tac. Qed.

#[export] Hint Resolve list_request_not_status make_dir_request_not_status
  disk_space_request_not_status fileinfo_request_not_status upload_request_not_status
  download_request_not_status move_request_not_status check_upload_request_not_status : appends.

Section Resolution.
Context `{Transport} `{MimeTypes}.

Definition not_status (rq : request) : Prop := ~ is_status rq.

(** [check_status] sends exactly the status request. *)
Lemma check_status_log (s : cstate) :
  w_log (world_of (snd (check_status s))) =
    w_log (world_of s) ++ [status_request (_userid (self s))].
Proof.
  unfold check_status, call_json. unfold_pym. unfold net.
  rewrite <- (send_log _ (world_of s)).
  destruct (send _ (world_of s)) as [[resp|e] w'] eqn:E; simpl; [|done].
  by repeat (case_match; simplify_eq/=).
Qed.

(** [check_status] assigns [self._useridx] only. *)
Lemma check_status_userid (s : cstate) :
  _userid (self (snd (check_status s))) = _userid (self s).
Proof.
  unfold check_status, call_json. unfold_pym. unfold net.
  destruct (send _ (world_of s)) as [[resp|e] w'] eqn:E; simpl; [|done].
  by repeat (case_match; simplify_eq/=).
Qed.

(** An operation [resolve_useridx;; body] whose body sends no status
    request: nothing more when [_useridx] is truthy, otherwise exactly one
    status request, first. *)
Lemma resolve_then {A} (body : CM A) (s : cstate) :
  appends not_status body ->
  exists l,
    w_log (world_of (snd ((resolve_useridx;; body) s))) =
      w_log (world_of s) ++
        (if truthy (_useridx (self s)) then l else status_request (_userid (self s)) :: l) /\
    Forall not_status l.
Proof.
  intros Hb. unfold resolve_useridx. unfold_pym.
  destruct (truthy (_useridx (self s))).
  - apply (Hb s).
  - pose proof (check_status_log s) as Hlog.
    destruct (check_status s) as [[v|e] s1] eqn:E; simpl in Hlog |- *.
    + destruct (Hb s1) as (l & Hl & HP). exists l. rewrite Hl, Hlog, <- app_assoc. by split.
    + exists []. rewrite Hlog. by split.
Qed.
End Resolution.

(** The operations of the client, as a caller invokes them. *)
Inductive call : Type :=
| ListDirs (target_path : string)
| ListFiles (target_path : string)
| MakeDir (target_path : string)
| GetDiskSpace
| CheckUpload (target_path : string) (fp : fileobj) (overwrite : bool)
| GetFileinfo (target_path : string)
| Exists (target_path : string)
| Upload (target_path : string) (fp : fileobj) (overwrite : bool)
| Download (remote_path local_path : string)
| Move (from_path to_path : string).

Section Calls.
Context `{Transport} `{MimeTypes}.

Definition run_call (c : call) : CM unit :=
  match c with
  | ListDirs p => list_dirs p;; mret tt
  | ListFiles p => list_files p;; mret tt
  | MakeDir p => make_dir p;; mret tt
  | GetDiskSpace => get_disk_space;; mret tt
  | CheckUpload p fp o => check_upload p fp o;; mret tt
  | GetFileinfo p => get_fileinfo p;; mret tt
  | Exists p => exists_ p;; mret tt
  | Upload p fp o => upload p fp o;; mret tt
  | Download r l => download r l;; mret tt
  | Move f t => move f t;; mret tt
  end.
End Calls.

Section CallsLog.
Context `{Transport} `{MimeTypes}.

Lemma pym_bind_assoc_run {A B C} (m : CM A) (f : A -> CM B) (g : B -> CM C) (s : cstate) :
  ((m ≫= f) ≫= g) s = (m ≫= (λ x, f x ≫= g)) s.
Proof. unfold_pym. by destruct (m s) as [[a|e] s']. Qed.

Lemma resolve_then_cont {A B} (body : CM A) (k : A -> CM B) (s : cstate) :
  appends not_status body -> (forall a, appends not_status (k a)) ->
  exists l,
    w_log (world_of (snd (((resolve_useridx;; body) ≫= k) s))) =
      w_log (world_of s) ++
        (if truthy (_useridx (self s)) then l else status_request (_userid (self s)) :: l) /\
    Forall not_status l.
Proof.
  intros Hb Hk. rewrite pym_bind_assoc_run. apply resolve_then.
  by apply appends_bind.
Qed.

(** [exists] sends what [get_fileinfo] sends: its handler only returns
    or re-raises. *)
Lemma exists_log (p : string) (s : cstate) :
  w_log (world_of (snd (exists_ p s))) =
    w_log (world_of (snd ((get_fileinfo p;; mret true) s))).
Proof.
  unfold exists_, catch. destruct ((get_fileinfo p;; mret true) s) as [[b|e] s'] eqn:E; [done|].
  simpl. destruct e; try done. by destruct (py_ne_int code Codes_NotExistPath).
Qed.
End CallsLog.

(** Split an [appends] goal along the statements of a body, leaving the
    side conditions on the requests sent. *)
Ltac appends_steps :=
  repeat first [ apply appends_bind; intros | apply appends_if | apply appends_call_json
               | apply appends_ret | apply appends_lift | apply appends_gets
               | apply appends_throw | apply appends_on_fs | apply appends_set_useridx
               | apply appends_send ].

Ltac appends_tac := appends_steps; try (unfold not_status; eauto with appends).

Section LazyResolution.
Context `{Transport} `{MimeTypes}.

Lemma log_bind_ret {A} (m : CM A) (s : cstate) :
  w_log (world_of (snd ((m;; mret tt) s))) = w_log (world_of (snd (m s))).
Proof. unfold_pym. by destruct (m s) as [[a|e] s']. Qed.

(** The request log of every operation: the status request first when
    [_useridx] is falsy, then requests that are not status requests. *)
Lemma run_call_log (c : call) (s : cstate) :
  exists l,
    w_log (world_of (snd (run_call c s))) =
      w_log (world_of s) ++
        (if truthy (_useridx (self s)) then l else status_request (_userid (self s)) :: l) /\
    Forall not_status l.
Proof.
  destruct c; cbn [run_call];
    try (apply resolve_then_cont; appends_tac; fail).
  rewrite log_bind_ret, exists_log. apply resolve_then_cont; appends_tac.
Qed.
End LazyResolution.

(** ** Runs of the operations *)

Section Runs.
Context `{Transport} `{MimeTypes}.

Lemma resolve_truthy (s : cstate) :
  truthy (_useridx (self s)) = true -> resolve_useridx s = (Ok tt, s).
Proof. intros Ht. unfold resolve_useridx. unfold_pym. by rewrite Ht. Qed.

Lemma resolve_then_truthy {A} (body : CM A) (s : cstate) :
  truthy (_useridx (self s)) = true -> (resolve_useridx;; body) s = body s.
Proof. intros Ht. rewrite pym_bind_run, resolve_truthy by done. done. Qed.

(** The fields of [self] after an operation are those [resolve_useridx]
    left: the bodies never assign them. *)
Lemma resolve_then_self {A} (body : CM A) (s : cstate) :
  keeps_self body ->
  self (snd ((resolve_useridx;; body) s)) = self (snd (resolve_useridx s)).
Proof.
  intros Hb. rewrite pym_bind_run. destruct (resolve_useridx s) as [[u|e] s'].
  - apply Hb.
  - done.
Qed.

Lemma send_run (rq : request) (s : cstate) (r : response) :
  respond (w_log (world_of s)) rq = Reply r ->
  net (send rq) s =
    (Ok r, mkCState (self s) (mkWorld (w_log (world_of s) ++ [rq]) (w_fs (world_of s)))).
Proof. intros Hr. unfold net, send. by rewrite Hr. Qed.

(** [check_status] against an answer [data] with result code [0]: the
    result value is returned and its [useridx] cached. *)
Lemma check_status_run (s : cstate) (c : string) (data rv v : pyval) :
  respond (w_log (world_of s)) (status_request (_userid (self s))) =
    Reply (mkResponse c (Some data)) ->
  check_error data = Ok tt ->
  getitem data "resultvalue" = Ok rv -> getitem rv "useridx" = Ok v ->
  check_status s =
    (Ok rv, mkCState (mkNdrive (_userid (self s)) v)
              (mkWorld (w_log (world_of s) ++ [status_request (_userid (self s))])
                       (w_fs (world_of s)))).
Proof.
  intros Hr Hc Hrv Hv. unfold check_status, call_json. unfold_pym.
  unfold net, send. rewrite Hr. simpl. rewrite Hc. simpl. rewrite Hrv. simpl.
  by rewrite Hv.
Qed.
End Runs.

Ltac keeps_tac :=
  repeat first [ apply keeps_self_bind; intros | apply keeps_self_if | apply keeps_self_call_json
               | apply keeps_self_ret | apply keeps_self_lift | apply keeps_self_gets
               | apply keeps_self_throw | apply keeps_self_net ].

Section Caching.
Context `{Transport} `{MimeTypes}.

Lemma keeps_self_bind_ret {A B} (m : CM A) (b : B) (s : cstate) :
  self (snd ((m;; mret b) s)) = self (snd (m s)).
Proof. unfold_pym. by destruct (m s) as [[a|e] s']. Qed.

Lemma exists_self (p : string) (s : cstate) :
  self (snd (exists_ p s)) = self (snd ((get_fileinfo p;; mret true) s)).
Proof.
  unfold exists_, catch. destruct ((get_fileinfo p;; mret true) s) as [[b|e] s'] eqn:E; [done|].
  simpl. destruct e; try done. by destruct (py_ne_int code Codes_NotExistPath).
Qed.

(** Only the resolution step assigns [self._useridx]. *)
Lemma run_call_self (c : call) (s : cstate) :
  self (snd (run_call c s)) = self (snd (resolve_useridx s)).
Proof.
  destruct c; cbn [run_call]; rewrite keeps_self_bind_ret;
    try (apply resolve_then_self; keeps_tac; fail).
  rewrite exists_self, keeps_self_bind_ret. apply resolve_then_self. keeps_tac.
Qed.
End Caching.

(** ** Properties of the client *)

Section ClientProperties.
Context `{Transport} `{MimeTypes}.

(** C9: lazy, at-most-once resolution of [_useridx], per operation.
    Every operation of the client sends, when [self._useridx] is falsy,
    the status request of [self._userid] first and no other status
    request after it; when it is truthy, no status request at all. *)
Theorem call_status_requests (c : call) (s : cstate) :
  exists l,
    w_log (world_of (snd (run_call c s))) =
      w_log (world_of s) ++
        (if truthy (_useridx (self s)) then l else status_request (_userid (self s)) :: l) /\
    Forall not_status l.
Proof. apply run_call_log. Qed.

(** C27: [check_status] caches what the backend reports: against an
    answer with result code [0], it returns [resultvalue], stores
    [resultvalue['useridx']] in [self._useridx] and sends exactly the
    status request. *)
Theorem check_status_caches (s : cstate) (c : string) (data rv v : pyval) :
  respond (w_log (world_of s)) (status_request (_userid (self s))) =
    Reply (mkResponse c (Some data)) ->
  check_error data = Ok tt ->
  getitem data "resultvalue" = Ok rv -> getitem rv "useridx" = Ok v ->
  outcome check_status s = Ok rv /\
  _useridx (self (final check_status s)) = v /\
  w_log (world_of (final check_status s)) =
    w_log (world_of s) ++ [status_request (_userid (self s))].
Proof.
  intros Hr Hc Hrv Hv. unfold outcome, final.
  rewrite (check_status_run s c data rv v) by done. by split_and!.
Qed.
End ClientProperties.

(** The backend's answer to a status request reporting user index [0]. *)
Definition zero_status_answer : response :=
  mkResponse "" (Some (VDict [("resultcode", VInt 0);
                              ("resultvalue", VDict [("useridx", VInt 0)])])).

Section ZeroIndex.
Context `{Transport} `{MimeTypes}.

Lemma resolve_zero (s : cstate) :
  (forall l u, respond l (status_request u) = Reply zero_status_answer) ->
  truthy (_useridx (self s)) = false ->
  _useridx (self (snd (resolve_useridx s))) = VInt 0.
Proof.
  intros Hz Hf. unfold resolve_useridx. unfold_pym. rewrite Hf.
  rewrite (check_status_run s "" (VDict [("resultcode", VInt 0);
                                         ("resultvalue", VDict [("useridx", VInt 0)])])
             (VDict [("useridx", VInt 0)]) (VInt 0)); done.
Qed.

(** C10: the cache test is Python truthiness, not [is None].  When the
    backend reports user index [0], [self._useridx] is set to [0], which
    is falsy, so the operation after any first one sends the status
    request again: resolution is repeated on every call instead of
    happening once. *)
Theorem zero_useridx_not_cached (c1 c2 : call) (s : cstate) :
  (forall l u, respond l (status_request u) = Reply zero_status_answer) ->
  truthy (_useridx (self s)) = false ->
  let s1 := snd (run_call c1 s) in
  exists l,
    w_log (world_of (snd (run_call c2 s1))) =
      w_log (world_of s1) ++ status_request (_userid (self s1)) :: l /\
    Forall not_status l.
Proof.
  intros Hz Hf s1. destruct (run_call_log c2 s1) as (l & Hl & HP).
  assert (Hs1 : truthy (_useridx (self s1)) = false).
  { subst s1. rewrite run_call_self, resolve_zero by done. done. }
  rewrite Hs1 in Hl. eauto.
Qed.

(** C26: [_check_error] accepts exactly the answers whose [resultcode]
    equals [0] in Python: the integer [0] or [false]. *)
Theorem check_error_ok_iff (data : pyval) :
  check_error data = Ok tt <->
  getitem data "resultcode" = Ok (VInt 0) \/ getitem data "resultcode" = Ok (VBool false).
Proof.
  unfold check_error. destruct (getitem data "resultcode") as [rc|e]; simpl.
  - destruct (py_ne_int rc 0) eqn:E.
    + split.
      * by destruct (getitem data "resultcode"), (getitem data "message").
      * intros [Heq|Heq]; injection Heq as ->; discriminate.
    + apply py_ne_int_0_false in E. split; [|done].
      intros _. destruct E as [->| ->]; [by left | by right].
  - split; [discriminate | intros [|]; congruence].
Qed.
End ZeroIndex.

Section ExistsList.
Context `{Transport} `{MimeTypes}.

Lemma list_run (p : string) (kind : Z) (s : cstate) (c : string) (data : pyval) :
  truthy (_useridx (self s)) = true ->
  respond (w_log (world_of s)) (list_request (_userid (self s)) (_useridx (self s)) p kind) =
    Reply (mkResponse c (Some data)) ->
  check_error data = Ok tt ->
  outcome (_list p kind) s =
    (rv ← getitem data "resultvalue";
     if negb (truthy rv) then Ok []
     else (rv' ← getitem data "resultvalue"; xs ← py_iter rv';
           map_result (λ x, h ← getitem x "href"; Ok (h, x)) xs)).
Proof.
  intros Ht Hr Hc. unfold outcome, _list. rewrite resolve_then_truthy by done.
  unfold _list_body, call_json. unfold_pym. unfold net, send. rewrite Hr. simpl. rewrite Hc. simpl.
  destruct (getitem data "resultvalue") as [rv|e]; simpl; [|done].
  by destruct (truthy rv).
Qed.

(** C28: listing a directory.  With a resolved client and an answer with
    result code [0]: a [resultvalue] that is null or empty gives the empty
    list, but a missing [resultvalue] raises [KeyError] (the code reads
    [data['resultvalue']]); a list of entries gives, in order, the pairs
    [(entry['href'], entry)], the entries passed through unchanged. *)
Theorem list_result (p : string) (kind : Z) (s : cstate) (c : string)
    (kvs : list (string * pyval)) :
  truthy (_useridx (self s)) = true ->
  respond (w_log (world_of s)) (list_request (_userid (self s)) (_useridx (self s)) p kind) =
    Reply (mkResponse c (Some (VDict kvs))) ->
  check_error (VDict kvs) = Ok tt ->
  (dict_lookup "resultvalue" kvs = None ->
     outcome (_list p kind) s = raise (KeyError "resultvalue")) /\
  (forall v, dict_lookup "resultvalue" kvs = Some v -> truthy v = false ->
     outcome (_list p kind) s = Ok []) /\
  (forall xs hs, dict_lookup "resultvalue" kvs = Some (VList xs) -> xs <> [] ->
     Forall2 (λ x h, getitem x "href" = Ok h) xs hs ->
     outcome (_list p kind) s = Ok (zip hs xs)).
Proof.
  intros Ht Hr Hc. rewrite (list_run p kind s c (VDict kvs)) by done. cbn [getitem].
  split_and!.
  - intros ->. done.
  - intros v -> Hv. simpl. by rewrite Hv.
  - intros xs hs -> Hne Hh. simpl.
    replace (negb (negb (bool_decide (xs = [])))) with false
      by (by rewrite bool_decide_false).
    simpl. clear -Hh. induction Hh as [|x h xs hs Hx _ IH]; [done|].
    simpl. rewrite Hx. simpl. by rewrite IH.
Qed.
End ExistsList.

Section UploadDownload.
Context `{Transport} `{MimeTypes}.

Definition datetime_error : exc :=
  AttributeError "type object 'datetime.datetime' has no attribute 'datetime'".

(** C23: [check_upload] can never succeed.  Whatever the server
    answers it raises; once [_useridx] is resolved it raises the
    [AttributeError] of [datetime.datetime.fromtimestamp] without
    sending anything. *)
Theorem check_upload_never_succeeds (p : string) (fp : fileobj) (o : bool) (s : cstate) :
  (exists e, outcome (check_upload p fp o) s = Err e) /\
  (truthy (_useridx (self s)) = true ->
     check_upload p fp o s = (Err datetime_error, s)).
Proof.
  split.
  - unfold outcome, check_upload. rewrite pym_bind_run.
    destruct (resolve_useridx s) as [[u|e] s']; simpl; eauto.
  - intros Ht. unfold check_upload. by rewrite resolve_then_truthy.
Qed.

(** [upload] sends one PUT to [host + target_path] carrying the file's
    bytes and the identity, date, type and overwrite headers. *)
Lemma upload_log (p : string) (fp : fileobj) (o : bool) (s : cstate) :
  truthy (_useridx (self s)) = true ->
  w_log (world_of (snd (upload p fp o s))) =
    w_log (world_of s) ++
      [upload_request (_userid (self s)) (_useridx (self s)) p fp (guess_type p) o].
Proof.
  intros Ht. unfold upload. rewrite resolve_then_truthy by done. unfold upload_body.
  unfold call_json. unfold_pym. unfold net.
  rewrite <- (send_log _ (world_of s)).
  destruct (send _ (world_of s)) as [[resp|e] w'] eqn:E; simpl; [|done].
  by repeat (case_match; simplify_eq/=).
Qed.

Lemma download_run (r l : string) (s : cstate) (resp : response) :
  truthy (_useridx (self s)) = true ->
  respond (w_log (world_of s)) (download_request (_userid (self s)) (_useridx (self s)) r) =
    Reply resp ->
  let d := dirname l in
  let s1 := mkCState (self s)
              (mkWorld (w_log (world_of s) ++
                        [download_request (_userid (self s)) (_useridx (self s)) r])
                       (w_fs (world_of s))) in
  download r l s =
    ((if negb (isdir (w_fs (world_of s)) d) || negb (path_exists (w_fs (world_of s)) d)
      then net (on_fs (makedirs (S (String.length d)) d)) else mret tt);;
     net (on_fs (open_write l (rs_content resp)))) s1.
Proof.
  intros Ht Hr d s1. unfold download. rewrite resolve_then_truthy by done. unfold download_body.
  unfold_pym. unfold net at 1, send. by rewrite Hr.
Qed.
End UploadDownload.

Section DownloadProps.
Context `{Transport} `{MimeTypes}.

(** C25: [download] writes the whole body.  With a resolved client, an
    answer [resp] to the GET of [host + remote_path], and a destination
    [l] whose directory exists and which is not itself a directory,
    [download] succeeds, the file [l] then holds exactly
    [resp.content] (whatever it held before), and the GET is the only
    request sent. *)
Theorem download_writes_body (r l : string) (s : cstate) (resp : response) :
  truthy (_useridx (self s)) = true ->
  respond (w_log (world_of s)) (download_request (_userid (self s)) (_useridx (self s)) r) =
    Reply resp ->
  l <> "" -> norm l = l ->
  isdir (w_fs (world_of s)) (dirname l) = true ->
  node_at (w_fs (world_of s)) l <> Some Dir ->
  outcome (download r l) s = Ok tt /\
  node_at (w_fs (world_of (final (download r l) s))) l = Some (File (rs_content resp)) /\
  w_log (world_of (final (download r l) s)) =
    w_log (world_of s) ++ [download_request (_userid (self s)) (_useridx (self s)) r].
Proof.
  intros Ht Hr Hl Hn Hd Hnd. unfold outcome, final.
  rewrite (download_run r l s resp Ht Hr). cbv zeta.
  rewrite Hd, (isdir_exists _ _ Hd). simpl. unfold_pym. unfold net, on_fs. simpl.
  rewrite open_write_ok by (try apply parent_status_isdir; done). simpl.
  split_and!; [done | | done].
  apply node_at_insert_self; [done|]. intros Hroot.
  by apply Hnd, node_at_root.
Qed.

(** C24: a destination without a directory part, such as ["f.txt"],
    makes [download] fail: [os.path.dirname] gives [''], which is not a
    directory, and [os.makedirs('')] raises [OSError(ENOENT)] before the
    file is opened. *)
Theorem download_relative_name_fails (r l : string) (s : cstate) (resp : response) :
  truthy (_useridx (self s)) = true ->
  respond (w_log (world_of s)) (download_request (_userid (self s)) (_useridx (self s)) r) =
    Reply resp ->
  dirname l = "" ->
  outcome (download r l) s = raise (OSError ENOENT "").
Proof.
  intros Ht Hr Hd. unfold outcome.
  rewrite (download_run r l s resp Ht Hr). cbv zeta. rewrite Hd, isdir_empty. simpl.
  unfold_pym. unfold net, on_fs. simpl. done.
Qed.
End DownloadProps.

(** ** Witnesses

    A backend that reports user index [idx] to the status request and
    answers every other request with a listing of one entry. *)

Definition status_answer (idx : Z) : response :=
  mkResponse "" (Some (VDict [("resultcode", VInt 0);
                              ("resultvalue", VDict [("useridx", VInt idx)])])).

Definition listing : list (string * pyval) :=
  [("resultcode", VInt 0); ("message", VStr "success");
   ("resultvalue", VList [VDict [("href", VStr "/a.txt")]])].

Definition listing_answer : response := mkResponse "hello" (Some (VDict listing)).

Definition drive_server (idx : Z) : Transport :=
  {| respond := λ _ rq, if String.eqb (rq_url rq) status_url
                        then Reply (status_answer idx) else Reply listing_answer |}.

Definition no_mime : MimeTypes := {| guess_type := λ _, None |}.

Definition fresh_client (m : fs) : cstate := mkCState (Ndrive_init "user") (mkWorld [] m).
Definition resolved_client (m : fs) : cstate := mkCState (mkNdrive "user" (VInt 7)) (mkWorld [] m).

Definition tmp_fs : fs := <["/tmp" := Dir]> ∅.

Lemma check_status_caches_witness :
  outcome (@check_status (drive_server 7)) (fresh_client ∅) = Ok (VDict [("useridx", VInt 7)]) /\
  _useridx (self (final (@check_status (drive_server 7)) (fresh_client ∅))) = VInt 7 /\
  w_log (world_of (final (@check_status (drive_server 7)) (fresh_client ∅))) =
    [] ++ [status_request "user"].
Proof.
  apply (@check_status_caches (drive_server 7) (fresh_client ∅) ""
           (VDict [("resultcode", VInt 0); ("resultvalue", VDict [("useridx", VInt 7)])])
           (VDict [("useridx", VInt 7)]) (VInt 7)); vm_compute; reflexivity.
Defined.

Lemma zero_useridx_not_cached_witness :
  let s1 := snd (@run_call (drive_server 0) no_mime GetDiskSpace (fresh_client ∅)) in
  exists l,
    w_log (world_of (snd (@run_call (drive_server 0) no_mime (ListDirs "/") s1))) =
      w_log (world_of s1) ++ status_request (_userid (self s1)) :: l /\
    Forall not_status l.
Proof.
  apply (@zero_useridx_not_cached (drive_server 0) no_mime GetDiskSpace (ListDirs "/")
           (fresh_client ∅)); [|reflexivity].
  intros l u. reflexivity.
Defined.

Lemma list_result_witness :
  (dict_lookup "resultvalue" listing = None ->
     outcome (@_list (drive_server 7) "/" Types_BOTH) (resolved_client ∅) =
       raise (KeyError "resultvalue")) /\
  (forall v, dict_lookup "resultvalue" listing = Some v -> truthy v = false ->
     outcome (@_list (drive_server 7) "/" Types_BOTH) (resolved_client ∅) = Ok []) /\
  (forall xs hs, dict_lookup "resultvalue" listing = Some (VList xs) -> xs <> [] ->
     Forall2 (λ x h, getitem x "href" = Ok h) xs hs ->
     outcome (@_list (drive_server 7) "/" Types_BOTH) (resolved_client ∅) = Ok (zip hs xs)).
Proof.
  apply (@list_result (drive_server 7) "/" Types_BOTH (resolved_client ∅) "hello" listing);
    vm_compute; reflexivity.
Defined.

Lemma check_upload_never_succeeds_witness :
  (exists e, outcome (@check_upload (drive_server 7) "/a.txt" (mkFileobj "x" 0) false)
               (resolved_client ∅) = Err e) /\
  @check_upload (drive_server 7) "/a.txt" (mkFileobj "x" 0) false (resolved_client ∅) =
    (Err datetime_error, resolved_client ∅).
Proof.
  destruct (@check_upload_never_succeeds (drive_server 7) "/a.txt" (mkFileobj "x" 0) false
              (resolved_client ∅)) as [Hne Ht].
  split; [exact Hne | apply Ht; reflexivity].
Defined.

Lemma download_writes_body_witness :
  outcome (@download (drive_server 7) "/a.txt" "/tmp/f.txt") (resolved_client tmp_fs) = Ok tt /\
  node_at (w_fs (world_of (final (@download (drive_server 7) "/a.txt" "/tmp/f.txt")
                              (resolved_client tmp_fs)))) "/tmp/f.txt" = Some (File "hello") /\
  w_log (world_of (final (@download (drive_server 7) "/a.txt" "/tmp/f.txt")
                     (resolved_client tmp_fs))) =
    [] ++ [download_request "user" (VInt 7) "/a.txt"].
Proof.
  apply (@download_writes_body (drive_server 7) "/a.txt" "/tmp/f.txt" (resolved_client tmp_fs)
           listing_answer); vm_compute; try reflexivity; discriminate.
Defined.

Lemma download_relative_name_fails_witness :
  outcome (@download (drive_server 7) "/a.txt" "f.txt") (resolved_client ∅) =
    raise (OSError ENOENT "").
Proof.
  apply (@download_relative_name_fails (drive_server 7) "/a.txt" "f.txt" (resolved_client ∅)
           listing_answer); vm_compute; reflexivity.
Defined.
