(* ===== verification/Requests.v ===== *)
(** * The requests of the client are well formed

    Every request an operation of [Ndrive] sends goes through the
    client's [requests.Session] to the Ndrive host and names the user: its
    field [userid] is [self._userid] and, except in the status request
    that resolves it, its field [useridx] is [self._useridx] as resolved.
    [ndrive_request me] is this shape for the client [me]; the theorem of
    the file is that every operation sends only requests of that shape
    and never changes [self._userid].  The proof splits each operation
    into [resolve_useridx] and its body (Client.v), reusing the [appends]
    and [keeps_self] lemmas there. *)

From S2P Require Import Prelude Python Http Client.

(** The field [k] is sent with value [v]: as a query parameter, a form
    field or a header. *)
Definition carries (k : string) (v : pyval) (rq : request) : Prop :=
  (k, v) ∈ rq_params rq ++ rq_data rq ++ rq_headers rq.

(** A request of the client whose [self] is [me]. *)
Definition ndrive_request (me : Ndrive) (rq : request) : Prop :=
  rq_session rq = true /\ String.prefix host (rq_url rq) = true /\
  carries "userid" (VStr (_userid me)) rq /\
  (is_status rq \/ carries "useridx" (_useridx me) rq).

Lemma prefix_append (s t : string) : String.prefix s (s +:+ t) = true.
Proof.
  induction s as [|c s IH]; [by destruct t|].
  rewrite append_cons. simpl. by destruct (ascii_dec c c).
Qed.

Ltac request_tac :=
  unfold ndrive_request, carries; cbn [rq_session rq_url rq_params rq_data rq_headers];
  repeat split; try (right; rewrite list_elem_of_In; simpl; tauto);
  try first [ apply prefix_append | vm_compute; reflexivity | rewrite list_elem_of_In; simpl; tauto ].

Section Shapes.
Variable me : Ndrive.

Lemma status_request_shape (u : string) : _userid me = u -> ndrive_request me (status_request u).
Proof. intros <-. request_tac. left. by exists (_userid me). Qed.

Lemma list_request_shape p k :
  ndrive_request me (list_request (_userid me) (_useridx me) p k).
Proof. request_tac. Qed.

Lemma make_dir_request_shape p :
  ndrive_request me (make_dir_request (_userid me) (_useridx me) p).
Proof. request_tac. Qed.

Lemma disk_space_request_shape :
  ndrive_request me (disk_space_request (_userid me) (_useridx me)).
Proof. request_tac. Qed.

Lemma fileinfo_request_shape p :
  ndrive_request me (fileinfo_request (_userid me) (_useridx me) p).
Proof. request_tac. Qed.

Lemma upload_request_shape p fp m o :
  ndrive_request me (upload_request (_userid me) (_useridx me) p fp m o).
Proof. request_tac. Qed.

Lemma download_request_shape p :
  ndrive_request me (download_request (_userid me) (_useridx me) p).
Proof. request_tac. Qed.

Lemma move_request_shape p q :
  ndrive_request me (move_request (_userid me) (_useridx me) p q).
Proof. request_tac. Qed.
End Shapes.

Create HintDb shapes discriminated.
#[export] Hint Resolve list_request_shape make_dir_request_shape disk_space_request_shape
  fileinfo_request_shape upload_request_shape download_request_shape move_request_shape : shapes.

Section WellFormed.
Context `{Transport} `{MimeTypes}.

(** [m] keeps [self._userid] and sends only requests of the client whose
    [self] it ends with. *)
Definition sends_ndrive {A} (m : CM A) : Prop :=
  forall s,
    _userid (self (snd (m s))) = _userid (self s) /\
    exists l, w_log (world_of (snd (m s))) = w_log (world_of s) ++ l /\
              Forall (ndrive_request (self (snd (m s)))) l.

(** A body that reads [self] first, then sends requests of that client
    and never assigns [self]. *)
Lemma body_sends {A} (k : Ndrive -> CM A) :
  (forall me, appends (ndrive_request me) (k me)) -> keeps_self (gets self ≫= k) ->
  sends_ndrive (gets self ≫= k).
Proof.
  intros Hk Hs s. rewrite (Hs s). split; [done|].
  change ((gets self ≫= k) s) with (k (self s) s). apply Hk.
Qed.

Lemma throw_sends {A} (e : exc) : sends_ndrive (throw (A:=A) e).
Proof. intros s. split; [done|]. exists []. by rewrite app_nil_r. Qed.

(** The resolution adds the status request, whose [userid] is the one
    the body keeps. *)
Lemma resolve_then_sends {A} (body : CM A) :
  sends_ndrive body -> sends_ndrive (resolve_useridx;; body).
Proof.
  intros Hb s. unfold resolve_useridx. unfold_pym.
  destruct (truthy (_useridx (self s))); [apply (Hb s)|].
  pose proof (check_status_log s) as Hlog. pose proof (check_status_userid s) as Hu.
  destruct (check_status s) as [[v|e] s1]; simpl in Hlog, Hu |- *.
  - destruct (Hb s1) as (Hu1 & l & Hl & HF). split; [congruence|].
    exists (status_request (_userid (self s)) :: l).
    rewrite Hl, Hlog, <- app_assoc. split; [done|].
    constructor; [|done]. apply status_request_shape. congruence.
  - split; [done|]. exists [status_request (_userid (self s))].
    split; [done|]. constructor; [|done]. by apply status_request_shape.
Qed.

Lemma bind_ret_sends {A B} (m : CM A) (b : B) :
  sends_ndrive m -> sends_ndrive (m;; mret b).
Proof.
  intros Hm s. specialize (Hm s). unfold_pym.
  by destruct (m s) as [[a|e] s'].
Qed.

(** An exception handler that only returns or re-raises. *)
Lemma catch_sends {A} (m : CM A) (h : exc -> CM A) :
  sends_ndrive m -> (forall e s, snd (h e s) = s) -> sends_ndrive (catch m h).
Proof.
  intros Hm Hh s. specialize (Hm s). unfold catch.
  destruct (m s) as [[a|e] s1]; [done|]. by rewrite Hh.
Qed.

Lemma exists_sends (p : string) :
  sends_ndrive (get_fileinfo p;; mret true) -> sends_ndrive (exists_ p).
Proof. intros Hm s. rewrite exists_log, exists_self. apply Hm. Qed.
End WellFormed.

(** The body of a method sends requests of the client. *)
Ltac body_sends_tac :=
  first [ apply throw_sends
        | apply body_sends; [intros ?; appends_steps; eauto with shapes | keeps_tac] ].

Ltac sends_tac := apply resolve_then_sends; body_sends_tac.

Section Properties.
Context `{Transport} `{MimeTypes}.

(** C17: every request is a request of the client.  Whatever the server
    answers, an operation of [Ndrive] keeps [self._userid], and every
    request it sends goes through the session to the Ndrive host with
    [userid] set to [self._userid] and, except for the status request,
    [useridx] set to the [self._useridx] the operation ends with. *)
Theorem run_call_well_formed (c : call) (s : cstate) :
  _userid (self (snd (run_call c s))) = _userid (self s) /\
  exists l,
    w_log (world_of (snd (run_call c s))) = w_log (world_of s) ++ l /\
    Forall (ndrive_request (self (snd (run_call c s)))) l.
Proof.
  revert s. change (sends_ndrive (run_call c)).
  destruct c; cbn [run_call]; apply bind_ret_sends;
    try (apply exists_sends, bind_ret_sends);
    unfold list_dirs, list_files, _list, make_dir, get_disk_space, check_upload,
      get_fileinfo, upload, download, move; sends_tac.
Qed.
End Properties.
