(* ===== verification/ServiceErrors.v ===== *)
(** * Backend errors surface unmodified

    The spec's dispatch rule: every authenticated call inspects the
    [resultcode] of the JSON answer and raises [ServiceError(code,
    message)] when it is non-zero.  In the code this is [_check_error]
    (pyncloud.py, lines 75-78), called by [check_status] and by every
    method that decodes an answer.  This file proves that each such method
    raises [NdriveError(resultcode, message)] on an error answer, after
    exactly one request and without changing [self] or the file system;
    the three methods that do not follow the rule ([download],
    [check_upload], [exists]) are the exceptions the Client theorems
    describe, and the last theorem here shows what the [try] of
    [exists] does with an error answer to the status request. *)

From S2P Require Import Prelude Python Http Client Requests.

(** The methods whose answer goes through [_check_error] before anything
    else can fail. *)
Definition checks_resultcode (c : call) : bool :=
  match c with
  | Download _ _ | CheckUpload _ _ _ | Client.Exists _ => false
  | _ => true
  end.

(** The state after sending [rq]: one more request in the log. *)
Definition sent (s : cstate) (rq : request) : cstate :=
  mkCState (self s) (mkWorld (w_log (world_of s) ++ [rq]) (w_fs (world_of s))).

Section ErrorAnswer.
Context `{Transport} `{MimeTypes}.
Variables (body : string) (data rc msg : pyval).
Hypothesis Hrc : getitem data "resultcode" = Ok rc.
Hypothesis Hne : py_ne_int rc 0 = true.
Hypothesis Hmsg : getitem data "message" = Ok msg.

(** [call_json rq] on an error answer to [rq]. *)
Lemma call_json_error_at (rq : request) (s : cstate) :
  respond (w_log (world_of s)) rq = Reply (mkResponse body (Some data)) ->
  call_json rq s = (Err (NdriveError rc msg), sent s rq).
Proof using Hrc Hne Hmsg.
  intros Hsrv. unfold call_json. unfold_pym. unfold net, send. rewrite Hsrv. simpl.
  unfold check_error. rewrite Hrc. simpl. rewrite Hne. simpl. by rewrite Hmsg.
Qed.

(** [check_status] on an error answer to the status request. *)
Lemma check_status_error_at (s : cstate) :
  respond (w_log (world_of s)) (status_request (_userid (self s))) =
    Reply (mkResponse body (Some data)) ->
  check_status s = (Err (NdriveError rc msg), sent s (status_request (_userid (self s)))).
Proof using Hrc Hne Hmsg.
  intros Hsrv. unfold check_status. rewrite pym_bind_run. cbn [gets]. rewrite pym_bind_run.
  by rewrite call_json_error_at.
Qed.

Hypothesis Hsrv : forall l rq, respond l rq = Reply (mkResponse body (Some data)).

Lemma call_json_error (rq : request) (s : cstate) :
  call_json rq s = (Err (NdriveError rc msg), sent s rq).
Proof using Hsrv Hrc Hne Hmsg. by apply call_json_error_at. Qed.

Lemma check_status_error (s : cstate) :
  check_status s = (Err (NdriveError rc msg), sent s (status_request (_userid (self s)))).
Proof using Hsrv Hrc Hne Hmsg. by apply check_status_error_at. Qed.

(** A body that reads [self] and sends its request with [call_json]
    first. *)
Lemma body_error {A} (rqf : Ndrive -> request) (k : Ndrive -> pyval -> CM A) (s : cstate) :
  (gets self ≫= λ me, call_json (rqf me) ≫= k me) s =
    (Err (NdriveError rc msg), sent s (rqf (self s))).
Proof using Hsrv Hrc Hne Hmsg.
  rewrite pym_bind_run. cbn [gets]. rewrite pym_bind_run. by rewrite call_json_error.
Qed.

(** An operation [resolve_useridx;; body] raises the error after one
    request: the status request when [_useridx] is falsy, the body's own
    request otherwise. *)
Lemma resolve_then_error {A} (rqf : Ndrive -> request) (k : Ndrive -> pyval -> CM A)
    (s : cstate) :
  (ndrive_request (self s) (rqf (self s))) ->
  exists rq, ((resolve_useridx;; (gets self ≫= λ me, call_json (rqf me) ≫= k me));; mret tt) s =
               (Err (NdriveError rc msg), sent s rq) /\ ndrive_request (self s) rq.
Proof using Hsrv Hrc Hne Hmsg.
  intros Hrq. rewrite pym_bind_run, pym_bind_run. unfold resolve_useridx.
  rewrite pym_bind_run. cbn [gets].
  destruct (truthy (_useridx (self s))).
  - cbn [mret pym_ret]. rewrite body_error. by eexists.
  - rewrite pym_bind_run, check_status_error. eexists. split; [done|].
    by apply status_request_shape.
Qed.
End ErrorAnswer.

Section Properties.
Context `{Transport} `{MimeTypes}.

(** C20: the backend's errors surface unmodified.  Against a server
    whose every answer is JSON with a non-zero [resultcode] [rc] and a
    [message] [msg], each method that checks the result code ([_list] and
    [list_dirs], [list_files], [make_dir], [get_disk_space],
    [get_fileinfo], [upload], [move]) raises [NdriveError(rc, msg)] after
    sending exactly one request of the client (the status request when
    [_useridx] is unresolved), and changes neither [self] nor the file
    system. *)
Theorem service_error_raised (c : call) (s : cstate) (body : string) (data rc msg : pyval) :
  checks_resultcode c = true ->
  (forall l rq, respond l rq = Reply (mkResponse body (Some data))) ->
  getitem data "resultcode" = Ok rc -> py_ne_int rc 0 = true -> getitem data "message" = Ok msg ->
  exists rq, run_call c s = (Err (NdriveError rc msg), sent s rq) /\ ndrive_request (self s) rq.
Proof.
  intros Hc Hsrv Hrc Hne Hmsg.
  destruct c; try discriminate; cbn [run_call];
    unfold list_dirs, list_files, _list, make_dir, get_disk_space, get_fileinfo, upload, move;
    apply (resolve_then_error body data rc msg Hrc Hne Hmsg Hsrv); eauto with shapes.
Qed.

(** C34: [exists] mistakes a failed resolution for a missing file.  The
    [try] of [exists] encloses [get_fileinfo] whole, the resolution of
    [_useridx] included.  On an unresolved client whose status request
    the backend answers with an error of code [11] (the code for a path
    that does not exist), [exists(p)] returns [False] after sending only
    the status request: [p] is never asked about, and the failure of the
    resolution is reported as the absence of [p]. *)
Theorem exists_false_on_status_error (p : string) (s : cstate) (body : string)
    (data rc msg : pyval) :
  truthy (_useridx (self s)) = false ->
  respond (w_log (world_of s)) (status_request (_userid (self s))) =
    Reply (mkResponse body (Some data)) ->
  getitem data "resultcode" = Ok rc -> py_ne_int rc 0 = true ->
  py_ne_int rc Codes_NotExistPath = false -> getitem data "message" = Ok msg ->
  exists_ p s = (Ok false, sent s (status_request (_userid (self s)))).
Proof.
  intros Hf Hsrv Hrc Hne Hnx Hmsg. unfold exists_, catch, get_fileinfo.
  rewrite !pym_bind_run. unfold resolve_useridx. rewrite pym_bind_run. cbn [gets]. rewrite Hf.
  rewrite pym_bind_run, (check_status_error_at body data rc msg) by done. simpl.
  by rewrite Hnx.
Qed.
End Properties.

(** ** Witnesses *)

(** The answer of the spec's example: code 99, "quota exceeded". *)
Definition quota_answer : pyval :=
  VDict [("resultcode", VInt 99); ("message", VStr "quota exceeded")].

Definition quota_server : Transport :=
  {| respond := λ _ _, Reply (mkResponse "{}" (Some quota_answer)) |}.

Lemma service_error_raised_witness :
  exists rq, @run_call quota_server no_mime (Move "/a" "/b") (resolved_client ∅) =
               (Err (NdriveError (VInt 99) (VStr "quota exceeded")), sent (resolved_client ∅) rq) /\
             ndrive_request (self (resolved_client ∅)) rq.
Proof.
  apply (@service_error_raised quota_server no_mime (Move "/a" "/b") (resolved_client ∅) "{}"
           quota_answer (VInt 99) (VStr "quota exceeded")); reflexivity.
Defined.

(** The backend refusing the status request with code 11. *)
Definition status_refused : pyval :=
  VDict [("resultcode", VInt 11); ("message", VStr "no such user")].

Definition refusing_server : Transport :=
  {| respond := λ _ _, Reply (mkResponse "{}" (Some status_refused)) |}.

Lemma exists_false_on_status_error_witness :
  @exists_ refusing_server "/report.pdf" (fresh_client ∅) =
    (Ok false, sent (fresh_client ∅) (status_request "user")).
Proof.
  apply (@exists_false_on_status_error refusing_server "/report.pdf" (fresh_client ∅) "{}"
           status_refused (VInt 11) (VStr "no such user")); reflexivity.
Defined.
