(* ===== verification/Upload.v ===== *)
(** * [Ndrive.upload] on a successful answer

    [upload(target_path, fp, overwrite)] (pyncloud.py, lines 194-219)
    PUTs the bytes of [fp] to the Ndrive host at [target_path], with the
    identity headers and the file's metadata, and returns [True] once
    [_check_error] accepts the answer.  The spec (section 4.2) lists the
    headers: last-modified time, the guessed MIME type with the default
    [application/octet-binary], the overwrite flag as [T] or [F].  The
    theorem of this file states them of the request the method sends; the
    error answer is the case of ServiceErrors.v.  [move] is treated the
    same way: its request and the overwrite it forces. *)

From S2P Require Import Prelude Python Http Client Requests ServiceErrors.

Ltac header_tac := rewrite list_elem_of_In; simpl; tauto.

Section Upload.
Context `{Transport} `{MimeTypes}.

(** [upload]'s run on a resolved client whose server answers [data]. *)
Lemma upload_run (p : string) (fp : fileobj) (o : bool) (s : cstate) (r : response)
    (data : pyval) :
  truthy (_useridx (self s)) = true ->
  respond (w_log (world_of s))
    (upload_request (_userid (self s)) (_useridx (self s)) p fp (guess_type p) o) = Reply r ->
  resp_json r = Ok data -> check_error data = Ok tt ->
  upload p fp o s =
    (Ok true, sent s (upload_request (_userid (self s)) (_useridx (self s)) p fp (guess_type p) o)).
Proof.
  intros Ht Hr Hj Hc. unfold upload. rewrite resolve_then_truthy by done.
  unfold upload_body, call_json. unfold_pym. unfold net, send. rewrite Hr. simpl.
  rewrite Hj. simpl. by rewrite Hc.
Qed.
(** [move]'s run on a resolved client whose server answers [data]. *)
Lemma move_run (f t : string) (s : cstate) (r : response) (data : pyval) :
  truthy (_useridx (self s)) = true ->
  respond (w_log (world_of s)) (move_request (_userid (self s)) (_useridx (self s)) f t) = Reply r ->
  resp_json r = Ok data -> check_error data = Ok tt ->
  move f t s = (Ok true, sent s (move_request (_userid (self s)) (_useridx (self s)) f t)).
Proof.
  intros Ht Hr Hj Hc. unfold move. rewrite resolve_then_truthy by done.
  unfold move_body, call_json. unfold_pym. unfold net, send. rewrite Hr. simpl.
  rewrite Hj. simpl. by rewrite Hc.
Qed.
End Upload.

(** ** Properties *)

Section Properties.
Context `{Transport} `{MimeTypes}.

(** C21: what [upload] sends.  On a resolved client whose server
    accepts the request, [upload] returns [True] after sending exactly
    one request of the client: a PUT to the Ndrive host followed by
    [target_path], whose body is the content of [fp], with the headers
    [MODIFYDATE] (the file's modification time), [OVERWRITE] ([T] or
    [F]) and [Content-Type]: the guessed MIME type, or
    [application/octet-binary] when the guesser returns nothing or an
    empty string. *)
Theorem upload_puts_file (p : string) (fp : fileobj) (o : bool) (s : cstate) (r : response)
    (data : pyval) :
  truthy (_useridx (self s)) = true ->
  (forall l rq, respond l rq = Reply r) -> resp_json r = Ok data -> check_error data = Ok tt ->
  exists rq,
    upload p fp o s = (Ok true, sent s rq) /\ ndrive_request (self s) rq /\
    rq_method rq = PUT /\ rq_url rq = "http://ndrive2.naver.com" +:+ p /\
    rq_body rq = fo_content fp /\
    ("MODIFYDATE", VDate (fo_mtime fp)) ∈ rq_headers rq /\
    ("OVERWRITE", VStr (if o then "T" else "F")) ∈ rq_headers rq /\
    (forall m, guess_type p = Some m -> m <> "" -> ("Content-Type", VStr m) ∈ rq_headers rq) /\
    (guess_type p = None \/ guess_type p = Some "" ->
     ("Content-Type", VStr "application/octet-binary") ∈ rq_headers rq).
Proof.
  intros Ht Hsrv Hj Hc. eexists. split; [apply (upload_run p fp o s r data); auto|].
  split; [apply upload_request_shape|]. cbn [upload_request rq_method rq_url rq_body rq_headers].
  split_and!; try done; try (destruct o; header_tac).
  - intros m Hm Hne. unfold content_type. rewrite Hm.
    destruct (String.eqb_spec m ""); [done|header_tac].
  - intros [Hm|Hm]; unfold content_type; rewrite Hm; header_tac.
Qed.

(** C35: [move] overwrites.  On a resolved client whose server accepts
    the request, [move(from_path, to_path)] returns [True] after sending
    exactly one request of the client: a POST to the move endpoint whose
    form names [from_path] as [orgresource] and [to_path] as
    [dstresource], with [overwrite] set to [T] and to nothing else: the
    caller cannot ask for a move that keeps an existing destination (the
    spec's forced overwrite). *)
Theorem move_forced_overwrite (f t : string) (s : cstate) (r : response) (data : pyval) :
  truthy (_useridx (self s)) = true ->
  (forall l rq, respond l rq = Reply r) -> resp_json r = Ok data -> check_error data = Ok tt ->
  exists rq,
    move f t s = (Ok true, sent s rq) /\ ndrive_request (self s) rq /\
    rq_method rq = POST /\ rq_url rq = "http://ndrive2.naver.com/DoMove.ndrive" /\
    ("orgresource", VStr f) ∈ rq_data rq /\ ("dstresource", VStr t) ∈ rq_data rq /\
    (forall v, ("overwrite", v) ∈ rq_data rq -> v = VStr "T").
Proof.
  intros Ht Hsrv Hj Hc. eexists. split; [apply (move_run f t s r data); auto|].
  split; [apply move_request_shape|]. cbn [move_request session_post rq_method rq_url rq_data].
  split_and!; try done; try header_tac.
  intros v Hv. rewrite list_elem_of_In in Hv. simpl in Hv.
  repeat destruct Hv as [Hv|Hv]; simplify_eq; done.
Qed.
End Properties.

(** ** Witnesses *)

Definition accepting_server : Transport :=
  {| respond := λ _ _, Reply (mkResponse "{}" (Some (VDict [("resultcode", VInt 0)]))) |}.

(** A guesser that knows one text file. *)
Definition text_mime : MimeTypes :=
  {| guess_type := λ p, if String.eqb p "/notes.txt" then Some "text/plain" else None |}.

Lemma upload_puts_file_witness :
  exists rq,
    @upload accepting_server text_mime "/notes.txt" (mkFileobj "hello" 1500000000) false
      (resolved_client ∅) = (Ok true, sent (resolved_client ∅) rq) /\
    ndrive_request (self (resolved_client ∅)) rq /\
    rq_method rq = PUT /\ rq_url rq = "http://ndrive2.naver.com" +:+ "/notes.txt" /\
    rq_body rq = "hello" /\
    ("MODIFYDATE", VDate 1500000000) ∈ rq_headers rq /\
    ("OVERWRITE", VStr "F") ∈ rq_headers rq /\
    (forall m, @guess_type text_mime "/notes.txt" = Some m -> m <> "" ->
       ("Content-Type", VStr m) ∈ rq_headers rq) /\
    (@guess_type text_mime "/notes.txt" = None \/ @guess_type text_mime "/notes.txt" = Some "" ->
     ("Content-Type", VStr "application/octet-binary") ∈ rq_headers rq).
Proof.
  apply (@upload_puts_file accepting_server text_mime "/notes.txt" (mkFileobj "hello" 1500000000)
           false (resolved_client ∅) (mkResponse "{}" (Some (VDict [("resultcode", VInt 0)])))
           (VDict [("resultcode", VInt 0)])); reflexivity.
Defined.

Lemma move_forced_overwrite_witness :
  exists rq,
    @move accepting_server "/a.txt" "/b/a.txt" (resolved_client ∅) =
      (Ok true, sent (resolved_client ∅) rq) /\ ndrive_request (self (resolved_client ∅)) rq /\
    rq_method rq = POST /\ rq_url rq = "http://ndrive2.naver.com/DoMove.ndrive" /\
    ("orgresource", VStr "/a.txt") ∈ rq_data rq /\ ("dstresource", VStr "/b/a.txt") ∈ rq_data rq /\
    (forall v, ("overwrite", v) ∈ rq_data rq -> v = VStr "T").
Proof.
  apply (@move_forced_overwrite accepting_server "/a.txt" "/b/a.txt" (resolved_client ∅)
           (mkResponse "{}" (Some (VDict [("resultcode", VInt 0)])))
           (VDict [("resultcode", VInt 0)])); reflexivity.
Defined.
