(* ===== verification/GuessType.v ===== *)
(** * [mimetypes.guess_type] and the Content-Type of an upload

    [upload] (pyncloud.py, line 202) labels the file it sends with
    [mimetypes.guess_type(target_path)[0]].  This file models Python 2.7's
    [mimetypes.guess_type(url, strict=True)] and what it calls:
    [urllib.splittype] ([splittype]), [posixpath.splitext] ([splitext],
    after [genericpath._splitext]), the data-URL branch ([data_url_type]),
    the loop over [suffix_map] ([suffix_loop]), the lookup in
    [encodings_map] and the two lookups in [types_map].  These are library
    code, not code of the repository; [suffix_map] and [encodings_map] are
    the module's constants.  [types_map] is read at [mimetypes.init()] from
    the system's [mime.types] files, so it is a parameter:
    [python_mimetypes types_map] is the guesser [upload] uses, an instance
    of Client.v's [MimeTypes].

    The loop over [suffix_map] runs with fuel [suffix_fuel]; after one
    substitution the extension is [.gz], [.bz2] or [.xz], which
    [suffix_map] does not hold, so two rounds always suffice
    ([suffix_loop_total]) and [mimetypes_guess_type] always returns. *)

From S2P Require Import Prelude Python FileSystem Http Client ServiceErrors Upload.

(** ** Strings as Python's [str] methods see them *)

Definition dot : ascii := "."%char.

(** [s.rfind(c) + 1]: [0] when [c] does not occur. *)
Fixpoint rfind1 (c : ascii) (s : string) : nat :=
  match s with
  | EmptyString => 0
  | String d r =>
      match rfind1 c r with
      | O => if bool_decide (d = c) then 1 else 0
      | S n => S (S n)
      end
  end.

(** [s.find(c)], [None] for [-1]. *)
Fixpoint find_char (c : ascii) (s : string) : option nat :=
  match s with
  | EmptyString => None
  | String d r => if bool_decide (d = c) then Some 0 else S <$> find_char c r
  end.

(** [c in s] *)
Definition has_char (c : ascii) (s : string) : bool :=
  existsb (λ d, bool_decide (d = c)) (String.list_ascii_of_string s).

(** [s[a:b]] for [0 <= a <= b]. *)
Definition slice (a b : nat) (s : string) : string := String.substring 0 (b - a) (drop_str a s).

(** [s.lower()] in the C locale. *)
Definition lower_char (c : ascii) : ascii :=
  if (65 <=? nat_of_ascii c) && (nat_of_ascii c <=? 90) then ascii_of_nat (nat_of_ascii c + 32) else c.

Definition lower (s : string) : string :=
  String.string_of_list_ascii (map lower_char (String.list_ascii_of_string s)).

(** ** The library functions *)

(** The length of the scheme matched by [^([^/:]+):], if any. *)
Fixpoint scheme_length (s : string) : option nat :=
  match s with
  | EmptyString => None
  | String c r =>
      if bool_decide (c = ":"%char) then Some 0
      else if bool_decide (c = slash) then None
      else S <$> scheme_length r
  end.

(** [urllib.splittype(url)] *)
Definition splittype (url : string) : option string * string :=
  match scheme_length url with
  | Some (S n) => (Some (lower (String.substring 0 (S n) url)), drop_str (S (S n)) url)
  | _ => (None, url)
  end.

Definition not_dot (c : ascii) : bool := negb (bool_decide (c = dot)).

(** [posixpath.splitext(p)]: [sep1] and [dot1] are [sepIndex + 1] and
    [dotIndex + 1]; the loop over the leading dots looks for a character
    other than a dot in [p[sepIndex+1:dotIndex]]. *)
Definition splitext (p : string) : string * string :=
  let sep1 := rfind1 slash p in
  let dot1 := rfind1 dot p in
  if bool_decide (sep1 < dot1) &&
     existsb not_dot (String.list_ascii_of_string (slice sep1 (dot1 - 1) p))
  then (String.substring 0 (dot1 - 1) p, drop_str (dot1 - 1) p)
  else (p, "").

(** [mimetypes.suffix_map] and [mimetypes.encodings_map] *)
Definition suffix_map : list (string * string) :=
  [(".tgz", ".tar.gz"); (".taz", ".tar.gz"); (".tz", ".tar.gz"); (".tbz2", ".tar.bz2");
   (".txz", ".tar.xz")].

Definition encodings_map : list (string * string) :=
  [(".gz", "gzip"); (".Z", "compress"); (".bz2", "bzip2"); (".xz", "xz")].

(** The branch of [guess_type] for a [data:] URL, given what follows the
    scheme. *)
Definition data_url_type (url : string) : option string * option string :=
  match find_char ","%char url with
  | None => (None, None)
  | Some comma =>
      let type := match find_char ";"%char (String.substring 0 comma url) with
                  | Some semi => String.substring 0 semi url
                  | None => String.substring 0 comma url
                  end in
      let type := if has_char "="%char type || negb (has_char slash type) then "text/plain"
                  else type in
      (Some type, None)
  end.

(** [while ext in suffix_map: base, ext = splitext(base + suffix_map[ext])] *)
Fixpoint suffix_loop (fuel : nat) (base ext : string) : option (string * string) :=
  match fuel with
  | O => None
  | S f =>
      match assoc suffix_map ext with
      | Some s => let '(b, e) := splitext (base +:+ s) in suffix_loop f b e
      | None => Some (base, ext)
      end
  end.

Definition suffix_fuel : nat := 2.

Section GuessType.
Variable types_map : list (string * string).

(** The branch of [guess_type] for a URL without the [data] scheme:
    [None] only when the loop runs out of fuel. *)
Definition guess_path (url : string) : option (option string * option string) :=
  let '(base, ext) := splitext url in
  '(base, ext) ← suffix_loop suffix_fuel base ext;
  let '(encoding, ext) := match assoc encodings_map ext with
                          | Some enc => (Some enc, snd (splitext base))
                          | None => (None, ext)
                          end in
  match assoc types_map ext with
  | Some t => Some (Some t, encoding)
  | None => Some (assoc types_map (lower ext), encoding)
  end.

(** [mimetypes.guess_type(url)]: the type and the encoding. *)
Definition mimetypes_guess_type (url : string) : option (option string * option string) :=
  let '(scheme, url) := splittype url in
  if bool_decide (scheme = Some "data") then Some (data_url_type url) else guess_path url.

(** The guesser of [upload]: [mimetypes.guess_type(target_path)[0]]. *)
Definition python_mimetypes : MimeTypes :=
  {| guess_type := λ p, mjoin (fst <$> mimetypes_guess_type p) |}.
End GuessType.

(** ** Lemmas *)

(** No character of [e] is a dot or a slash. *)
Definition ext_chars (e : string) : bool :=
  forallb (λ d, not_dot d && negb (is_slash d)) (String.list_ascii_of_string e).

(** After its last slash, [x] holds a character other than a dot. *)
Definition has_name (x : string) : bool :=
  existsb not_dot (String.list_ascii_of_string (drop_str (rfind1 slash x) x)).

Lemma rfind1_app (c : ascii) (s1 s2 : string) :
  rfind1 c (s1 +:+ s2) =
    match rfind1 c s2 with O => rfind1 c s1 | S n => String.length s1 + S n end.
Proof.
  induction s1 as [|d s1 IH]; [rewrite append_nil_l; by destruct (rfind1 c s2)|].
  rewrite append_cons. cbn [rfind1 String.length]. rewrite IH. destruct (rfind1 c s2); [done|]. rewrite Nat.add_succ_r. simpl. lia.
Qed.

Lemma rfind1_le (c : ascii) (s : string) : (rfind1 c s <= String.length s)%nat.
Proof. induction s as [|d s IH]; simpl; [lia|]. destruct (rfind1 c s) eqn:E; [case_bool_decide|]; lia. Qed.

Lemma rfind1_absent (c : ascii) (s : string) :
  Forall (λ d, d <> c) (String.list_ascii_of_string s) -> rfind1 c s = 0.
Proof.
  induction s as [|d s IH]; intros Hs; [done|]. inversion Hs; subst. simpl.
  rewrite IH by done. by case_decide.
Qed.

Lemma drop_str_app_le (n : nat) (x y : string) :
  (n <= String.length x)%nat -> drop_str n (x +:+ y) = drop_str n x +:+ y.
Proof.
  revert x; induction n as [|n IH]; intros [|c x] Hn; simpl in *; try done; [lia|].
  apply IH. lia.
Qed.

Lemma ext_chars_spec (e : string) :
  ext_chars e = true ->
  Forall (λ d, d <> dot) (String.list_ascii_of_string e) /\
  Forall (λ d, d <> slash) (String.list_ascii_of_string e).
Proof.
  unfold ext_chars. rewrite forallb_forall. intros H.
  split; apply Forall_forall; intros d Hd%list_elem_of_In; specialize (H d Hd);
    unfold not_dot, is_slash in H; repeat case_bool_decide; done.
Qed.

(** [splitext] cuts at a last dot whose name is not only dots. *)
Lemma splitext_ext (x e : string) :
  ext_chars e = true -> has_name x = true -> splitext (x +:+ String dot e) = (x, String dot e).
Proof.
  intros [Hd Hs]%ext_chars_spec Hn. unfold splitext.
  rewrite !rfind1_app. cbn [rfind1]. rewrite (rfind1_absent dot e Hd), (rfind1_absent slash e Hs).
  rewrite (bool_decide_eq_true_2 (dot = dot)), (bool_decide_eq_false_2 (dot = slash)) by done.
  pose proof (rfind1_le slash x) as Hle.
  replace (String.length x + 1 - 1)%nat with (String.length x) by lia.
  rewrite bool_decide_eq_true_2 by lia. unfold slice.
  rewrite drop_str_app_le by done.
  rewrite <- (drop_str_length (rfind1 slash x) x), substring_append_l.
  unfold has_name in Hn. rewrite Hn. simpl.
  by rewrite substring_append_l, drop_str_append.
Qed.

(** A name stays a name when characters other than slashes follow. *)
Lemma has_name_app (x s : string) :
  Forall (λ d, d <> slash) (String.list_ascii_of_string s) ->
  has_name x = true -> has_name (x +:+ s) = true.
Proof.
  intros Hs Hn. unfold has_name in *. rewrite rfind1_app, rfind1_absent by done.
  rewrite drop_str_app_le by apply rfind1_le.
  rewrite list_ascii_of_string_app, existsb_app, Hn. done.
Qed.

Lemma ext_chars_no_slash (e : string) :
  ext_chars e = true -> Forall (λ d, d <> slash) (String.list_ascii_of_string (String dot e)).
Proof. intros [_ Hs]%ext_chars_spec. by constructor. Qed.

(** What follows the last slash holds a name when [s] does. *)
Lemma has_name_suffix (x s : string) :
  Forall (λ d, d <> slash) (String.list_ascii_of_string s) ->
  existsb not_dot (String.list_ascii_of_string s) = true -> has_name (x +:+ s) = true.
Proof.
  intros Hs Hn. unfold has_name. rewrite rfind1_app, rfind1_absent by done.
  rewrite drop_str_app_le by apply rfind1_le.
  by rewrite list_ascii_of_string_app, existsb_app, Hn, orb_true_r.
Qed.

(** The substitutions of [suffix_map] end in [.tar] and an extension. *)
Lemma splitext_tar (base e s : string) :
  s = ".tar" +:+ String dot e -> ext_chars e = true ->
  splitext (base +:+ s) = (base +:+ ".tar", String dot e).
Proof.
  intros -> He. rewrite string_append_assoc. apply splitext_ext; [done|].
  apply has_name_suffix; [repeat constructor; discriminate|reflexivity].
Qed.

(** [suffix_fuel] rounds end the loop: after one substitution the
    extension is not in [suffix_map]. *)
Lemma suffix_loop_total (base ext : string) : is_Some (suffix_loop suffix_fuel base ext).
Proof.
  unfold suffix_fuel. cbn [suffix_loop].
  destruct (assoc suffix_map ext) as [s|] eqn:E; [|by eexists].
  apply assoc_elem in E. rewrite list_elem_of_In in E.
  repeat destruct E as [E|E]; simplify_eq; try done;
    first [ rewrite (splitext_tar base "gz" ".tar.gz") by reflexivity
          | rewrite (splitext_tar base "bz2" ".tar.bz2") by reflexivity
          | rewrite (splitext_tar base "xz" ".tar.xz") by reflexivity ]; by eexists.
Qed.

Lemma mimetypes_guess_type_total (types_map : list (string * string)) (url : string) :
  is_Some (mimetypes_guess_type types_map url).
Proof.
  unfold mimetypes_guess_type. destruct (splittype url) as [scheme u].
  case_bool_decide; [by eexists|]. unfold guess_path. destruct (splitext u) as [b e].
  destruct (suffix_loop_total b e) as [[b' e'] ->]. cbn [mbind option_bind].
  destruct (assoc encodings_map e'), (assoc types_map _); by eexists.
Qed.

(** A path that starts with a slash has no scheme. *)
Lemma splittype_abs (p : string) : String.get 0 p = Some slash -> splittype p = (None, p).
Proof. destruct p as [|c p]; [done|]. intros [= ->]. reflexivity. Qed.

Section Compressed.
Variables (types_map : list (string * string)) (x e t : string).
Hypothesis He : ext_chars e = true.
Hypothesis Hn : has_name (String slash x) = true.

(** The guess for an absolute path, after [splittype]. *)
Lemma guess_abs (u : string) :
  String.get 0 u = Some slash -> mimetypes_guess_type types_map u = guess_path types_map u.
Proof.
  intros Hu. unfold mimetypes_guess_type. rewrite splittype_abs by done.
  by rewrite (bool_decide_eq_false_2 (None = Some "data")).
Qed.

(** [name.e.gz]: the type of [.e], encoding [gzip]. *)
Lemma guess_type_gz :
  assoc types_map (String dot e) = Some t ->
  mimetypes_guess_type types_map ("/" +:+ x +:+ "." +:+ e +:+ ".gz") = Some (Some t, Some "gzip").
Proof using He Hn.
  intros Ht.
  replace ("/" +:+ x +:+ "." +:+ e +:+ ".gz")
    with ((String slash x +:+ String dot e) +:+ String dot "gz")
    by (rewrite <- string_append_assoc; reflexivity).
  rewrite guess_abs by reflexivity. unfold guess_path.
  rewrite splitext_ext; [|done|by apply has_name_app; [apply ext_chars_no_slash|]].
  cbn [suffix_fuel suffix_loop]. change (assoc suffix_map (String dot "gz")) with (@None string).
  cbn [mbind option_bind]. change (assoc encodings_map (String dot "gz")) with (Some "gzip").
  cbn iota beta. rewrite splitext_ext by done. cbn [snd]. by rewrite Ht.
Qed.

(** [name.tgz]: [suffix_map] turns it into [name.tar.gz]. *)
Lemma guess_type_tgz :
  assoc types_map ".tar" = Some t ->
  mimetypes_guess_type types_map ("/" +:+ x +:+ ".tgz") = Some (Some t, Some "gzip").
Proof using Hn.
  intros Ht.
  replace ("/" +:+ x +:+ ".tgz") with (String slash x +:+ String dot "tgz") by reflexivity.
  rewrite guess_abs by reflexivity. unfold guess_path. rewrite splitext_ext by done.
  cbn [suffix_fuel suffix_loop]. change (assoc suffix_map (String dot "tgz")) with (Some ".tar.gz").
  cbn iota beta. rewrite (splitext_tar (String slash x) "gz" ".tar.gz") by reflexivity.
  change (assoc suffix_map (String dot "gz")) with (@None string).
  cbn [mbind option_bind]. change (assoc encodings_map (String dot "gz")) with (Some "gzip").
  cbn iota beta.
  change ".tar" with (String dot "tar").
  rewrite (splitext_ext (String slash x) "tar") by done. cbn [snd]. by setoid_rewrite Ht.
Qed.
End Compressed.

Lemma content_type_some (m : string) : m <> "" -> content_type (Some m) = m.
Proof. intros Hm. unfold content_type. by destruct (String.eqb_spec m ""). Qed.

(** ** Properties *)

Section Properties.
Context `{Transport}.

(** C32: a compressed file is uploaded under the type of what it
    compresses.  [mimetypes.guess_type] always returns (two rounds of the
    [suffix_map] loop suffice).  For [/name.e.gz], with [.e] a type [t]
    of the table, it returns [(t, 'gzip')]; for [/name.tgz] it returns
    the type of [.tar] and [gzip].  [upload] keeps only the first
    component: on a resolved client whose server accepts the request, it
    sends the gzip-compressed bytes of [fp] unchanged with
    [Content-Type: t] (say [text/plain]), and none of its headers is a
    [Content-Encoding]: nothing tells the backend the content is
    compressed. *)
Theorem upload_compressed_content_type (types_map : list (string * string)) (x e t : string)
    (fp : fileobj) (o : bool) (s : cstate) (r : response) (data : pyval) :
  ext_chars e = true -> has_name (String slash x) = true ->
  assoc types_map (String dot e) = Some t -> t <> "" ->
  truthy (_useridx (self s)) = true -> (forall l rq, respond l rq = Reply r) ->
  resp_json r = Ok data -> check_error data = Ok tt ->
  (forall url, is_Some (mimetypes_guess_type types_map url)) /\
  mimetypes_guess_type types_map ("/" +:+ x +:+ "." +:+ e +:+ ".gz") = Some (Some t, Some "gzip") /\
  (forall t', assoc types_map ".tar" = Some t' ->
     mimetypes_guess_type types_map ("/" +:+ x +:+ ".tgz") = Some (Some t', Some "gzip")) /\
  exists rq,
    @upload _ (python_mimetypes types_map) ("/" +:+ x +:+ "." +:+ e +:+ ".gz") fp o s =
      (Ok true, sent s rq) /\
    rq_body rq = fo_content fp /\ ("Content-Type", VStr t) ∈ rq_headers rq /\
    Forall (λ h, h.1 <> "Content-Encoding") (rq_headers rq).
Proof.
  intros He Hn Ht Hne Hu Hsrv Hj Hc. split_and!.
  - apply mimetypes_guess_type_total.
  - by apply guess_type_gz.
  - intros t' Ht'. by apply (guess_type_tgz types_map x t').
  - eexists. split; [apply (upload_run _ fp o s r data); auto|].
    cbn [upload_request rq_body rq_headers guess_type python_mimetypes].
    rewrite (guess_type_gz types_map x e t) by done. cbn [fmap option_fmap option_map fst mjoin option_join].
    rewrite content_type_some by done. split_and!; [done|header_tac|].
    repeat constructor; cbn [fst]; discriminate.
Qed.
End Properties.

(** ** Witnesses *)

(** A table with the types of [.txt] and [.tar]. *)
Definition small_types_map : list (string * string) :=
  [(".txt", "text/plain"); (".tar", "application/x-tar")].

Lemma upload_compressed_content_type_witness :
  (forall url, is_Some (mimetypes_guess_type small_types_map url)) /\
  mimetypes_guess_type small_types_map ("/" +:+ "notes" +:+ "." +:+ "txt" +:+ ".gz") =
    Some (Some "text/plain", Some "gzip") /\
  (forall t', assoc small_types_map ".tar" = Some t' ->
     mimetypes_guess_type small_types_map ("/" +:+ "notes" +:+ ".tgz") = Some (Some t', Some "gzip")) /\
  exists rq,
    @upload accepting_server (python_mimetypes small_types_map)
      ("/" +:+ "notes" +:+ "." +:+ "txt" +:+ ".gz") (mkFileobj "gz-bytes" 1500000000) false
      (resolved_client ∅) = (Ok true, sent (resolved_client ∅) rq) /\
    rq_body rq = "gz-bytes" /\ ("Content-Type", VStr "text/plain") ∈ rq_headers rq /\
    Forall (λ h, h.1 <> "Content-Encoding") (rq_headers rq).
Proof.
  apply (@upload_compressed_content_type accepting_server small_types_map "notes" "txt" "text/plain"
           (mkFileobj "gz-bytes" 1500000000) false (resolved_client ∅)
           (mkResponse "{}" (Some (VDict [("resultcode", VInt 0)])))
           (VDict [("resultcode", VInt 0)])); try reflexivity. discriminate.
Defined.
