(* ===== verification/Download.v ===== *)
(** * [Ndrive.download] and the local file system

    [download(remote_path, local_path)] (pyncloud.py, lines 221-237)
    creates the missing parents of [local_path] with [os.makedirs] and
    then writes the whole response body to [local_path].  For a
    destination [/c1/.../cn/f] built from components, with no file on the
    way to [/c1/.../cn], it succeeds: the parent is a directory afterwards
    and the destination holds exactly the body, whatever it held before
    (the spec's scenario [download("/remote/f.txt", "/tmp/newdir/f.txt")]). *)

From S2P Require Import Prelude Python PyStr FileSystem Makedirs Http Client.
From stdpp Require Import gmap.

(** ** The directory step of [download] *)


Section DownloadRun.
Context `{Transport} `{MimeTypes}.


End DownloadRun.

Section DownloadProps.
Context `{Transport} `{MimeTypes}.

End DownloadProps.

(** ** Witnesses *)

