(* ===== verification/Concurrency.v ===== *)
(** * Concurrent use of one [Ndrive]

    The spec notes that [Ndrive] is not safe for concurrent use: the
    resolution [if not self._useridx: self.check_status()] is an
    unsynchronised check-then-act, so concurrent first calls may each send
    the status request.  Here several threads run calls on one shared
    client state; a thread's call is cut at the points where another
    thread can observe or change [self._useridx]:
    - [PCheck]: the test [not self._useridx];
    - [PResolve]: [self.check_status()], which assigns [self._useridx];
    - [PBody]: the rest of the method ([call_body], the [*_body]
      definitions of Client.v), inside the method's exception handler
      ([call_handler], the [except] clause of [exists]);
    - [PEnd r]: the call has returned or raised.
    Each part runs atomically: the bodies neither read nor write the
    fields of [self] after their first statement, so a finer interleaving
    of their statements changes nothing the theorems observe.

    [step] is the interleaving semantics: any thread that has not ended
    takes its next part.  A lemma checks that one thread alone runs
    exactly [run_call].  The theorems show that, by induction on the
    steps, no run from a resolved client sends a status request and a run
    from an unresolved one sends at most one per thread; that two threads
    can indeed both send it; and that the race is benign when the server
    resolves every user to the same index. *)

From S2P Require Import Prelude Python PyStr FileSystem Http Client Requests.
From stdpp Require Import relations.

Inductive pc : Type :=
| PCheck
| PResolve
| PBody
| PEnd (r : result unit).

Record config := mkConfig {
  cfg_state : cstate;
  cfg_threads : list (call * pc)
}.

Section Threads.
Context `{Transport} `{MimeTypes}.

(** The statements of a call after the resolution of [_useridx]. *)
Definition call_body (c : call) : CM unit :=
  match c with
  | ListDirs p => _list_body p Types_DIR;; mret tt
  | ListFiles p => _list_body p Types_FILE;; mret tt
  | MakeDir p => make_dir_body p;; mret tt
  | GetDiskSpace => get_disk_space_body;; mret tt
  | CheckUpload p fp o => check_upload_body p fp o;; mret tt
  | GetFileinfo p => get_fileinfo_body p;; mret tt
  | Client.Exists p => get_fileinfo_body p;; mret tt
  | Upload p fp o => upload_body p fp o;; mret tt
  | Download r l => download_body r l;; mret tt
  | Move f t => move_body f t;; mret tt
  end.

(** The [except] clause around a call: [exists] turns the "does not
    exist" error into a return; the other calls let exceptions through. *)
Definition call_handler (c : call) (e : exc) : CM unit :=
  match c with
  | Client.Exists _ =>
      match e with
      | NdriveError code _ => if py_ne_int code Codes_NotExistPath then throw e else mret tt
      | _ => throw e
      end
  | _ => throw e
  end.

(** Run [m] to its end. *)
Definition settle (m : CM unit) : CM pc := λ s, let '(r, s') := m s in (Ok (PEnd r), s').

(** The next part of a thread running [c], if it has not ended. *)
Definition thread_step (c : call) (p : pc) : option (CM pc) :=
  match p with
  | PCheck => Some (me ← gets self; mret (if truthy (_useridx me) then PBody else PResolve))
  | PResolve => Some (λ s, match check_status s with
                           | (Ok _, s') => (Ok PBody, s')
                           | (Err e, s') => settle (call_handler c e) s'
                           end)
  | PBody => Some (settle (catch (call_body c) (call_handler c)))
  | PEnd _ => None
  end.

(** One thread takes its next part. *)
Inductive step : config -> config -> Prop :=
| step_thread (cfg : config) (i : nat) (c : call) (p p' : pc) (m : CM pc) (s' : cstate) :
    cfg_threads cfg !! i = Some (c, p) ->
    thread_step c p = Some m ->
    m (cfg_state cfg) = (Ok p', s') ->
    step cfg (mkConfig s' (<[i := (c, p')]> (cfg_threads cfg))).

(** Threads starting their calls on the state [s]. *)
Definition initial (s : cstate) (calls : list call) : config :=
  mkConfig s (map (λ c, (c, PCheck)) calls).

End Threads.

(** ** A call, cut into its parts *)

Section Split.
Context `{Transport} `{MimeTypes}.

Lemma catch_throw {A} (m : CM A) (s : cstate) : catch m (λ e, throw e) s = m s.
Proof. unfold catch, throw. by destruct (m s) as [[]]. Qed.



(** Every call is [try: resolve; body except: handler]. *)
Lemma run_call_split (c : call) (s : cstate) :
  run_call c s = catch (resolve_useridx;; call_body c) (call_handler c) s.
Proof.
  unfold call_handler. destruct c; cbn [run_call call_body];
    try (rewrite catch_throw;
         unfold list_dirs, list_files, _list, make_dir, get_disk_space, check_upload,
           get_fileinfo, upload, download, move;
         apply pym_bind_assoc_run).
  unfold exists_, get_fileinfo, catch. rewrite !pym_bind_run.
  destruct (resolve_useridx s) as [[[]|e] s1]; [rewrite !pym_bind_run|].
  - destruct (get_fileinfo_body target_path s1) as [[v|e] s2]; [done|].
    unfold mret, pym_ret. destruct e; try done. by destruct (py_ne_int _ _).
  - unfold mret, pym_ret. destruct e; try done. by destruct (py_ne_int _ _).
Qed.

Lemma catch_resolve_truthy (b : CM unit) (h : exc -> CM unit) (s : cstate) :
  truthy (_useridx (self s)) = true -> catch (resolve_useridx;; b) h s = catch b h s.
Proof. intros Ht. unfold catch. by rewrite resolve_then_truthy. Qed.

Lemma catch_resolve_falsy (b : CM unit) (h : exc -> CM unit) (s : cstate) :
  truthy (_useridx (self s)) = false ->
  catch (resolve_useridx;; b) h s =
    match check_status s with
    | (Ok _, s1) => catch b h s1
    | (Err e, s1) => h e s1
    end.
Proof.
  intros Hf. unfold catch. rewrite pym_bind_run. unfold resolve_useridx.
  rewrite pym_bind_run. cbn [gets]. rewrite Hf, pym_bind_run.
  by destruct (check_status s) as [[v|e] s1].
Qed.
End Split.

(** Take the next part of thread [i]; the part's run is left as a goal. *)
Ltac take_step i :=
  eapply rtc_l; [eapply (step_thread _ i); [reflexivity|reflexivity|]; cbn [cfg_state initial]|];
  cbn [cfg_state cfg_threads].

Section Refinement.
Context `{Transport} `{MimeTypes}.

Lemma check_part (s : cstate) :
  (me ← gets self; mret (if truthy (_useridx me) then PBody else PResolve)) s =
    (Ok (if truthy (_useridx (self s)) then PBody else PResolve), s).
Proof. reflexivity. Qed.

Lemma settle_run (m : CM unit) (s : cstate) :
  settle m s = (Ok (PEnd (fst (m s))), snd (m s)).
Proof. unfold settle. by destruct (m s). Qed.

(** The interleaving semantics agrees with the sequential one: a
    thread running alone takes its parts in order (check, resolution if
    [_useridx] is falsy, body) and ends with the result and the state of
    [run_call], exceptions included. *)
Theorem single_thread_refines (c : call) (s : cstate) :
  rtc step (initial s [c]) (mkConfig (snd (run_call c s)) [(c, PEnd (fst (run_call c s)))]).
Proof.
  rewrite run_call_split. destruct (truthy (_useridx (self s))) eqn:Ht.
  - rewrite catch_resolve_truthy by done.
    take_step 0; [by rewrite check_part, Ht|]. take_step 0; [apply settle_run|]. apply rtc_refl.
  - rewrite catch_resolve_falsy by done. take_step 0; [by rewrite check_part, Ht|].
    destruct (check_status s) as [[v|e] s1] eqn:Hc.
    + take_step 0; [by rewrite Hc|]. take_step 0; [apply settle_run|]. apply rtc_refl.
    + take_step 0; [by rewrite Hc, settle_run|]. apply rtc_refl.
Qed.
End Refinement.

(** ** Counting status requests *)

(** The user id of a status request. *)
Definition status_userid (rq : request) : option string :=
  match rq with
  | mkRequest GET url [(k1, VStr u); (k2, VStr sv); (k3, VInt a)] [] b [] true =>
      if String.eqb url status_url && String.eqb k1 "userid" && String.eqb k2 "svctype" &&
         String.eqb sv "Android NDrive App ver" && String.eqb k3 "auto" && Z.eqb a 0 &&
         String.eqb b ""
      then Some u else None
  | _ => None
  end.

(** The number of status requests in a log. *)
Definition count_status (l : list request) : nat := length (omap status_userid l).

Lemma status_userid_spec (rq : request) (u : string) :
  status_userid rq = Some u <-> rq = status_request u.
Proof.
  split; [|intros ->; reflexivity].
  destruct rq as [m url params data b hdrs sess]. cbn [status_userid].
  repeat (case_match; try discriminate); intros [= <-];
  repeat match goal with
         | H : _ && _ = true |- _ => apply andb_true_iff in H as [? ?]
         | H : String.eqb _ _ = true |- _ => apply String.eqb_eq in H
         | H : Z.eqb _ _ = true |- _ => apply Z.eqb_eq in H
         end;
  by subst.
Qed.

Lemma count_status_app (l1 l2 : list request) :
  count_status (l1 ++ l2) = count_status l1 + count_status l2.
Proof. unfold count_status. by rewrite omap_app, length_app. Qed.

Lemma count_status_none (l : list request) : Forall not_status l -> count_status l = 0.
Proof.
  induction 1 as [|rq l Hrq _ IH]; [done|]. unfold count_status in *. simpl.
  destruct (status_userid rq) as [u|] eqn:E; [|done].
  exfalso. apply Hrq. exists u. by apply status_userid_spec.
Qed.

Lemma count_status_one (u : string) : count_status [status_request u] = 1.
Proof. reflexivity. Qed.

(** Threads that may still send the status request. *)
Definition pending (p : pc) : nat := match p with PCheck | PResolve => 1 | _ => 0 end.

(** The sum of [f] over the threads. *)
Definition weight (f : pc -> nat) (ts : list (call * pc)) : nat := sum_list (map (λ t, f t.2) ts).

Definition pending_threads : list (call * pc) -> nat := weight pending.

Lemma weight_insert (f : pc -> nat) (ts : list (call * pc)) (i : nat) (t t' : call * pc) :
  ts !! i = Some t -> weight f (<[i := t']> ts) + f t.2 = weight f ts + f t'.2.
Proof.
  unfold weight. revert i; induction ts as [|t0 ts IH]; intros [|i] Hi; simplify_eq/=.
  - lia.
  - specialize (IH i Hi). lia.
Qed.

(** ** What each part sends *)

Section Parts.
Context `{Transport} `{MimeTypes}.

Lemma appends_catch {A} (P : request -> Prop) (m : CM A) (h : exc -> CM A) :
  appends P m -> (forall e, appends P (h e)) -> appends P (catch m h).
Proof.
  intros Hm Hh s. unfold catch. destruct (Hm s) as (l1 & Hl1 & HP1).
  destruct (m s) as [[a|e] s1]; simpl in *; [by exists l1|].
  destruct (Hh e s1) as (l2 & Hl2 & HP2). exists (l1 ++ l2).
  rewrite Hl2, Hl1, app_assoc. split; [done|]. by apply Forall_app.
Qed.

Lemma handler_appends (c : call) (e : exc) : appends not_status (call_handler c e).
Proof.
  destruct c; cbn [call_handler]; try apply appends_throw.
  destruct e; try apply appends_throw. case_match; [apply appends_throw|apply appends_ret].
Qed.

Lemma body_appends (c : call) : appends not_status (call_body c).
Proof. destruct c; cbn [call_body]; appends_tac. Qed.

Lemma part_appends (c : call) : appends not_status (catch (call_body c) (call_handler c)).
Proof. apply appends_catch; [apply body_appends|apply handler_appends]. Qed.

(** A part sends at most one status request, and only the resolution
    does, after which the thread is no longer pending. *)
Lemma part_log (c : call) (p p' : pc) (m : CM pc) (s s' : cstate) :
  thread_step c p = Some m -> m s = (Ok p', s') ->
  exists l, w_log (world_of s') = w_log (world_of s) ++ l /\
            count_status l + pending p' <= pending p.
Proof.
  destruct p; cbn [thread_step]; intros [= <-] Hm.
  - rewrite check_part in Hm. injection Hm as <- <-. exists []. rewrite app_nil_r.
    split; [done|]. destruct (truthy (_useridx (self s))); simpl; lia.
  - pose proof (check_status_log s) as Hlog.
    destruct (check_status s) as [[v|e] s1] eqn:Hc; simpl in Hlog.
    + injection Hm as <- <-. exists [status_request (_userid (self s))].
      rewrite count_status_one. split; [done|]. simpl. lia.
    + rewrite settle_run in Hm. injection Hm as <- <-.
      destruct (handler_appends c e s1) as (l & Hl & HP).
      exists (status_request (_userid (self s)) :: l). rewrite Hl, Hlog, <- app_assoc.
      split; [done|].
      replace (status_request (_userid (self s)) :: l) with ([status_request (_userid (self s))] ++ l)
        by done.
      rewrite count_status_app, count_status_one, count_status_none by done.
      simpl. lia.
  - rewrite settle_run in Hm. injection Hm as <- <-.
    destruct (part_appends c s) as (l & Hl & HP). exists l. split; [done|].
    rewrite count_status_none by done. simpl. lia.
Qed.

Lemma step_log (cfg cfg' : config) :
  step cfg cfg' ->
  exists l, w_log (world_of (cfg_state cfg')) = w_log (world_of (cfg_state cfg)) ++ l /\
            count_status l + pending_threads (cfg_threads cfg') <= pending_threads (cfg_threads cfg).
Proof.
  intros [cfg0 i c p p' m s' Hi Hm Hrun]. cbn [cfg_state cfg_threads].
  destruct (part_log c p p' m _ s' Hm Hrun) as (l & Hl & Hc). exists l. split; [done|].
  pose proof (weight_insert pending _ i _ (c, p') Hi). unfold pending_threads. simpl in *. lia.
Qed.

Lemma pending_threads_initial (calls : list call) :
  pending_threads (map (λ c, (c, PCheck)) calls) = length calls.
Proof. induction calls; simpl; [done|]. unfold pending_threads, weight in *. simpl. lia. Qed.

Lemma steps_log (calls : list call) (s : cstate) (cfg : config) :
  rtc step (initial s calls) cfg ->
  exists l, w_log (world_of (cfg_state cfg)) = w_log (world_of s) ++ l /\
            count_status l + pending_threads (cfg_threads cfg) <= length calls.
Proof.
  revert cfg. apply rtc_ind_r.
  - exists []. rewrite app_nil_r. cbn [initial cfg_state cfg_threads]. rewrite pending_threads_initial.
    split; [done|]. change (count_status []) with 0. lia.
  - intros cfg1 cfg2 _ Hstep IH. destruct IH as (l1 & Hl1 & Hc1). destruct (step_log _ _ Hstep) as (l2 & Hl2 & Hc2).
    exists (l1 ++ l2). rewrite Hl2, Hl1, <- app_assoc, count_status_app. split; [done|lia].
Qed.
End Parts.

(** ** The resolution part *)

Section ResolvePart.
Context `{Transport} `{MimeTypes}.

Lemma handler_state (c : call) (e : exc) (s : cstate) : snd (call_handler c e s) = s.
Proof. destruct c; try done. cbn [call_handler]. destruct e; try done. by case_match. Qed.

(** The resolution sends the status request of [self._userid] and keeps
    [self._userid]. *)
Lemma resolve_part_log (c : call) (s : cstate) :
  exists p' s',
    (λ s, match check_status s with
          | (Ok _, s1) => (Ok PBody, s1)
          | (Err e, s1) => settle (call_handler c e) s1
          end) s = (Ok p', s') /\
    w_log (world_of s') = w_log (world_of s) ++ [status_request (_userid (self s))] /\
    _userid (self s') = _userid (self s).
Proof.
  pose proof (check_status_log s) as Hl. pose proof (check_status_userid s) as Hu.
  cbv beta. destruct (check_status s) as [[v|e] s1]; simpl in Hl, Hu.
  - by eexists _, s1.
  - rewrite settle_run, handler_state. by eexists _, s1.
Qed.
End ResolvePart.

(** ** The race under an idempotent resolution *)

(** The server resolves every status request to the index [v]: whenever
    [check_status] would store an index, it stores [v]. *)
Definition resolves_to `{Transport} (v : pyval) : Prop :=
  forall l u r data rv i,
    respond l (status_request u) = Reply r -> resp_json r = Ok data ->
    getitem data "resultvalue" = Ok rv -> getitem rv "useridx" = Ok i -> i = v.

(** A request of a body, or a status request. *)
Definition uses_index (v : pyval) (rq : request) : Prop :=
  is_status rq \/ carries "useridx" v rq.

Section Benign.
Context `{Transport} `{MimeTypes}.
Variables (v u0 : pyval).
Hypothesis Hres : resolves_to v.
Hypothesis Hu0 : truthy u0 = false \/ u0 = v.

(** The state of a run: [self._useridx] is the initial [u0] or [v], it
    is [v] while a thread is in its body, and the requests sent since the
    start are status requests or carry [useridx] [v]. *)
Definition benign (log0 : list request) (cfg : config) : Prop :=
  (_useridx (self (cfg_state cfg)) = u0 \/ _useridx (self (cfg_state cfg)) = v) /\
  (forall i c, cfg_threads cfg !! i = Some (c, PBody) -> _useridx (self (cfg_state cfg)) = v) /\
  exists l, w_log (world_of (cfg_state cfg)) = log0 ++ l /\ Forall (uses_index v) l.

Lemma check_status_index (s : cstate) :
  (_useridx (self (snd (check_status s))) = _useridx (self s) \/
   _useridx (self (snd (check_status s))) = v) /\
  (forall x s', check_status s = (Ok x, s') -> _useridx (self s') = v).
Proof using Hres.
  unfold check_status, call_json. unfold_pym. unfold net, send.
  destruct (respond _ _) as [|r] eqn:R; simpl; [by split; [left|]|].
  destruct (resp_json r) as [data|] eqn:J; simpl; [|by split; [left|]].
  destruct (check_error data); simpl; [|by split; [left|]].
  destruct (getitem data "resultvalue") as [rv|] eqn:G1; simpl; [|by split; [left|]].
  destruct (getitem rv "useridx") as [i|] eqn:G2; simpl; [|by split; [left|]].
  pose proof (Hres _ _ _ _ _ _ R J G1 G2) as ->. by split; [right|intros ?? [= _ <-]].
Qed.

Lemma body_keeps_self (c : call) : keeps_self (call_body c).
Proof. destruct c; cbn [call_body]; keeps_tac. Qed.

Lemma part_keeps_self (c : call) (s : cstate) :
  self (snd (catch (call_body c) (call_handler c) s)) = self s.
Proof.
  unfold catch. pose proof (body_keeps_self c s) as Hb.
  destruct (call_body c s) as [[a|e] s1]; [done|]. by rewrite handler_state.
Qed.

Lemma part_sends (c : call) : sends_ndrive (catch (call_body c) (call_handler c)).
Proof.
  apply catch_sends; [|apply handler_state].
  destruct c; cbn [call_body]; apply bind_ret_sends; body_sends_tac.
Qed.

Lemma truthy_index (s : cstate) :
  (_useridx (self s) = u0 \/ _useridx (self s) = v) ->
  truthy (_useridx (self s)) = true -> _useridx (self s) = v.
Proof using Hu0.
  intros [Hx|Hx] Ht; [|done]. rewrite Hx in Ht |- *.
  destruct Hu0 as [Hf|Hf]; [congruence|done].
Qed.

(** Which thread is in its body after thread [i] has moved to [p']. *)
Lemma body_threads (ts : list (call * pc)) (i j : nat) (c c' : call) (p p' : pc) :
  ts !! i = Some (c, p) -> <[i := (c, p')]> ts !! j = Some (c', PBody) ->
  (i = j /\ p' = PBody) \/ ts !! j = Some (c', PBody).
Proof.
  intros Hi Hj. apply list_lookup_insert_Some in Hj as [(<- & [= _ <-] & _)|(_ & Hj)]; [by left|by right].
Qed.

Lemma step_benign (log0 : list request) (cfg cfg' : config) :
  benign log0 cfg -> step cfg cfg' -> benign log0 cfg'.
Proof using Hres Hu0.
  intros Hb Hs. revert Hb. destruct Hs as [cfg0 i c p p' m s' Hi Hm Hrun].
  intros (Hidx & Hbody & l & Hl & Hf). cbn [cfg_state cfg_threads] in *.
  remember (cfg_state cfg0) as s eqn:Es.
  destruct p; cbn [thread_step] in Hm; [injection Hm as <-..|discriminate].
  - rewrite check_part in Hrun. injection Hrun as <- <-. unfold benign; cbn [cfg_state cfg_threads].
    split_and!; [done| |by exists l].
    intros j c' Hj. destruct (body_threads _ _ _ _ _ _ _ Hi Hj) as [[_ Hp]|Hj']; [|by eapply Hbody].
    destruct (truthy (_useridx (self s))) eqn:Ht; [by apply truthy_index|discriminate].
  - pose proof (check_status_log s) as Hlog. pose proof (check_status_index s) as [Hix Hok].
    destruct (check_status s) as [[x|e] s1] eqn:Hc; simpl in Hlog, Hix.
    + injection Hrun as <- <-. unfold benign; cbn [cfg_state cfg_threads]. pose proof (Hok _ _ eq_refl) as Hv.
      split_and!; [by right|by intros|].
      exists (l ++ [status_request (_userid (self s))]). rewrite Hlog, Hl, <- app_assoc.
      split; [done|]. apply Forall_app. split; [done|]. constructor; [|done]. left. by eexists.
    + rewrite settle_run, handler_state in Hrun. injection Hrun as <- <-. unfold benign; cbn [cfg_state cfg_threads].
      split_and!.
      * destruct Hix as [-> | ->]; [done|by right].
      * intros j c' Hj. destruct (body_threads _ _ _ _ _ _ _ Hi Hj) as [[_ ?]|Hj']; [done|].
        pose proof (Hbody _ _ Hj') as Hv. destruct Hix as [-> | ->]; done.
      * exists (l ++ [status_request (_userid (self s))]). rewrite Hlog, Hl, <- app_assoc.
        split; [done|]. apply Forall_app. split; [done|]. constructor; [|done]. left. by eexists.
  - rewrite settle_run in Hrun. injection Hrun as <- <-. unfold benign; cbn [cfg_state cfg_threads].
    pose proof (part_keeps_self c s) as Hself. pose proof (Hbody _ _ Hi) as Hv.
    destruct (part_sends c s) as (_ & l2 & Hl2 & Hf2). rewrite Hself in Hf2.
    split_and!.
    + by rewrite Hself.
    + intros j c' Hj. by rewrite Hself.
    + exists (l ++ l2). rewrite Hl2, Hl, <- app_assoc. split; [done|].
      apply Forall_app. split; [done|]. eapply Forall_impl; [exact Hf2|].
      intros rq (_ & _ & _ & Hx). by rewrite Hv in Hx.
Qed.

Lemma benign_initial (calls : list call) (s : cstate) :
  _useridx (self s) = u0 -> benign (w_log (world_of s)) (initial s calls).
Proof.
  intros Hs. split_and!; [by left| |].
  - intros j c Hj. cbn [initial cfg_threads] in Hj.
    apply list_lookup_fmap_Some in Hj as (? & [=] & _).
  - exists []. by rewrite app_nil_r.
Qed.
End Benign.

(** ** A resolved client sends no status request *)

Section Resolved.
Context `{Transport} `{MimeTypes}.

(** [self._useridx] is [u], no thread is about to resolve, and the
    requests sent since [log0] hold no status request. *)
Definition quiet (u : pyval) (log0 : list request) (cfg : config) : Prop :=
  _useridx (self (cfg_state cfg)) = u /\
  Forall (λ t, t.2 <> PResolve) (cfg_threads cfg) /\
  exists l, w_log (world_of (cfg_state cfg)) = log0 ++ l /\ count_status l = 0.

Lemma step_quiet (u : pyval) (log0 : list request) (cfg cfg' : config) :
  truthy u = true -> quiet u log0 cfg -> step cfg cfg' -> quiet u log0 cfg'.
Proof.
  intros Hu Hq Hstep. revert Hq. destruct Hstep as [cfg0 i c p p' m s' Hi Hm Hrun].
  intros (Hx & Hts & l & Hl & Hc). unfold quiet. cbn [cfg_state cfg_threads] in *.
  pose proof (Forall_lookup_1 _ _ _ _ Hts Hi) as Hp. cbn in Hp.
  destruct p; cbn [thread_step] in Hm; [| done | | done]; injection Hm as <-.
  - rewrite check_part, Hx, Hu in Hrun. injection Hrun as <- <-.
    split_and!; [done|by apply Forall_insert|by exists l].
  - rewrite settle_run in Hrun. injection Hrun as <- <-.
    destruct (part_appends c (cfg_state cfg0)) as (l2 & Hl2 & HP).
    split_and!; [by rewrite part_keeps_self|by apply Forall_insert|].
    exists (l ++ l2). rewrite Hl2, Hl, <- app_assoc, count_status_app, Hc, count_status_none by done.
    done.
Qed.

Lemma steps_quiet (calls : list call) (s : cstate) (cfg : config) :
  truthy (_useridx (self s)) = true -> rtc step (initial s calls) cfg ->
  quiet (_useridx (self s)) (w_log (world_of s)) cfg.
Proof.
  intros Hu. revert cfg. apply rtc_ind_r.
  - split_and!; [done| |exists []; by rewrite app_nil_r].
    apply Forall_forall. intros t (c & <- & _)%list_elem_of_In%in_map_iff. done.
  - intros cfg1 cfg2 _ Hstep Hq. by apply (step_quiet _ _ cfg1).
Qed.
End Resolved.

(** ** Properties *)

Section Properties.
Context `{Transport} `{MimeTypes}.

(** C13: the cache bounds the status requests, however the threads
    interleave.  From a client whose [_useridx] is already resolved, no
    interleaving of any calls sends a status request; from an unresolved
    one, the requests sent so far hold at most one status request per
    thread. *)
Theorem status_requests_bounded (calls : list call) (s : cstate) (cfg : config) :
  rtc step (initial s calls) cfg ->
  exists l, w_log (world_of (cfg_state cfg)) = w_log (world_of s) ++ l /\
            count_status l <= (if truthy (_useridx (self s)) then 0 else length calls).
Proof.
  intros Hr. destruct (truthy (_useridx (self s))) eqn:Ht.
  - destruct (steps_quiet calls s cfg Ht Hr) as (_ & _ & l & Hl & Hc). exists l. split; [done|lia].
  - destruct (steps_log calls s cfg Hr) as (l & Hl & Hc). exists l. split; [done|lia].
Qed.

(** C14: the resolution is not synchronised.  From a client whose
    [_useridx] is falsy, two threads can both pass the test
    [not self._useridx] before either resolves, and then both send the
    status request, whatever the server answers: the bound of C13 is
    reached, where one thread alone sends one. *)
Theorem concurrent_first_calls_race (c1 c2 : call) (s : cstate) :
  truthy (_useridx (self s)) = false ->
  exists cfg, rtc step (initial s [c1; c2]) cfg /\
    w_log (world_of (cfg_state cfg)) =
      w_log (world_of s) ++ [status_request (_userid (self s)); status_request (_userid (self s))].
Proof.
  intros Ht. destruct (resolve_part_log c1 s) as (p1 & s1 & Hr1 & Hl1 & Hu1).
  destruct (resolve_part_log c2 s1) as (p2 & s2 & Hr2 & Hl2 & Hu2).
  eexists. split.
  - take_step 0; [by rewrite check_part, Ht|]. take_step 1; [by rewrite check_part, Ht|].
    take_step 0; [exact Hr1|]. take_step 1; [exact Hr2|]. apply rtc_refl.
  - cbn [cfg_state]. by rewrite Hl2, Hl1, Hu1, <- app_assoc.
Qed.

(** C15: the race is benign when the resolution is idempotent, as the
    spec says.  If the server resolves every status request to the same
    truthy index [v] and the client starts with a falsy [_useridx] or
    with [v], then in every interleaving of calls every request sent is
    a status request or carries [useridx] [v]: whichever thread's
    resolution wins, every body reads the same index. *)
Theorem race_benign_if_idempotent (v : pyval) (calls : list call) (s : cstate) (cfg : config) :
  truthy v = true -> resolves_to v ->
  (truthy (_useridx (self s)) = false \/ _useridx (self s) = v) ->
  rtc step (initial s calls) cfg ->
  exists l, w_log (world_of (cfg_state cfg)) = w_log (world_of s) ++ l /\
            Forall (uses_index v) l.
Proof.
  intros _ Hres Hu0 Hr.
  assert (benign v (_useridx (self s)) (w_log (world_of s)) cfg) as (_ & _ & Hl); [|done].
  revert cfg Hr. apply rtc_ind_r; [by apply benign_initial|].
  intros cfg1 cfg2 _ Hs Hb. by eapply step_benign.
Qed.

End Properties.

(** ** Witnesses *)

(** Two first calls that both resolve, then both run their bodies. *)
Lemma race_then_bodies :
  exists cfg, rtc (@step (drive_server 7) no_mime)
                (initial (fresh_client ∅) [GetDiskSpace; ListDirs "/"]) cfg /\
    w_log (world_of (cfg_state cfg)) =
      [status_request "user"; status_request "user";
       disk_space_request "user" (VInt 7); list_request "user" (VInt 7) "/" Types_DIR].
Proof.
  eexists. split.
  - take_step 0; [reflexivity|]. take_step 1; [reflexivity|].
    take_step 0; [reflexivity|]. take_step 1; [reflexivity|].
    take_step 0; [reflexivity|]. take_step 1; [reflexivity|]. apply rtc_refl.
  - reflexivity.
Qed.

Lemma status_requests_bounded_witness :
  exists cfg, rtc (@step (drive_server 7) no_mime)
                (initial (fresh_client ∅) [GetDiskSpace; ListDirs "/"]) cfg /\
    exists l, w_log (world_of (cfg_state cfg)) = w_log (world_of (fresh_client ∅)) ++ l /\
              count_status l = 2 /\
              count_status l <= (if truthy (_useridx (self (fresh_client ∅))) then 0
                                 else length [GetDiskSpace; ListDirs "/"]).
Proof.
  destruct race_then_bodies as (cfg & Hr & Hl). exists cfg. split; [done|].
  destruct (@status_requests_bounded (drive_server 7) no_mime [GetDiskSpace; ListDirs "/"]
              (fresh_client ∅) cfg Hr) as (l & Hl' & Hc).
  exists l. split_and!; [done| |done]. rewrite Hl in Hl'. simpl in Hl'. subst l. reflexivity.
Defined.

Lemma concurrent_first_calls_race_witness :
  exists cfg, rtc (@step (drive_server 7) no_mime)
                (initial (fresh_client ∅) [GetDiskSpace; ListDirs "/"]) cfg /\
    w_log (world_of (cfg_state cfg)) =
      w_log (world_of (fresh_client ∅)) ++ [status_request "user"; status_request "user"].
Proof.
  apply (@concurrent_first_calls_race (drive_server 7) no_mime GetDiskSpace (ListDirs "/")
           (fresh_client ∅)).
  reflexivity.
Defined.

(** [drive_server 7] resolves every user to the index [7]. *)
Lemma drive_server_resolves : @resolves_to (drive_server 7) (VInt 7).
Proof.
  intros l u r data rv i R J G1 G2. cbn in R. injection R as <-.
  vm_compute in J. injection J as <-. vm_compute in G1. injection G1 as <-.
  vm_compute in G2. by injection G2 as <-.
Qed.

Lemma race_benign_if_idempotent_witness :
  exists cfg, rtc (@step (drive_server 7) no_mime)
                (initial (fresh_client ∅) [GetDiskSpace; ListDirs "/"]) cfg /\
    length (w_log (world_of (cfg_state cfg))) = 4 /\
    exists l, w_log (world_of (cfg_state cfg)) = w_log (world_of (fresh_client ∅)) ++ l /\
              Forall (uses_index (VInt 7)) l.
Proof.
  destruct race_then_bodies as (cfg & Hr & Hl). exists cfg. split_and!; [done|by rewrite Hl|].
  apply (@race_benign_if_idempotent (drive_server 7) no_mime (VInt 7)
           [GetDiskSpace; ListDirs "/"] (fresh_client ∅)).
  - reflexivity.
  - apply drive_server_resolves.
  - left. reflexivity.
  - exact Hr.
Defined.
