(* ===== verification/Login.v ===== *)
(** * The login handshake [get_ndrive]

    [get_ndrive(nid, npw)] (pyncloud.py, lines 26-45):
    - fetches the key material with [requests.get] (outside the session);
    - encrypts the credentials with [_encrypt] (Encrypt.v);
    - posts the login form through a new [requests.Session];
    - extracts the redirect URL with [re.search(...).group(1)] on the
      pattern [location\.replace\(Q([^Q]+)Q\)], Q standing for a double
      quote;
    - follows it with [session.get] and returns [Ndrive(nid, session)].

    [re_search_redirect] is the regular-expression search for that one
    pattern; [redirect_search_correct] proves it returns the leftmost
    match of the pattern.  The possible runs of the handshake are the
    inductive relation [handshake]: every run of [get_ndrive] is one of
    them ([get_ndrive_handshake]). *)

From S2P Require Import Prelude Python PyStr Framing Rsa Encrypt FileSystem Http Client.

(** ** The redirect pattern *)

Definition quote : ascii := ascii_of_nat 34.

(** [location.replace(] and a double quote *)
Definition redirect_prefix : string := "location.replace(" +:+ String quote "".
(** a double quote and [)] *)
Definition redirect_suffix : string := String quote ")".

(** [[^Q]+]: the longest run of characters other than a double quote. *)
Fixpoint span_nonquote (s : string) : string * string :=
  match s with
  | EmptyString => ("", "")
  | String c r =>
      if decide (c = quote) then ("", s)
      else let '(run, rest) := span_nonquote r in (String c run, rest)
  end.

(** The pattern matched at the start of [s]: the group, if any.  Once
    [[^Q]+] has consumed its longest run the next character is a quote or
    nothing, so backtracking to a shorter run cannot succeed. *)
Definition match_at (s : string) : option string :=
  if String.prefix redirect_prefix s then
    let '(run, rest) := span_nonquote (drop_str (String.length redirect_prefix) s) in
    if String.eqb run "" then None
    else if String.prefix redirect_suffix rest then Some run else None
  else None.

(** [re.search(pattern, s).group(1)], [None] when there is no match. *)
Fixpoint re_search_redirect (s : string) : option string :=
  match match_at s with
  | Some g => Some g
  | None => match s with
            | EmptyString => None
            | String _ r => re_search_redirect r
            end
  end.

(** ** The handshake *)

Definition keys_url : string := "http://static.nid.naver.com/enclogin/keys.nhn".
Definition login_url : string := "https://nid.naver.com/nidlogin.login".

Definition key_request : request := mkRequest GET keys_url [] [] "" [] false.

Definition login_form (encnm encpw : string) : list (string * pyval) :=
  [("url", VStr "www.naver.com"); ("svctype", VStr "0"); ("smart_level", VStr "1");
   ("enc_url", VStr "http0X0.0000000000001P-10220.0000000.000000www.naver.com");
   ("enctp", VStr "1"); ("encnm", VStr encnm); ("encpw", VStr encpw)].

Definition login_request (encnm encpw : string) : request :=
  session_post login_url (login_form encnm encpw).

Definition finalize_request (url : string) : request := session_get url [].

Definition no_match_error : exc := AttributeError "'NoneType' object has no attribute 'group'".

Section Handshake.
Context `{Transport}.

Definition get_ndrive (ent : entropy) (nid npw : string) : PyM world Ndrive :=
  resp ← send key_request;
  '(encnm, encpw) ← lift (_encrypt ent (rs_content resp) nid npw);
  response ← send (login_request encnm encpw);
  finalize_url ← lift (match re_search_redirect (rs_content response) with
                       | Some u => Ok u
                       | None => raise no_match_error
                       end);
  send (finalize_request finalize_url);;
  mret (Ndrive_init nid).
End Handshake.

(** ** The pattern, declaratively *)

Definition no_quote (g : string) : Prop := quote ∉ String.list_ascii_of_string g.

(** [s] holds a match of the pattern after [pre], with group [g]. *)
Definition redirect_at (s pre g post : string) : Prop :=
  s = pre +:+ (redirect_prefix +:+ (g +:+ (redirect_suffix +:+ post))) /\
  g <> "" /\ no_quote g.

(** ** The possible runs of the handshake

    An exchange is a request with the transport's answer.  [handshake]
    lists the exchange sequences of a login and their outcome: the key
    server unreachable, key material [_encrypt] rejects, the login server
    unreachable, a login page without the redirect, the redirect target
    unreachable, or success. *)
Inductive handshake (ent : entropy) (nid npw : string) :
    list (request * reply) -> result Ndrive -> Prop :=
| hs_key_unreachable :
    handshake ent nid npw [(key_request, NetFail)] (Err (ConnectionError keys_url))
| hs_bad_key (key : response) (e : exc) :
    _encrypt ent (rs_content key) nid npw = Err e ->
    handshake ent nid npw [(key_request, Reply key)] (Err e)
| hs_login_unreachable (key : response) (a b : string) :
    _encrypt ent (rs_content key) nid npw = Ok (a, b) ->
    handshake ent nid npw [(key_request, Reply key); (login_request a b, NetFail)]
      (Err (ConnectionError login_url))
| hs_no_redirect (key page : response) (a b : string) :
    _encrypt ent (rs_content key) nid npw = Ok (a, b) ->
    re_search_redirect (rs_content page) = None ->
    handshake ent nid npw [(key_request, Reply key); (login_request a b, Reply page)]
      (Err no_match_error)
| hs_finalize_unreachable (key page : response) (a b u : string) :
    _encrypt ent (rs_content key) nid npw = Ok (a, b) ->
    re_search_redirect (rs_content page) = Some u ->
    handshake ent nid npw [(key_request, Reply key); (login_request a b, Reply page);
                           (finalize_request u, NetFail)]
      (Err (ConnectionError u))
| hs_done (key page fin : response) (a b u : string) :
    _encrypt ent (rs_content key) nid npw = Ok (a, b) ->
    re_search_redirect (rs_content page) = Some u ->
    handshake ent nid npw [(key_request, Reply key); (login_request a b, Reply page);
                           (finalize_request u, Reply fin)]
      (Ok (Ndrive_init nid)).

(** ** Lemmas on the pattern *)

Lemma redirect_prefix_length : String.length redirect_prefix = 18%nat.
Proof. reflexivity. Qed.

Lemma span_nonquote_app (g t : string) :
  no_quote g -> span_nonquote (g +:+ String quote t) = (g, String quote t).
Proof.
  unfold no_quote. induction g as [|c g IH]; intros Hq; str_simpl.
  - done.
  - case_decide as Hc; [subst; destruct Hq; left|].
    rewrite IH; [done|]. intros Hin; apply Hq; by right.
Qed.

Lemma span_nonquote_spec (s run rest : string) :
  span_nonquote s = (run, rest) ->
  s = run +:+ rest /\ no_quote run /\ (forall c r, rest = String c r -> c = quote).
Proof.
  unfold no_quote. revert run rest; induction s as [|c s IH]; intros run rest Hs; simpl in Hs.
  - simplify_eq/=. split_and!; [done|by inversion 1|done].
  - case_decide as Hc.
    + simplify_eq/=. split_and!; [done|by inversion 1|by intros ?? [= -> _]].
    + destruct (span_nonquote s) as [run' rest'] eqn:E. simplify_eq/=.
      destruct (IH _ _ eq_refl) as (-> & Hq & Hr). str_simpl.
      split_and!; [done| |done]. by intros [<-|?]%elem_of_cons.
Qed.

(** [match_at] matches the pattern at the start of the string. *)
Lemma match_at_spec (s g : string) :
  match_at s = Some g <-> exists post, redirect_at s "" g post.
Proof.
  unfold match_at, redirect_at. split.
  - destruct (String.prefix redirect_prefix s) eqn:Hp; [|done].
    apply string_prefix_spec in Hp as [t ->]. rewrite drop_str_append.
    destruct (span_nonquote t) as [run rest] eqn:Hs.
    destruct (String.eqb_spec run "") as [|Hne]; [done|].
    destruct (String.prefix redirect_suffix rest) eqn:Hp; [|done].
    apply string_prefix_spec in Hp as [post ->]. intros [= <-].
    destruct (span_nonquote_spec _ _ _ Hs) as (-> & Hq & _). by exists post.
  - intros (post & -> & Hne & Hq). rewrite append_nil_l.
    rewrite (proj2 (string_prefix_spec _ _)) by eauto. rewrite drop_str_append.
    unfold redirect_suffix at 1. rewrite append_cons, span_nonquote_app by done.
    destruct (String.eqb_spec g "") as [|_]; [done|].
    rewrite <- append_cons. fold redirect_suffix.
    by rewrite (proj2 (string_prefix_spec _ _)) by eauto.
Qed.

Lemma redirect_at_match (s pre g post : string) :
  redirect_at s pre g post -> match_at (drop_str (String.length pre) s) = Some g.
Proof.
  intros (-> & Hne & Hq). rewrite drop_str_append. apply match_at_spec.
  exists post. split_and!; [by str_simpl|done|done].
Qed.

Lemma redirect_at_empty (pre g post : string) : ~ redirect_at "" pre g post.
Proof.
  intros [H _]. apply (f_equal String.length) in H.
  rewrite !string_length_append, redirect_prefix_length in H. simpl in H. lia.
Qed.

Lemma redirect_at_cons (c : ascii) (s pre g post : string) :
  redirect_at (String c s) pre g post ->
  pre = "" \/ exists pre', pre = String c pre' /\ redirect_at s pre' g post.
Proof.
  intros (H & Hne & Hq). destruct pre as [|d pre]; [by left|right].
  rewrite append_cons in H. injection H as -> ->. by exists pre.
Qed.

Lemma redirect_at_shift (c : ascii) (s pre g post : string) :
  redirect_at s pre g post -> redirect_at (String c s) (String c pre) g post.
Proof. intros (-> & ?). split; [by rewrite append_cons|done]. Qed.

Lemma re_search_sound (s g : string) :
  re_search_redirect s = Some g ->
  exists pre post, redirect_at s pre g post /\
    forall pre' g' post', redirect_at s pre' g' post' -> (String.length pre <= String.length pre')%nat.
Proof.
  induction s as [|c s IH]; [done|]. cbn [re_search_redirect].
  destruct (match_at (String c s)) as [g0|] eqn:Em.
  - intros [= <-]. apply match_at_spec in Em as [post Hm].
    exists "", post. split; [done|]. simpl. lia.
  - intros Hs. destruct (IH Hs) as (pre & post & Hm & Hmin).
    exists (String c pre), post. split; [by apply redirect_at_shift|].
    intros pre' g' post' Hm'.
    destruct (redirect_at_cons _ _ _ _ _ Hm') as [->|(pre'' & -> & Hm'')].
    + apply redirect_at_match in Hm'. simpl in Hm'. congruence.
    + simpl. specialize (Hmin _ _ _ Hm''). lia.
Qed.

Lemma re_search_none (s pre g post : string) :
  re_search_redirect s = None -> ~ redirect_at s pre g post.
Proof.
  revert pre; induction s as [|c s IH]; intros pre; [intros _; apply redirect_at_empty|].
  cbn [re_search_redirect]. destruct (match_at (String c s)) eqn:Em; [done|].
  intros Hs Hm. destruct (redirect_at_cons _ _ _ _ _ Hm) as [->|(pre' & -> & Hm')].
  - apply redirect_at_match in Hm. simpl in Hm. congruence.
  - by apply (IH pre').
Qed.

Section Answered.
Context `{Transport}.

(** The exchanges are the transport's answers, each given the requests
    sent before it. *)
Fixpoint answered (log : list request) (ex : list (request * reply)) : Prop :=
  match ex with
  | [] => True
  | (rq, rp) :: ex' => respond log rq = rp /\ answered (log ++ [rq]) ex'
  end.
End Answered.

(** Close a run of the handshake with the exchanges [ex]. *)
Ltac hs_close ex :=
  exists ex; cbn [map fst answered]; split_and!;
  try (by rewrite <- ?app_assoc); try done; econstructor; eauto.

(** ** Properties *)

(** C6: [re_search_redirect] implements [re.search] on the redirect
    pattern: it returns [g] exactly when the page holds
    [location.replace(], a double quote, a non-empty group [g] without a
    double quote, a double quote and [)], and no match of the pattern
    starts further left. *)
Theorem re_search_redirect_spec (s g : string) :
  re_search_redirect s = Some g <->
  exists pre post, redirect_at s pre g post /\
    forall pre' g' post', redirect_at s pre' g' post' ->
      (String.length pre <= String.length pre')%nat.
Proof.
  split; [apply re_search_sound|]. intros (pre & post & Hm & Hmin).
  destruct (re_search_redirect s) as [g0|] eqn:E.
  - destruct (re_search_sound _ _ E) as (pre0 & post0 & Hm0 & Hmin0).
    assert (String.length pre = String.length pre0) as Hl
      by (specialize (Hmin _ _ _ Hm0); specialize (Hmin0 _ _ _ Hm); lia).
    apply redirect_at_match in Hm, Hm0. rewrite Hl in Hm. congruence.
  - exfalso. exact (re_search_none _ _ _ _ E Hm).
Qed.

Section Properties.
Context `{Transport}.

(** C2: every run of [get_ndrive] is one of the runs of the
    handshake: the requests it sends are, in order, the key request,
    the login form carrying the key name and the hex ciphertext
    [_encrypt] computed from the key server's answer, and the redirect
    found in the login page, each sent only when the step before it
    succeeded; the answers are the transport's; the outcome is the one
    the handshake gives, and the file system is untouched. *)
Theorem get_ndrive_handshake (ent : entropy) (nid npw : string) (w : world) :
  exists ex,
    w_log (snd (get_ndrive ent nid npw w)) = w_log w ++ map fst ex /\
    w_fs (snd (get_ndrive ent nid npw w)) = w_fs w /\
    answered (w_log w) ex /\
    handshake ent nid npw ex (fst (get_ndrive ent nid npw w)).
Proof.
  unfold get_ndrive. unfold_pym. unfold send. simpl.
  destruct (respond (w_log w) key_request) as [|key] eqn:R1; simpl.
  { hs_close [(key_request, NetFail)]. }
  destruct (_encrypt ent (rs_content key) nid npw) as [[a b]|e] eqn:E; simpl.
  2:{ hs_close [(key_request, Reply key)]. }
  destruct (respond _ (login_request a b)) as [|page] eqn:R2; simpl.
  { hs_close [(key_request, Reply key); (login_request a b, NetFail)]. }
  destruct (re_search_redirect (rs_content page)) as [u|] eqn:E2; simpl.
  2:{ hs_close [(key_request, Reply key); (login_request a b, Reply page)]. }
  destruct (respond _ (finalize_request u)) as [|fin] eqn:R3; simpl.
  - hs_close [(key_request, Reply key); (login_request a b, Reply page);
              (finalize_request u, NetFail)].
  - hs_close [(key_request, Reply key); (login_request a b, Reply page);
              (finalize_request u, Reply fin)].
Qed.

(** C3: a successful login, end to end.  When the key server answers
    with key material whose third field is the modulus [p * q] of an RSA
    key with exponent [e] in the fourth, the credentials fit the key, and
    the login server answers the form with a page holding the redirect
    [u], which is reachable, then [get_ndrive] returns
    [Ndrive(nid, session)] with [_useridx] still [None], after sending
    exactly the key request, the login form with the key name and a hex
    ciphertext, and the redirect request; the ciphertext decrypts with
    [d] to the framing of [session_key], [nid] and [npw]. *)
Theorem get_ndrive_logs_in (ent : entropy) (nid npw sk kn f3 f4 u : string) (p q e d : Z)
    (w : world) (j : option pyval) (page fin : response) :
  no_comma sk -> no_comma kn -> no_comma f3 -> no_comma f4 ->
  py_int16 f3 = Ok (p * q)%Z -> py_int16 f4 = Ok e ->
  Z.prime p -> Z.prime q -> p <> q -> (0 < e)%Z -> (0 < d)%Z ->
  ((e * d) mod ((p - 1) * (q - 1)) = 1)%Z ->
  Forall (λ s, String.length s < 256)%nat [sk; nid; npw] ->
  (framed_length [sk; nid; npw] + 11 <= byte_size (p * q)%Z)%nat ->
  entropy_ok ent (byte_size (p * q)%Z - framed_length [sk; nid; npw] - 3) ->
  respond (w_log w) key_request = Reply (mkResponse (key_material sk kn f3 f4) j) ->
  (forall h, respond (w_log w ++ [key_request]) (login_request kn h) = Reply page) ->
  re_search_redirect (rs_content page) = Some u ->
  (forall h, respond (w_log w ++ [key_request; login_request kn h]) (finalize_request u) =
               Reply fin) ->
  exists h c m,
    get_ndrive ent nid npw w =
      (Ok (Ndrive_init nid),
       mkWorld (w_log w ++ [key_request; login_request kn h; finalize_request u]) (w_fs w)) /\
    hex_decode h = Some c /\
    rsa_decrypt c d (p * q)%Z = Ok m /\
    naver_style_split m = Some [sk; nid; npw].
Proof.
  intros ???? H3 H4 Hp Hq Hpq He Hd Hed Hf Hk Hent R1 R2 Hu R3.
  destruct (encrypt_decrypts ent sk kn f3 f4 nid npw p q e d) as (h & c & m & E & Hdec);
    try done.
  exists h, c, m. split; [|done].
  unfold get_ndrive. unfold_pym. unfold send. simpl.
  rewrite R1; simpl. rewrite E; simpl. rewrite R2; simpl. rewrite Hu; simpl.
  rewrite <- app_assoc. simpl. rewrite R3; simpl. by rewrite <- app_assoc.
Qed.

(** C22: a login page without the [location.replace] redirect (a wrong
    password, a captcha) makes [get_ndrive] raise the [AttributeError]
    of [None.group], after the key request and the login post and
    before any other request. *)
Theorem get_ndrive_missing_redirect (ent : entropy) (nid npw : string) (w : world)
    (key page : response) (a b : string) :
  respond (w_log w) key_request = Reply key ->
  _encrypt ent (rs_content key) nid npw = Ok (a, b) ->
  respond (w_log w ++ [key_request]) (login_request a b) = Reply page ->
  re_search_redirect (rs_content page) = None ->
  get_ndrive ent nid npw w =
    (Err no_match_error, mkWorld (w_log w ++ [key_request; login_request a b]) (w_fs w)).
Proof.
  intros R1 E R2 E2. unfold get_ndrive. unfold_pym. unfold send. simpl.
  rewrite R1; simpl. rewrite E; simpl. rewrite R2; simpl. rewrite E2; simpl.
  by rewrite <- app_assoc.
Qed.
End Properties.

(** ** Witnesses *)

Definition test_key_response : response :=
  mkResponse (key_material "abc123" "keyA" test_modulus_hex "10001") None.

(** The hex ciphertext [_encrypt] computes for the test key, with the
    entropy source [ones_source]. *)
Definition test_encpw : string := "00b768e0156cf932d40e9cae37cf9a38b347be0d172e".

(** A server answering the key request with the test key and every other
    request with [page]. *)
Definition page_server (page : string) : Transport :=
  {| respond := λ _ rq, if String.eqb (rq_url rq) keys_url
                        then Reply test_key_response else Reply (mkResponse page None) |}.

Lemma get_ndrive_missing_redirect_witness :
  @get_ndrive (page_server "<p>wrong password</p>") ones_source "u" "p" (mkWorld [] ∅) =
    (Err no_match_error, mkWorld [key_request; login_request "keyA" test_encpw] ∅).
Proof.
  apply (@get_ndrive_missing_redirect (page_server "<p>wrong password</p>") ones_source
           "u" "p" (mkWorld [] ∅) test_key_response (mkResponse "<p>wrong password</p>" None)
           "keyA" test_encpw);
    vm_compute; reflexivity.
Defined.

(** A login page redirecting to the Naver home page. *)
Definition redirect_page : string :=
  "<script>" +:+ redirect_prefix +:+ "http://www.naver.com/" +:+ redirect_suffix +:+ "</script>".

Lemma get_ndrive_logs_in_witness :
  exists h c m,
    @get_ndrive (page_server redirect_page) ones_source "u" "p" (mkWorld [] ∅) =
      (Ok (Ndrive_init "u"),
       mkWorld [key_request; login_request "keyA" h; finalize_request "http://www.naver.com/"] ∅) /\
    hex_decode h = Some c /\
    rsa_decrypt c test_d (test_p * test_q)%Z = Ok m /\
    naver_style_split m = Some ["abc123"; "u"; "p"].
Proof.
  apply (@get_ndrive_logs_in (page_server redirect_page) ones_source "u" "p" "abc123" "keyA"
           test_modulus_hex "10001" "http://www.naver.com/" test_p test_q 65537 test_d
           (mkWorld [] ∅) None (mkResponse redirect_page None) (mkResponse redirect_page None)).
  1-4: no_comma_tac.
  1-2: vm_compute; reflexivity.
  1: exact test_p_prime.
  1: exact test_q_prime.
  1-6: apply (bool_decide_unpack _); vm_compute; reflexivity.
  1: apply ones_source_ok; vm_compute; lia.
  all: intros; vm_compute; reflexivity.
Defined.
