(* ===== verification/AuthState.v ===== *)
(** * The spec's session states

    The spec (section 4.2) describes the client as the state machine
    [Unauthenticated -> Authenticating -> Authenticated(unresolved) ->
    Authenticated(resolved)], with the terminal state [LoginFailed] when
    a step of the handshake fails.  [spec_step] is that machine.  The
    code has no state variable for it: before [get_ndrive] returns
    there is no client, and afterwards the state is whether
    [self._useridx] is truthy, which is what [if not self._useridx]
    tests.  [auth_of] is this abstraction.  The theorem of the file is
    the refinement: in a login followed by any sequence of calls, the
    caller catching what they raise, every two consecutive states are
    equal or a transition of [spec_step]. *)

From S2P Require Import Prelude Python Rsa Http Client Login.

Inductive auth_state : Type :=
| Unauthenticated
| Authenticating
| Authenticated (resolved : bool)
| LoginFailed.

Inductive spec_step : auth_state -> auth_state -> Prop :=
| begin_login : spec_step Unauthenticated Authenticating
| login_ok : spec_step Authenticating (Authenticated false)
| login_fails : spec_step Authenticating LoginFailed
| resolve_index : spec_step (Authenticated false) (Authenticated true).

(** The state of a client object: resolved when [self._useridx] is
    truthy. *)
Definition auth_of (me : Ndrive) : auth_state := Authenticated (truthy (_useridx me)).

(** Consecutive states of [l] are equal or a transition of the spec. *)
Fixpoint spec_path (l : list auth_state) : Prop :=
  match l with
  | a :: ((b :: _) as l') => (a = b \/ spec_step a b) /\ spec_path l'
  | _ => True
  end.

Section Traces.
Context `{Transport} `{MimeTypes}.

(** The states a caller observes running the calls [cs] in order,
    catching what each raises and going on from the state it left:
    [for c in cs: try: c() except Exception: pass]. *)
Fixpoint call_trace (cs : list call) (s : cstate) : list auth_state :=
  match cs with
  | [] => []
  | c :: cs' => let s' := snd (run_call c s) in auth_of (self s') :: call_trace cs' s'
  end.

(** A session: the states before and during [get_ndrive], then the
    client's after each call, or [LoginFailed]. *)
Definition session_trace (ent : entropy) (nid npw : string) (cs : list call) (w : world)
    : list auth_state :=
  Unauthenticated :: Authenticating ::
    match get_ndrive ent nid npw w with
    | (Ok me, w1) => auth_of me :: call_trace cs (mkCState me w1)
    | (Err _, _) => [LoginFailed]
    end.
End Traces.

(** ** Lemmas *)

Section Lemmas.
Context `{Transport} `{MimeTypes}.

(** A resolved client stays resolved: the resolution step does nothing. *)
Lemma run_call_resolved (c : call) (s : cstate) :
  truthy (_useridx (self s)) = true -> truthy (_useridx (self (snd (run_call c s)))) = true.
Proof. intros Ht. rewrite run_call_self, resolve_truthy by done. done. Qed.

(** One call moves the client along the spec. *)
Lemma run_call_spec_step (c : call) (s : cstate) :
  auth_of (self s) = auth_of (self (snd (run_call c s))) \/
  spec_step (auth_of (self s)) (auth_of (self (snd (run_call c s)))).
Proof.
  unfold auth_of. destruct (truthy (_useridx (self s))) eqn:Ht.
  - left. by rewrite run_call_resolved.
  - destruct (truthy (_useridx (self (snd (run_call c s))))); [right; constructor|by left].
Qed.

Lemma call_trace_path (cs : list call) (s : cstate) :
  spec_path (auth_of (self s) :: call_trace cs s).
Proof.
  revert s; induction cs as [|c cs IH]; intros s; [done|].
  cbn [call_trace spec_path]. split; [apply run_call_spec_step|apply IH].
Qed.

(** [get_ndrive] returns only [Ndrive(nid)], with [_useridx] [None]. *)
Lemma get_ndrive_ok (ent : entropy) (nid npw : string) (w : world) (me : Ndrive) :
  fst (get_ndrive ent nid npw w) = Ok me -> me = Ndrive_init nid.
Proof.
  unfold get_ndrive. unfold_pym. unfold send.
  repeat (case_match; simplify_eq/=); congruence.
Qed.
End Lemmas.

(** ** Properties *)

Section Properties.
Context `{Transport} `{MimeTypes}.

(** C16: the client refines the spec's state machine.  In a login
    followed by any calls, the observed states go [Unauthenticated],
    [Authenticating], then [LoginFailed] when the handshake fails, or
    [Authenticated(unresolved)] and on through the calls, each step being
    a transition of the spec or no change: in particular a resolved
    client never becomes unresolved again.  (A backend index [0] leaves
    the client unresolved, a change the machine allows as none.) *)
Theorem session_refines_spec (ent : entropy) (nid npw : string) (cs : list call) (w : world) :
  spec_path (session_trace ent nid npw cs w).
Proof.
  unfold session_trace. cbn [spec_path]. split; [right; constructor|].
  pose proof (get_ndrive_ok ent nid npw w) as Hok.
  destruct (get_ndrive ent nid npw w) as [[me|e] w1]; cbn [spec_path fst] in *.
  - specialize (Hok me eq_refl) as ->. split; [right; constructor|].
    apply (call_trace_path cs (mkCState (Ndrive_init nid) w1)).
  - split; [right; constructor|done].
Qed.
End Properties.
