(* ===== verification/Packaging.v ===== *)
(** * Packaging: [setup.py] and the modules pyncloud.py imports

    [src/setup.py] is one call, [distutils.core.setup] with keyword arguments; its
    keyword arguments are [setup_kwargs], in the order written (Python
    forbids a keyword given twice, so the keys are distinct); line 1 imports
    [setup] from [distutils.core] ([setup_import]), and [setup_py] is the
    run of the script.
    pyncloud.py's import statements (lines 1-7) are [pyncloud_imports].

    [distutils.core.setup] builds a [distutils.dist.Distribution] from the
    keywords.  Python 2.7's [Distribution.__init__] sets each keyword that
    names an attribute of its [DistributionMetadata] or of itself, and for
    any other keyword emits the warning [Unknown distribution option:
    'key'] and drops it.  [distutils_setup] is that loop, modelled from the
    library (it is not code of the repository): [metadata_attrs] and
    [distribution_attrs] are the attributes of Python 2.7's classes.  The
    special treatment of the keyword [options] is left out: [setup.py]
    does not pass it.  Python 2 iterates [attrs.items()] in hash order;
    the model iterates in the written order, which changes only the
    order of several warnings, and [setup.py] yields one.  [setup_of]
    also gives [setuptools.setup], whose [Distribution] accepts the
    keywords setuptools registers ([setuptools_keywords]), to tell the two
    imports apart. *)

From S2P Require Import Prelude.

(** A keyword argument of [setup()]: a string or a list of strings. *)
Inductive setup_value : Type :=
| SStr (s : string)
| SList (l : list string).

(** ** The code *)

(** [setup(...)] in src/setup.py, lines 4-22. *)
Definition setup_kwargs : list (string * setup_value) :=
  [("name", SStr "pyncloud");
   ("packages", SList ["pyncloud"]);
   ("version", SStr "0.0.3");
   ("description", SStr "Simple python library for Naver Cloud (https://cloud.naver.com).");
   ("long_description", SStr "WIP");
   ("license", SStr "MIT License");
   ("author", SStr "Sl Kim");
   ("author_email", SStr "sl@lxf.kr");
   ("url", SStr "https://github.com/lexifdev/pyncloud");
   ("classifiers", SList ["Development Status :: 2 - Pre-Alpha";
                          "License :: OSI Approved :: MIT License"]);
   ("install_requires", SList ["rsa"; "requests"])].

(** The modules imported by pyncloud.py, lines 1-7; [from datetime import
    datetime] imports the module [datetime]. *)
Definition pyncloud_imports : list string :=
  ["mimetypes"; "os"; "re"; "shutil"; "datetime"; "rsa"; "requests"].

(** ** The library *)

(** Membership in a list of names. *)
Definition mem (x : string) (l : list string) : bool := existsb (String.eqb x) l.
Arguments mem : simpl never.

(** Modules of Python 2.7's standard library (the part of its module
    index a client library of this kind draws on). *)
Definition stdlib_modules : list string :=
  ["base64"; "collections"; "datetime"; "errno"; "functools"; "hashlib"; "httplib";
   "io"; "itertools"; "json"; "logging"; "math"; "mimetypes"; "os"; "random"; "re";
   "shutil"; "socket"; "string"; "struct"; "subprocess"; "sys"; "tempfile";
   "threading"; "time"; "urllib"; "urllib2"; "urlparse"].

(** The attributes of Python 2.7's [distutils.dist.DistributionMetadata]. *)
Definition metadata_attrs : list string :=
  ["name"; "version"; "author"; "author_email"; "maintainer"; "maintainer_email";
   "url"; "license"; "description"; "long_description"; "keywords"; "platforms";
   "classifiers"; "download_url"; "provides"; "requires"; "obsoletes"].

(** The attributes of Python 2.7's [distutils.dist.Distribution] that a
    keyword of [setup()] may set. *)
Definition distribution_attrs : list string :=
  ["verbose"; "dry_run"; "help"; "cmdclass"; "command_packages"; "script_name";
   "script_args"; "command_options"; "dist_files"; "packages"; "package_data";
   "package_dir"; "py_modules"; "libraries"; "headers"; "ext_modules"; "ext_package";
   "include_dirs"; "extra_path"; "scripts"; "data_files"; "password"].

(** A distribution: the keywords set on its metadata and on itself. *)
Record distribution := mkDistribution {
  dist_metadata : list (string * setup_value);
  dist_attrs : list (string * setup_value)
}.

(** [repr(key)] of a str without quotes or backslashes. *)
Definition unknown_option (k : string) : string :=
  "Unknown distribution option: '" +:+ k +:+ "'".

(** The loop of [Distribution.__init__] over the keywords, for a
    distribution class whose own attributes are [dattrs]: the warnings
    emitted and the distribution built. *)
Fixpoint dist_options (dattrs : list string) (kw : list (string * setup_value))
    : list string * distribution :=
  match kw with
  | [] => ([], mkDistribution [] [])
  | (k, v) :: kw' =>
      let '(ws, d) := dist_options dattrs kw' in
      if mem k metadata_attrs then (ws, mkDistribution ((k, v) :: dist_metadata d) (dist_attrs d))
      else if mem k dattrs then (ws, mkDistribution (dist_metadata d) ((k, v) :: dist_attrs d))
      else (unknown_option k :: ws, d)
  end.

(** [distutils.core.setup] *)
Definition distutils_setup : list (string * setup_value) -> list string * distribution :=
  dist_options distribution_attrs.

(** The keywords setuptools registers (its [distutils.setup_keywords]
    entry points), which its [Distribution] accepts as attributes. *)
Definition setuptools_keywords : list string :=
  ["eager_resources"; "namespace_packages"; "extras_require"; "install_requires";
   "setup_requires"; "tests_require"; "entry_points"; "test_suite"; "zip_safe";
   "exclude_package_data"; "include_package_data"; "dependency_links"; "test_loader";
   "python_requires"; "use_2to3"; "convert_2to3_doctests"; "use_2to3_fixers"].

(** [setuptools.setup] *)
Definition setuptools_setup : list (string * setup_value) -> list string * distribution :=
  dist_options (distribution_attrs ++ setuptools_keywords).

(** The function [setup] imported from module [m]. *)
Definition setup_of (m : string) : list (string * setup_value) -> list string * distribution :=
  if String.eqb m "setuptools" then setuptools_setup else distutils_setup.

(** src/setup.py, line 1: [from distutils.core import setup]. *)
Definition setup_import : string := "distutils.core".

(** Running src/setup.py: the imported [setup] on the keywords. *)
Definition setup_py : list string * distribution := setup_of setup_import setup_kwargs.

(** A keyword [Distribution.__init__] knows. *)
Definition known (k : string) : bool := mem k metadata_attrs || mem k distribution_attrs.
Arguments known : simpl never.

(** ** Lemmas *)

Lemma known_unfold (k : string) : known k = mem k metadata_attrs || mem k distribution_attrs.
Proof. reflexivity. Qed.

(** The warnings name the unknown keywords, in order. *)
Lemma distutils_setup_warnings (kw : list (string * setup_value)) :
  fst (distutils_setup kw) = map unknown_option (List.filter (λ k, negb (known k)) (map fst kw)).
Proof.
  unfold distutils_setup. induction kw as [|[k v] kw IH]; [done|]. cbn [dist_options map List.filter].
  destruct (dist_options distribution_attrs kw) as [ws d]. simpl in IH |- *.
  rewrite (known_unfold k).
  destruct (mem k metadata_attrs), (mem k distribution_attrs); simpl; by rewrite IH.
Qed.

Lemma mem_eqb (k k' : string) (l : list string) :
  String.eqb k k' = true -> mem k l = mem k' l.
Proof. by intros ->%String.eqb_eq. Qed.

(** The metadata holds the keywords it has an attribute for. *)
Lemma distutils_setup_metadata (kw : list (string * setup_value)) (k : string) :
  assoc (dist_metadata (snd (distutils_setup kw))) k =
    if mem k metadata_attrs then assoc kw k else None.
Proof.
  unfold distutils_setup. induction kw as [|[k' v] kw IH]; [by destruct (mem k _)|].
  cbn [dist_options assoc]. destruct (dist_options distribution_attrs kw) as [ws d]. simpl in IH.
  destruct (String.eqb k k') eqn:Ek.
  - rewrite (mem_eqb _ _ _ Ek). destruct (mem k' metadata_attrs) eqn:Em; simpl; [by rewrite Ek|].
    destruct (mem k' distribution_attrs); simpl; rewrite IH, (mem_eqb _ _ _ Ek); by rewrite Em.
  - destruct (mem k' metadata_attrs); [|destruct (mem k' distribution_attrs)]; simpl;
      rewrite ?Ek; apply IH.
Qed.

(** The distribution holds the other keywords it has an attribute for. *)
Lemma distutils_setup_attrs (kw : list (string * setup_value)) (k : string) :
  assoc (dist_attrs (snd (distutils_setup kw))) k =
    if negb (mem k metadata_attrs) && mem k distribution_attrs then assoc kw k else None.
Proof.
  unfold distutils_setup. induction kw as [|[k' v] kw IH]; [by destruct (_ && _)|].
  cbn [dist_options assoc]. destruct (dist_options distribution_attrs kw) as [ws d]. simpl in IH.
  destruct (String.eqb k k') eqn:Ek.
  - rewrite !(mem_eqb _ _ _ Ek). destruct (mem k' metadata_attrs) eqn:Em; simpl.
    + by rewrite IH, !(mem_eqb _ _ _ Ek), Em.
    + destruct (mem k' distribution_attrs) eqn:Ed; simpl; [by rewrite Ek|].
      by rewrite IH, !(mem_eqb _ _ _ Ek), Em, Ed.
  - destruct (mem k' metadata_attrs); [|destruct (mem k' distribution_attrs)]; simpl;
      rewrite ?Ek; apply IH.
Qed.

(** ** Properties *)

(** C33: the dependencies are declared where the imported [setup] does
    not look.  The modules pyncloud.py imports from outside Python's
    standard library are [rsa] and [requests], and [setup.py] lists
    exactly these under [install_requires]; but line 1 imports [setup]
    from [distutils.core], which has no such option: running [setup.py]
    warns [Unknown distribution option: 'install_requires'], records no
    [requires] in the metadata, and keeps every other keyword.  A plain
    [python setup.py install] thus installs pyncloud without the modules
    it imports. *)
Theorem setup_drops_install_requires :
  List.filter (λ m, negb (mem m stdlib_modules)) pyncloud_imports = ["rsa"; "requests"] /\
  assoc setup_kwargs "install_requires" = Some (SList ["rsa"; "requests"]) /\
  fst setup_py = [unknown_option "install_requires"] /\
  assoc (dist_metadata (snd setup_py)) "requires" = None /\
  (forall k v, assoc setup_kwargs k = Some v -> k <> "install_requires" ->
     assoc (dist_metadata (snd setup_py)) k = Some v \/
     assoc (dist_attrs (snd setup_py)) k = Some v).
Proof.
  unfold setup_py, setup_of, setup_import. cbn [String.eqb Ascii.eqb Bool.eqb].
  split_and!; [reflexivity|reflexivity| |by rewrite distutils_setup_metadata|].
  - by rewrite distutils_setup_warnings.
  - intros k v Hk Hne. rewrite distutils_setup_metadata, distutils_setup_attrs, Hk.
    pose proof (assoc_in _ _ _ Hk) as Hin. simpl in Hin.
    repeat destruct Hin as [<-|Hin]; try (vm_compute; auto; fail); done.
Qed.
